(** * NYCDB AI integration: a shallow embedding of the query-to-insight pipeline

    The development follows the JavaScript services of
    [nycdb-ai-integration/backend]: one module per service, the functions
    under their source names.  JavaScript numbers are modelled by exact
    rationals ([Q]) together with the three non-finite values where a division
    can produce them; integers that the code never divides stay in [Z].
    Clock reads ([new Date()], [Date.now()]) and random identifiers are
    explicit arguments. *)

From Stdlib Require Import ZArith QArith Qround Qabs List String Ascii Bool Lia.
From Stdlib Require Import DecimalString.
From Stdlib Require Import Sorting.Permutation Sorting.Sorted.
Import ListNotations.

Local Open Scope string_scope.
Local Open Scope Z_scope.

(* ================================================================== *)
(** * Part I: the embedding *)
(* ================================================================== *)

(** ** JavaScript primitives shared by the services *)

Module Js.

(** *** Numbers *)

(** The value of a JavaScript arithmetic expression: a finite number, [NaN]
    or a signed infinity.  Finite arithmetic is exact; the sign of zero is
    not tracked.  The code computes in binary floating point, so a quotient
    that is exactly a tie of [toFixed(1)] may be printed by the code with
    either neighbour: 601 / 2000 * 100 is computed as 30.049999999999997 and
    printed as 30.0, where the exact 30.05 prints as 30.1. *)
Inductive JsNum : Type :=
| JNum (q : Q)
| JNaN
| JInf (negative : bool).

Definition Qlt_bool (a b : Q) : bool := negb (Qle_bool b a).

(** [a / b] on finite operands. *)
Definition js_div (a b : Q) : JsNum :=
  if Qeq_bool b 0 then
    if Qeq_bool a 0 then JNaN else JInf (Qlt_bool a 0)
  else JNum (a / b).

(** [x * y]. *)
Definition js_mul (x y : JsNum) : JsNum :=
  match x, y with
  | JNaN, _ | _, JNaN => JNaN
  | JNum a, JNum b => JNum (a * b)
  | JInf s, JNum q | JNum q, JInf s =>
      if Qeq_bool q 0 then JNaN else JInf (xorb s (Qlt_bool q 0))
  | JInf s, JInf t => JInf (xorb s t)
  end.

(** [x > y]; every comparison with [NaN] is false. *)
Definition js_gt (x y : JsNum) : bool :=
  match x, y with
  | JNaN, _ | _, JNaN => false
  | JNum a, JNum b => Qlt_bool b a
  | JNum _, JInf negative => negative
  | JInf negative, JNum _ => negb negative
  | JInf s, JInf t => negb s && t
  end.

Definition of_Z (z : Z) : JsNum := JNum (inject_Z z).

(** [Math.round]: the nearest integer, halves towards +infinity. *)
Definition Math_round (x : Q) : Z := Qfloor (x + (1 # 2))%Q.

(** The string returned by [x.toFixed(1)], kept in structured form: a sign
    and a number of tenths for a finite [x] (below 1e21, where [toFixed]
    switches to exponent notation), or one of the three words. *)
Inductive Fixed1 : Type :=
| FxDec (negative : bool) (tenths : Z)
| FxNaN
| FxInf (negative : bool).

(** [toFixed(1)]: for a negative [x] the sign is split off first; then the
    integer [n] with [n / 10] nearest to [x] is taken, the larger one on a tie. *)
Definition toFixed1 (x : JsNum) : Fixed1 :=
  match x with
  | JNum q => FxDec (Qlt_bool q 0) (Qfloor (Qabs q * 10 + (1 # 2))%Q)
  | JNaN => FxNaN
  | JInf s => FxInf s
  end.

(** [parseFloat] on such a string. *)
Definition parseFloat (f : Fixed1) : JsNum :=
  match f with
  | FxDec s n => JNum (if s then - (n # 10) else n # 10)%Q
  | FxNaN => JNaN
  | FxInf s => JInf s
  end.

(** Decimal rendering of an integer, as a template literal prints it. *)
Definition string_of_Z (z : Z) : string := NilZero.string_of_int (Z.to_int z).

Definition string_of_nat (n : nat) : string := string_of_Z (Z.of_nat n).

(** The characters of a [toFixed(1)] result. *)
Definition render (f : Fixed1) : string :=
  match f with
  | FxDec s n =>
      (if s then "-" else "") ++ string_of_Z (n / 10) ++ "." ++ string_of_Z (n mod 10)
  | FxNaN => "NaN"
  | FxInf s => (if s then "-" else "") ++ "Infinity"
  end.

(** *** Strings (ASCII; bytes above 127 are neither letters nor spaces) *)

Definition is_upper (c : ascii) : bool :=
  let n := nat_of_ascii c in Nat.leb 65 n && Nat.leb n 90.

Definition is_lower (c : ascii) : bool :=
  let n := nat_of_ascii c in Nat.leb 97 n && Nat.leb n 122.

Definition is_digit (c : ascii) : bool :=
  let n := nat_of_ascii c in Nat.leb 48 n && Nat.leb n 57.

(** [\s] *)
Definition is_space (c : ascii) : bool :=
  let n := nat_of_ascii c in Nat.leb 9 n && Nat.leb n 13 || Nat.eqb n 32.

(** [\w] *)
Definition is_word (c : ascii) : bool :=
  is_upper c || is_lower c || is_digit c || Nat.eqb (nat_of_ascii c) 95.

Definition lower_char (c : ascii) : ascii :=
  if is_upper c then ascii_of_nat (nat_of_ascii c + 32) else c.

Definition upper_char (c : ascii) : ascii :=
  if is_lower c then ascii_of_nat (nat_of_ascii c - 32) else c.

Fixpoint toLowerCase (s : string) : string :=
  match s with
  | EmptyString => EmptyString
  | String c r => String (lower_char c) (toLowerCase r)
  end.

(** [s.startsWith(p)] *)
Definition startsWith (s p : string) : bool := String.prefix p s.

(** [s.includes(sub)] *)
Fixpoint includes (s sub : string) : bool :=
  if String.prefix sub s then true
  else match s with
       | EmptyString => false
       | String _ r => includes r sub
       end.

Fixpoint trimStart (s : string) : string :=
  match s with
  | String c r => if is_space c then trimStart r else s
  | EmptyString => EmptyString
  end.

Fixpoint trimEnd (s : string) : string :=
  match s with
  | EmptyString => EmptyString
  | String c r =>
      match trimEnd r with
      | EmptyString => if is_space c then EmptyString else String c EmptyString
      | t => String c t
      end
  end.

(** [s.trim()] *)
Definition trim (s : string) : string := trimEnd (trimStart s).

(** [s.substring(0, n)] *)
Fixpoint take (n : nat) (s : string) : string :=
  match n, s with
  | O, _ => EmptyString
  | _, EmptyString => EmptyString
  | S k, String c r => String c (take k r)
  end.

(** [s.charAt(0).toUpperCase() + s.slice(1)] *)
Definition capitalize (s : string) : string :=
  match s with
  | EmptyString => EmptyString
  | String c r => String (upper_char c) r
  end.

(** *** Truthiness of strings *)

(** A string value is falsy when it is [null], [undefined] or empty.  Where a
    column or field is a plain [string], the absent value is the empty
    string; [x || d] is then: *)
Definition or_default (x d : string) : string :=
  if String.eqb x "" then d else x.

Definition truthy (x : string) : bool := negb (String.eqb x "").

(** Where [null] and a string are told apart the field is an [option]. *)
Definition truthy_opt (x : option string) : bool :=
  match x with Some s => truthy s | None => false end.

(** *** Arrays *)

(** [Array.prototype.sort] with a comparator is stable: [before a b] says
    that the comparator is negative on [(a, b)]. *)
Fixpoint insert_by {A : Type} (before : A -> A -> bool) (x : A) (l : list A) : list A :=
  match l with
  | [] => [x]
  | y :: r => if before y x then y :: insert_by before x r else x :: y :: r
  end.

Definition sort_by {A : Type} (before : A -> A -> bool) (l : list A) : list A :=
  fold_right (insert_by before) [] l.

(** *** Objects used as counters *)

(** An object whose values are counters, as [Object.entries] lists it: keys in
    insertion order (no key here is a canonical array index). *)
Definition Counts := list (string * Z).

(** [o[k] = (o[k] || 0) + 1] *)
Fixpoint bump (k : string) (o : Counts) : Counts :=
  match o with
  | [] => [(k, 1)]
  | (k', v) :: r =>
      if String.eqb k' k then (k', v + 1) :: r else (k', v) :: bump k r
  end.

(** [o[k]], [None] for an absent key. *)
Fixpoint get (k : string) (o : Counts) : option Z :=
  match o with
  | [] => None
  | (k', v) :: r => if String.eqb k' k then Some v else get k r
  end.

(** [l.forEach(x => { o[key(x)] = (o[key(x)] || 0) + 1 })] *)
Definition tally {A : Type} (key : A -> string) (l : list A) (o : Counts) : Counts :=
  fold_left (fun counts x => bump (key x) counts) l o.

(** The number of elements of [l] filed under [k]. *)
Definition occurrences {A : Type} (key : A -> string) (k : string) (l : list A) : Z :=
  Z.of_nat (List.length (filter (fun x => String.eqb (key x) k) l)).

(** *** Exceptions *)

(** The outcome of a call that may throw. *)
Inductive Result (A : Type) : Type :=
| Ok (a : A)
| Throw (error : string).

Arguments Ok {A} a.
Arguments Throw {A} error.

Definition bind {A B : Type} (r : Result A) (k : A -> Result B) : Result B :=
  match r with
  | Ok a => k a
  | Throw e => Throw e
  end.

(** [try { body } catch (error) { handler }] *)
Definition try_catch {A : Type} (body : Result A) (handler : string -> A) : A :=
  match body with
  | Ok a => a
  | Throw e => handler e
  end.

(** *** Comparison and arithmetic on every number *)

(** [x >= y]; every comparison with [NaN] is false. *)
Definition js_ge (x y : JsNum) : bool :=
  match x, y with
  | JNaN, _ | _, JNaN => false
  | JNum a, JNum b => Qle_bool b a
  | JNum _, JInf negative => negative
  | JInf negative, JNum _ => negb negative
  | JInf s, JInf t => negb s || t
  end.

(** [Math.abs(x)] *)
Definition js_abs (x : JsNum) : JsNum :=
  match x with
  | JNum q => JNum (Qabs q)
  | JNaN => JNaN
  | JInf _ => JInf false
  end.

(** [x - y] *)
Definition js_sub (x y : JsNum) : JsNum :=
  match x, y with
  | JNaN, _ | _, JNaN => JNaN
  | JNum a, JNum b => JNum (a - b)
  | JNum _, JInf t => JInf (negb t)
  | JInf s, JNum _ => JInf s
  | JInf s, JInf t => if Bool.eqb s t then JNaN else JInf s
  end.

(** [x / y] where either operand may be non-finite. *)
Definition js_quot (x y : JsNum) : JsNum :=
  match x, y with
  | JNaN, _ | _, JNaN => JNaN
  | JNum a, JNum b => js_div a b
  | JNum _, JInf _ => JNum 0
  | JInf s, JNum b => JInf (xorb s (Qlt_bool b 0))
  | JInf _, JInf _ => JNaN
  end.

(** The characters of the number [n / 10], [0 <= n], in a template literal. *)
Definition show_tenths (n : Z) : string :=
  if n mod 10 =? 0 then string_of_Z (n / 10)
  else string_of_Z (n / 10) ++ "." ++ string_of_Z (n mod 10).

(** [`${Math.abs(parseFloat(f))}`] for a [toFixed(1)] result [f]. *)
Definition show_abs (f : Fixed1) : string :=
  match f with
  | FxDec _ n => show_tenths n
  | FxNaN => "NaN"
  | FxInf _ => "Infinity"
  end.

(** [a[i] = update(a[i])] for an index within the array. *)
Fixpoint update_at {A : Type} (update : A -> A) (i : nat) (a : list A) : list A :=
  match a, i with
  | [], _ => []
  | x :: r, O => update x :: r
  | x :: r, S k => x :: update_at update k r
  end.

(** The first character of a string, if there is one, is not white space. *)
Definition startsClean (s : string) : Prop :=
  match s with
  | EmptyString => True
  | String c _ => is_space c = false
  end.

(** The sum of the counters of an object. *)
Definition total (o : Counts) : Z := fold_right (fun e s => snd e + s) 0 o.

End Js.

Notation "x <- c1 ;; c2" := (Js.bind c1 (fun x => c2))
  (at level 61, c1 at next level, right associativity).

(* ================================================================== *)
(** ** data-transformation-service.js: risk scoring *)
(* ================================================================== *)

Module DataTransformation.
Import Js.

(** A row of the risk-assessment query ([pluto] joined with the two violation
    tables).  [yearbuilt] and [total_violations] are integer columns; a null
    [yearbuilt] behaves as [0] in every use the code makes of it. *)
Record RawBuilding := mkRaw {
  bbl : string;
  address : string;
  borough : string;
  bldgclass : string;
  yearbuilt : Z;
  total_violations : Z
}.

(** The row after [transformRiskAssessmentData]'s map: [{...building,
    age_score, violation_score, risk_score, risk_level}]. *)
Record Building := mkBuilding {
  row : RawBuilding;
  age_score : Z;
  violation_score : Z;
  risk_score : Q;
  risk_level : string
}.

(** [calculateBuildingAgeScore]; [currentYear] is [new Date().getFullYear()]. *)
Definition calculateBuildingAgeScore (currentYear yearBuilt : Z) : Z :=
  let age := currentYear - yearBuilt in
  if age >=? 100 then 100
  else if age <=? 10 then 10
  else Math_round (inject_Z (age - 10) * (90 / 90) + 10)%Q.

(** [calculateViolationScore]. *)
Definition calculateViolationScore (violationCount : Z) : Z :=
  if violationCount =? 0 then 0
  else if violationCount >=? 20 then 100
  else Math_round (inject_Z violationCount * 5)%Q.

(** [getRiskLevel]. *)
Definition getRiskLevel (score : Q) : string :=
  if Qle_bool 80 score then "High"
  else if Qle_bool 50 score then "Medium"
  else if Qle_bool 20 score then "Low"
  else "Minimal".

(** The callback of [rows.map] in [transformRiskAssessmentData]; the same
    callback is applied by [retrieveRiskAssessmentData]. *)
Definition scoreBuilding (currentYear : Z) (building : RawBuilding) : Building :=
  let ageScore := calculateBuildingAgeScore currentYear (yearbuilt building) in
  let violationScore := calculateViolationScore (total_violations building) in
  let riskScore := (inject_Z (ageScore + violationScore) / 2)%Q in
  {| row := building;
     age_score := ageScore;
     violation_score := violationScore;
     risk_score := riskScore;
     risk_level := getRiskLevel riskScore |}.

Record RiskMetadata := mkRiskMetadata {
  count : nat;
  queryType : string;
  highRiskCount : nat;
  mediumRiskCount : nat;
  lowRiskCount : nat;
  minimalRiskCount : nat
}.

Definition countLevel (level : string) (data : list Building) : nat :=
  List.length (filter (fun b => String.eqb (risk_level b) level) data).

(** [transformRiskAssessmentData] (the timestamp of the metadata is left out). *)
Definition transformRiskAssessmentData (currentYear : Z) (rows : list RawBuilding)
  : list Building * RiskMetadata :=
  let data := map (scoreBuilding currentYear) rows in
  (data,
   {| count := List.length data;
      queryType := "risk_assessment";
      highRiskCount := countLevel "High" data;
      mediumRiskCount := countLevel "Medium" data;
      lowRiskCount := countLevel "Low" data;
      minimalRiskCount := countLevel "Minimal" data |}).

(** The reference definition, as the specification words it. *)
Definition ref_ageScore (age : Z) : Z :=
  if 100 <=? age then 100 else if age <=? 10 then 10 else 10 + (age - 10).

Definition ref_violationScore (n : Z) : Z :=
  if n =? 0 then 0 else Z.min (n * 5) 100.

Definition ref_riskScore (age n : Z) : Q :=
  (inject_Z (ref_ageScore age + ref_violationScore n) / 2)%Q.

Definition ref_riskLevel (score : Q) : string :=
  if Qle_bool 80 score then "High"
  else if Qle_bool 50 score then "Medium"
  else if Qle_bool 20 score then "Low"
  else "Minimal".

End DataTransformation.

(* ================================================================== *)
(** ** data-analysis-service.js: the risk routine *)
(* ================================================================== *)

Module DataAnalysis.
Import Js DataTransformation.

(** An entry of [highRiskPatterns.commonFactors]. *)
Record Factor := mkFactor {
  factor : string;
  value : string;
  f_count : Z;
  percentage : Fixed1
}.

(** [results.riskStats] once it is filled in. *)
Record RiskStats := mkRiskStats {
  riskLevelCounts : Counts;
  totalBuildings : nat;
  riskLevelPercentages : list (string * Fixed1)
}.

(** The object [analyzeRiskData] returns.  A field that the code leaves
    unset is [None]: [riskStats = None] is the initial [{}],
    [commonFactors = None] is [highRiskPatterns = {}]. *)
Record RiskResults := mkRiskResults {
  riskStats : option RiskStats;
  commonFactors : option (list Factor);
  topRiskBuildings : list Building;
  riskDistribution : option (list (string * Z));
  riskByBorough : option (list (string * Z));
  riskByBuildingAge : option (list (string * Z))
}.

Definition emptyRiskResults : RiskResults :=
  {| riskStats := None; commonFactors := None; topRiskBuildings := [];
     riskDistribution := None; riskByBorough := None; riskByBuildingAge := None |}.

(** [((count / total) * 100).toFixed(1)] *)
Definition percentOf (count : Z) (total : nat) : Fixed1 :=
  toFixed1 (js_mul (js_div (inject_Z count) (inject_Z (Z.of_nat total))) (of_Z 100)).

(** The loop that fills [riskLevelCounts]. *)
Definition countRiskLevels (data : list Building) : Counts :=
  fold_left
    (fun counts building =>
       if truthy (risk_level building) then bump (risk_level building) counts else counts)
    data
    [("High", 0); ("Medium", 0); ("Low", 0); ("Minimal", 0)].

(** [Object.entries(counts)] filtered on [count > 0]. *)
Definition positiveEntries (counts : Counts) : Counts :=
  filter (fun e => 0 <? snd e) counts.

(** The age bucket of a high-risk building; a falsy [yearbuilt] is skipped. *)
Definition ageRangeOf (yearBuilt : Z) : option string :=
  if yearBuilt =? 0 then None
  else if yearBuilt <? 1900 then Some "Pre-1900"
  else if yearBuilt <=? 1950 then Some "1900-1950"
  else if yearBuilt <=? 1980 then Some "1951-1980"
  else if yearBuilt <=? 2000 then Some "1981-2000"
  else Some "Post-2000".

(** [building.borough || 'Unknown'] *)
Definition label (b : Building) : string := or_default (borough (row b)) "Unknown".

Definition countBoroughs (buildings : list Building) : Counts :=
  tally label buildings [].

Definition countAgeRanges (buildings : list Building) : Counts :=
  fold_left
    (fun counts b =>
       match ageRangeOf (yearbuilt (row b)) with
       | Some range => bump range counts
       | None => counts
       end)
    buildings
    [("Pre-1900", 0); ("1900-1950", 0); ("1951-1980", 0); ("1981-2000", 0);
     ("Post-2000", 0)].

Definition countBuildingClasses (buildings : list Building) : Counts :=
  tally (fun b => or_default (bldgclass (row b)) "Unknown") buildings [].

Definition factorsOf (name : string) (total : nat) (counts : Counts) : list Factor :=
  map (fun e => {| factor := name; value := fst e; f_count := snd e;
                   percentage := percentOf (snd e) total |})
      counts.

(** [analyzeRiskData(retrievedData, structuredQuery)]; the argument is
    [retrievedData.data], [None] when [retrievedData] has no array under
    [data].  The second argument is never read. *)
Definition analyzeRiskData (retrievedData : option (list Building)) : RiskResults :=
  match retrievedData with
  | None => emptyRiskResults
  | Some data =>
      let riskLevelCounts := countRiskLevels data in
      let riskLevelPercentages :=
        map (fun e => (fst e, percentOf (snd e) (List.length data))) riskLevelCounts in
      let highRiskBuildings :=
        (* filtered, then sorted in place by the assignment to topRiskBuildings *)
        sort_by (fun a b => Qlt_bool (risk_score b) (risk_score a))
                (filter (fun b => String.eqb (risk_level b) "High") data) in
      let total := List.length highRiskBuildings in
      let stats :=
        {| riskLevelCounts := riskLevelCounts;
           totalBuildings := List.length data;
           riskLevelPercentages := riskLevelPercentages |} in
      if Nat.ltb 0 total then
        let boroughCounts := countBoroughs highRiskBuildings in
        let ageCounts := countAgeRanges highRiskBuildings in
        let buildingClassCounts := countBuildingClasses highRiskBuildings in
        {| riskStats := Some stats;
           commonFactors :=
             Some (factorsOf "Borough" total boroughCounts
                   ++ factorsOf "Age Range" total (positiveEntries ageCounts)
                   ++ factorsOf "Building Class" total
                        (positiveEntries buildingClassCounts))%list;
           topRiskBuildings := highRiskBuildings;
           riskDistribution := Some riskLevelCounts;
           riskByBorough := Some boroughCounts;
           riskByBuildingAge := Some ageCounts |}
      else
        {| riskStats := Some stats;
           commonFactors := None;
           topRiskBuildings := highRiskBuildings;
           riskDistribution := Some riskLevelCounts;
           riskByBorough := None;
           riskByBuildingAge := None |}
  end.

End DataAnalysis.

(* ================================================================== *)
(** ** pattern-detection-service.js: the risk and violation detectors *)
(* ================================================================== *)

Module PatternDetection.
Import Js DataTransformation DataAnalysis.

(** The [data] object of a finding; one constructor per shape the two
    detectors build. *)
Inductive FindingData : Type :=
| ConcentrationData (subject : string) (percentage : Fixed1) (count : Z)
| ExtremeRiskData (count : nat) (buildings : list (string * string * Q))
| NewBuildingData (count : nat) (buildings : list (string * string * Z * Q))
| DominantTypeData (violationType : string) (count : Z) (percentage : Fixed1)
| HighViolationData (count : nat) (buildings : list (string * string * Z))
                    (averageViolations : Fixed1)
| ClusterData (borough : string) (buildingCount : Z) (buildingPercentage : Fixed1)
              (violationCount : Z) (violationPercentage : Fixed1).

Record Finding := mkFinding {
  type : string;
  description : string;
  importance : string;
  data : FindingData
}.

Record Patterns := mkPatterns {
  significantPatterns : list Finding;
  anomalies : list Finding;
  clusters : list Finding
}.

(** The three tests the [forEach] over [commonFactors] makes on one factor,
    in source order. *)
Definition factorFindings (f : Factor) : list Finding :=
  (if String.eqb (factor f) "Borough" && js_gt (parseFloat (percentage f)) (of_Z 40)
   then [ {| type := "geographic_concentration";
             description := render (percentage f)
                            ++ "% of high-risk buildings are concentrated in " ++ value f;
             importance := "high";
             data := ConcentrationData (value f) (percentage f) (f_count f) |} ]
   else [])
  ++
  (if String.eqb (factor f) "Age Range" && js_gt (parseFloat (percentage f)) (of_Z 50)
   then [ {| type := "age_concentration";
             description := render (percentage f)
                            ++ "% of high-risk buildings are from the " ++ value f ++ " era";
             importance := "high";
             data := ConcentrationData (value f) (percentage f) (f_count f) |} ]
   else [])
  ++
  (if String.eqb (factor f) "Building Class" && js_gt (parseFloat (percentage f)) (of_Z 30)
   then [ {| type := "building_type_concentration";
             description := render (percentage f)
                            ++ "% of high-risk buildings are of class " ++ value f;
             importance := "medium";
             data := ConcentrationData (value f) (percentage f) (f_count f) |} ]
   else [])%list.

(** The anomaly checks on [topRiskBuildings]. *)
Definition riskAnomalies (topRiskBuildings : list Building) : list Finding :=
  match topRiskBuildings with
  | [] => []
  | _ =>
      let highRiskScoreThreshold := 90%Q in
      let buildingsWithVeryHighRisk :=
        filter (fun b => Qlt_bool highRiskScoreThreshold (risk_score b)) topRiskBuildings in
      let newBuildingsWithHighRisk :=
        filter (fun b => String.eqb (risk_level b) "High" && (2000 <? yearbuilt (row b)))
               topRiskBuildings in
      ((match buildingsWithVeryHighRisk with
        | [] => []
        | _ =>
            [ {| type := "extreme_risk_score";
                 description := string_of_nat (List.length buildingsWithVeryHighRisk)
                                ++ " buildings have extremely high risk scores (>90)";
                 importance := "high";
                 data := ExtremeRiskData
                           (List.length buildingsWithVeryHighRisk)
                           (map (fun b => (address (row b), borough (row b), risk_score b))
                                buildingsWithVeryHighRisk) |} ]
        end)
       ++
       (match newBuildingsWithHighRisk with
        | [] => []
        | _ =>
            [ {| type := "new_building_high_risk";
                 description := string_of_nat (List.length newBuildingsWithHighRisk)
                                ++ " buildings built after 2000 have high risk scores";
                 importance := "high";
                 data := NewBuildingData
                           (List.length newBuildingsWithHighRisk)
                           (map (fun b => (address (row b), borough (row b),
                                           yearbuilt (row b), risk_score b))
                                newBuildingsWithHighRisk) |} ]
        end))%list
  end.

(** [detectRiskPatterns(analysisResults)] *)
Definition detectRiskPatterns (analysisResults : RiskResults) : Patterns :=
  {| significantPatterns :=
       match commonFactors analysisResults with
       | Some factors => flat_map factorFindings factors
       | None => []
       end;
     anomalies := riskAnomalies (topRiskBuildings analysisResults);
     clusters := [] |}.

(** What [detectViolationPatterns] reads of the violation analysis. *)
Record TypeCount := mkTypeCount {
  vt_type : string;
  vt_count : Z
}.

Record ViolationBuilding := mkViolationBuilding {
  vb_address : string;
  vb_borough : string;
  violationCount : Z
}.

Record ViolationResults := mkViolationResults {
  totalViolations : option Z;          (* violationStats.totalViolations *)
  topViolationTypes : list TypeCount;
  buildingsWithMultipleViolations : list ViolationBuilding
}.

Definition sumCounts (types : list TypeCount) : Z :=
  fold_left (fun sum t => sum + vt_count t) types 0.

Definition sumViolations (buildings : list ViolationBuilding) : Z :=
  fold_left (fun sum b => sum + violationCount b) buildings 0.

(** [violationStats.totalViolations || topViolationTypes.reduce(...)] *)
Definition violationTotal (r : ViolationResults) : Z :=
  match totalViolations r with
  | Some n => if n =? 0 then sumCounts (topViolationTypes r) else n
  | None => sumCounts (topViolationTypes r)
  end.

(** The check for a dominant violation type. *)
Definition dominantFindings (r : ViolationResults) : list Finding :=
  match topViolationTypes r with
  | [] => []
  | dominantType :: _ =>
      let dominantPercentage :=
        toFixed1 (js_mul (js_div (inject_Z (vt_count dominantType))
                                 (inject_Z (violationTotal r)))
                         (of_Z 100)) in
      if js_gt (parseFloat dominantPercentage) (of_Z 30) then
        [ {| type := "dominant_violation_type";
             description := vt_type dominantType ++ " accounts for "
                            ++ render dominantPercentage ++ "% of all violations";
             importance := "high";
             data := DominantTypeData (vt_type dominantType) (vt_count dominantType)
                                      dominantPercentage |} ]
      else []
  end.

(** [avgViolations] of a non-empty list. *)
Definition avgViolations (buildings : list ViolationBuilding) : JsNum :=
  js_div (inject_Z (sumViolations buildings)) (inject_Z (Z.of_nat (List.length buildings))).

(** The buildings whose count is above [avgViolations * 2]. *)
Definition buildingsWithHighViolations (buildings : list ViolationBuilding)
  : list ViolationBuilding :=
  let highViolationThreshold := js_mul (avgViolations buildings) (of_Z 2) in
  filter (fun b => js_gt (of_Z (violationCount b)) highViolationThreshold) buildings.

(** The check for unusually high violation counts. *)
Definition highCountFindings (r : ViolationResults) : list Finding :=
  match buildingsWithMultipleViolations r with
  | [] => []
  | buildings =>
      match buildingsWithHighViolations buildings with
      | [] => []
      | high =>
          [ {| type := "high_violation_count";
               description := string_of_nat (List.length high)
                 ++ " buildings have violation counts more than twice the average";
               importance := "high";
               data := HighViolationData
                         (List.length high)
                         (map (fun b => (vb_address b, vb_borough b, violationCount b)) high)
                         (toFixed1 (avgViolations buildings)) |} ]
      end
  end.

(** [violationsByBorough]: per borough, the number of buildings and of their
    violations, keys in insertion order. *)
Fixpoint addBorough (b : ViolationBuilding) (o : list (string * (Z * Z)))
  : list (string * (Z * Z)) :=
  match o with
  | [] => [(vb_borough b, (1, violationCount b))]
  | (k, (buildingCount, count)) :: rest =>
      if String.eqb k (vb_borough b)
      then (k, (buildingCount + 1, count + violationCount b)) :: rest
      else (k, (buildingCount, count)) :: addBorough b rest
  end.

Definition violationsByBorough (buildings : list ViolationBuilding)
  : list (string * (Z * Z)) :=
  fold_left (fun o b => addBorough b o) buildings [].

(** The check for geographic clusters. *)
Definition clusterFindings (r : ViolationResults) : list Finding :=
  let buildings := buildingsWithMultipleViolations r in
  match buildings with
  | [] => []
  | _ =>
      flat_map
        (fun entry =>
           let '(borough, (buildingCount, count)) := entry in
           let totalBuildings := Z.of_nat (List.length buildings) in
           let totalViolations := sumViolations buildings in
           let buildingPercentage :=
             toFixed1 (js_mul (js_div (inject_Z buildingCount) (inject_Z totalBuildings))
                              (of_Z 100)) in
           let violationPercentage :=
             toFixed1 (js_mul (js_div (inject_Z count) (inject_Z totalViolations))
                              (of_Z 100)) in
           if js_gt (parseFloat violationPercentage)
                    (js_mul (parseFloat buildingPercentage) (JNum (15 # 10)))
           then
             [ {| type := "violation_cluster";
                  description := borough ++ " has " ++ render violationPercentage
                                 ++ "% of violations but only " ++ render buildingPercentage
                                 ++ "% of buildings";
                  importance := "medium";
                  data := ClusterData borough buildingCount buildingPercentage
                                      count violationPercentage |} ]
           else [])
        (violationsByBorough buildings)
  end.

(** [detectViolationPatterns(analysisResults)] *)
Definition detectViolationPatterns (analysisResults : ViolationResults) : Patterns :=
  {| significantPatterns := dominantFindings analysisResults;
     anomalies := highCountFindings analysisResults;
     clusters := clusterFindings analysisResults |}.

(** *** The vocabulary of the detection rules *)

(** The high-risk subgroup of a row set, and its part in one borough. *)
Definition highRisk (rows : list Building) : list Building :=
  filter (fun b => String.eqb (risk_level b) "High") rows.

Definition inBorough (location : string) (rows : list Building) : list Building :=
  filter (fun b => String.eqb (label b) location) (highRisk rows).

(** A finding of the given kind is among [findings]. *)
Definition fires (kind : string) (findings : list Finding) : Prop :=
  exists f, In f findings /\ type f = kind.

(** A concentration finding of the given kind about [subject] is among
    [findings]. *)
Definition firesFor (kind subject : string) (findings : list Finding) : Prop :=
  exists f, In f findings /\ type f = kind
            /\ exists pct c, data f = ConcentrationData subject pct c.

(** Counters are not negative. *)
Definition countsWellFormed (r : ViolationResults) : Prop :=
  Forall (fun t => 0 <= vt_count t) (topViolationTypes r)
  /\ (forall n, totalViolations r = Some n -> 0 <= n).

End PatternDetection.

(* ================================================================== *)
(** ** The structured query (the object [parseModelResponse] builds) *)
(* ================================================================== *)

Module Query.

(** An element of [entities.timePeriods]: the phrase the model extracted, or
    the [{start, end}] object that normalisation puts in its place. *)
Inductive TimePeriod : Type :=
| PeriodText (phrase : string)
| PeriodRange (p_start p_end : string).

(** [entities].  A key that is absent (or [null]) is [None]; the kinds the
    services never read are kept in [otherEntities]. *)
Record Entities := mkEntities {
  locations : option (list string);
  buildingTypes : option (list string);
  timePeriods : option (list TimePeriod);
  otherEntities : list (string * list string)
}.

Definition noEntities : Entities :=
  {| locations := None; buildingTypes := None; timePeriods := None; otherEntities := [] |}.

(** A filter value: a string, a number, or an array of those. *)
Inductive Scalar : Type :=
| SString (s : string)
| SNumber (n : Z).

Inductive JsValue : Type :=
| VScalar (v : Scalar)
| VArray (items : list Scalar).

Record Filter := mkFilter {
  table : string;
  column : string;
  operator : string;
  value : JsValue
}.

Record Aggregation := mkAggregation {
  groupBy : option string
}.

Record StructuredQuery := mkQuery {
  queryType : option string;       (* [None] is [null] *)
  entities : Entities;
  filters : list Filter;
  aggregations : list Aggregation;
  sortOrder : option string;
  limit : Z;
  originalQuery : option string    (* [None] is [undefined] *)
}.

Definition set_queryType (t : option string) (q : StructuredQuery) : StructuredQuery :=
  {| queryType := t; entities := entities q; filters := filters q;
     aggregations := aggregations q; sortOrder := sortOrder q; limit := limit q;
     originalQuery := originalQuery q |}.

Definition set_entities (e : Entities) (q : StructuredQuery) : StructuredQuery :=
  {| queryType := queryType q; entities := e; filters := filters q;
     aggregations := aggregations q; sortOrder := sortOrder q; limit := limit q;
     originalQuery := originalQuery q |}.

Definition set_locations (l : option (list string)) (e : Entities) : Entities :=
  {| locations := l; buildingTypes := buildingTypes e; timePeriods := timePeriods e;
     otherEntities := otherEntities e |}.

Definition set_buildingTypes (l : option (list string)) (e : Entities) : Entities :=
  {| locations := locations e; buildingTypes := l; timePeriods := timePeriods e;
     otherEntities := otherEntities e |}.

Definition set_timePeriods (l : option (list TimePeriod)) (e : Entities) : Entities :=
  {| locations := locations e; buildingTypes := buildingTypes e; timePeriods := l;
     otherEntities := otherEntities e |}.

(** [!list || list.length === 0] *)
Definition missing {A : Type} (l : option (list A)) : bool :=
  match l with
  | None => true
  | Some [] => true
  | Some (_ :: _) => false
  end.

(** [!list] : an array, even an empty one, is truthy. *)
Definition absent {A : Type} (l : option (list A)) : bool :=
  match l with
  | None => true
  | Some _ => false
  end.

(** A query in which intent, locations, building types and time periods
    are all populated. *)
Definition fullyPopulated (q : StructuredQuery) : Prop :=
  (exists t, queryType q = Some t /\ t <> EmptyString)
  /\ missing (locations (entities q)) = false
  /\ missing (buildingTypes (entities q)) = false
  /\ missing (timePeriods (entities q)) = false.

(** [q'] keeps every field that [q] populated, and every field that
    follow-up resolution has no business with. *)
Definition keepsPopulated (q q' : StructuredQuery) : Prop :=
  (forall t, queryType q = Some t -> t <> EmptyString -> queryType q' = Some t)
  /\ (missing (locations (entities q)) = false ->
      locations (entities q') = locations (entities q))
  /\ (missing (buildingTypes (entities q)) = false ->
      buildingTypes (entities q') = buildingTypes (entities q))
  /\ (missing (timePeriods (entities q)) = false ->
      timePeriods (entities q') = timePeriods (entities q))
  /\ otherEntities (entities q') = otherEntities (entities q)
  /\ filters q' = filters q
  /\ aggregations q' = aggregations q
  /\ sortOrder q' = sortOrder q
  /\ limit q' = limit q
  /\ originalQuery q' = originalQuery q.

End Query.

(* ================================================================== *)
(** ** interactive-refinement-service.js: conversation state *)
(* ================================================================== *)

Module Conversation.
Import Js Query.

(** An element of [previousQueries]. *)
Record HistoryEntry := mkEntry {
  h_originalQuery : option string;
  h_queryType : option string;
  h_entities : Entities;
  h_timestamp : Z;
  h_responseId : option string
}.

(** [ConversationContext].  Times are milliseconds since the epoch: the
    ISO string [startTime] holds exactly the value [getTime()] reads back. *)
Record ConversationContext := mkContext {
  previousQueries : list HistoryEntry;
  currentTopic : option string;
  currentEntities : Entities;
  conversationId : string;
  startTime : Z;
  messageCount : Z
}.

(** The constructor; [id] is the value of [generateConversationId()] and
    [now] the clock. *)
Definition newContext (id : string) (now : Z) : ConversationContext :=
  {| previousQueries := [];
     currentTopic := None;
     currentEntities := noEntities;
     conversationId := id;
     startTime := now;
     messageCount := 0 |}.

(** What [addQuery] reads of the response. *)
Record Response := mkResponse {
  id : option string
}.

Definition spread_opt {A : Type} (old new : option A) : option A :=
  match new with
  | Some _ => new
  | None => old
  end.

Fixpoint assign (k : string) (v : list string) (o : list (string * list string))
  : list (string * list string) :=
  match o with
  | [] => [(k, v)]
  | (k', v') :: r => if String.eqb k' k then (k', v) :: r else (k', v') :: assign k v r
  end.

(** [{...old, ...new}] *)
Definition spread (old new : Entities) : Entities :=
  {| locations := spread_opt (locations old) (locations new);
     buildingTypes := spread_opt (buildingTypes old) (buildingTypes new);
     timePeriods := spread_opt (timePeriods old) (timePeriods new);
     otherEntities :=
       fold_left (fun o kv => assign (fst kv) (snd kv) o)
                 (otherEntities new) (otherEntities old) |}.

(** [addQuery(structuredQuery, response)] at clock [now]. *)
Definition addQuery (now : Z) (structuredQuery : StructuredQuery) (response : Response)
           (this : ConversationContext) : ConversationContext :=
  {| previousQueries :=
       previousQueries this ++
       [ {| h_originalQuery := originalQuery structuredQuery;
            h_queryType := queryType structuredQuery;
            h_entities := entities structuredQuery;
            h_timestamp := now;
            h_responseId := if truthy_opt (id response) then id response else None |} ];
     currentTopic :=
       if truthy_opt (queryType structuredQuery) then queryType structuredQuery
       else currentTopic this;
     currentEntities := spread (currentEntities this) (entities structuredQuery);
     conversationId := conversationId this;
     startTime := startTime this;
     messageCount := messageCount this + 1 |}.

(** [getLastQuery()] *)
Definition getLastQuery (this : ConversationContext) : option HistoryEntry :=
  last (map Some (previousQueries this)) None.

(** The maximal runs of word characters of a string. *)
Fixpoint wordRuns (s : string) : list string :=
  match s with
  | EmptyString => []
  | String c r =>
      if is_word c then
        match r with
        | EmptyString => [String c EmptyString]
        | String c' _ =>
            if is_word c' then
              match wordRuns r with
              | w :: ws => String c w :: ws
              | [] => [String c EmptyString]
              end
            else String c EmptyString :: wordRuns r
        end
      else wordRuns r
  end.

(** [s.match(/\b(these|those|them|it|this|that)\b/i)] is not null: the
    alternatives are made of word characters only, so a match between two
    word boundaries is a maximal run of word characters. *)
Definition mentionsReferent (s : string) : bool :=
  existsb
    (fun w => existsb (String.eqb (toLowerCase w))
                      ["these"; "those"; "them"; "it"; "this"; "that"])
    (wordRuns s).

(** [isFollowUpQuery(structuredQuery)]; reading [.match] off an undefined
    [originalQuery] throws. *)
Definition isFollowUpQuery (this : ConversationContext) (structuredQuery : StructuredQuery)
  : Result bool :=
  match getLastQuery this with
  | None => Ok false
  | Some lastQuery =>
      if negb (truthy_opt (queryType structuredQuery)) && truthy_opt (h_queryType lastQuery)
      then Ok true
      else
        match originalQuery structuredQuery with
        | None => Throw "TypeError: Cannot read properties of undefined (reading 'match')"
        | Some text =>
            if mentionsReferent text then Ok true
            else if negb (absent (locations (h_entities lastQuery)))
                    && missing (locations (entities structuredQuery))
            then Ok true
            else Ok false
        end
  end.

(** The body of [processFollowUpQuery] after the follow-up test: the three
    entity lists are written through the [entities] object that the copy
    [enhancedQuery] shares with [structuredQuery]. *)
Definition enhance (structuredQuery : StructuredQuery) (lastQuery : HistoryEntry)
  : StructuredQuery :=
  let q1 :=
    if negb (truthy_opt (queryType structuredQuery)) && truthy_opt (h_queryType lastQuery)
    then set_queryType (h_queryType lastQuery) structuredQuery
    else structuredQuery in
  let e1 :=
    if missing (locations (entities q1)) && negb (absent (locations (h_entities lastQuery)))
    then set_locations (locations (h_entities lastQuery)) (entities q1)
    else entities q1 in
  let e2 :=
    if missing (buildingTypes e1) && negb (absent (buildingTypes (h_entities lastQuery)))
    then set_buildingTypes (buildingTypes (h_entities lastQuery)) e1
    else e1 in
  let e3 :=
    if missing (timePeriods e2) && negb (absent (timePeriods (h_entities lastQuery)))
    then set_timePeriods (timePeriods (h_entities lastQuery)) e2
    else e2 in
  set_entities e3 q1.

(** [processFollowUpQuery(structuredQuery, conversationContext)] *)
Definition processFollowUpQuery (structuredQuery : StructuredQuery)
           (conversationContext : ConversationContext) : Result StructuredQuery :=
  followUp <- isFollowUpQuery conversationContext structuredQuery ;;
  if negb followUp then Ok structuredQuery
  else
    match getLastQuery conversationContext with
    | Some lastQuery => Ok (enhance structuredQuery lastQuery)
    | None => Throw "TypeError: Cannot read properties of null (reading 'queryType')"
    end.

(** [getSummary()] *)
Record Summary := mkSummary {
  s_conversationId : string;
  s_startTime : Z;
  s_messageCount : Z;
  s_currentTopic : option string;
  s_currentEntities : Entities;
  queryHistory : list (option string)
}.

Definition getSummary (this : ConversationContext) : Summary :=
  {| s_conversationId := conversationId this;
     s_startTime := startTime this;
     s_messageCount := messageCount this;
     s_currentTopic := currentTopic this;
     s_currentEntities := currentEntities this;
     queryHistory := map h_originalQuery (previousQueries this) |}.

(** Each of the four fields that follow-up resolution may fill is, in [q'],
    the one of [q] or the one of the previous turn. *)
Definition fromPreviousTurn (previous : HistoryEntry) (q q' : StructuredQuery) : Prop :=
  (queryType q' = queryType q \/ queryType q' = h_queryType previous)
  /\ (locations (entities q') = locations (entities q)
      \/ locations (entities q') = locations (h_entities previous))
  /\ (buildingTypes (entities q') = buildingTypes (entities q)
      \/ buildingTypes (entities q') = buildingTypes (h_entities previous))
  /\ (timePeriods (entities q') = timePeriods (entities q)
      \/ timePeriods (entities q') = timePeriods (h_entities previous)).

(** *** The operations on one session *)

(** The methods of [ConversationContext] and the one function that is handed
    a session; only [addQuery] writes to it. *)
Inductive SessionOp : Type :=
| OpAddQuery (now : Z) (structuredQuery : StructuredQuery) (response : Response)
| OpGetLastQuery
| OpIsFollowUpQuery (structuredQuery : StructuredQuery)
| OpGetSummary
| OpProcessFollowUpQuery (structuredQuery : StructuredQuery).

Definition applyOp (this : ConversationContext) (op : SessionOp) : ConversationContext :=
  match op with
  | OpAddQuery now structuredQuery response => addQuery now structuredQuery response this
  | OpGetLastQuery => this
  | OpIsFollowUpQuery _ => this
  | OpGetSummary => this
  | OpProcessFollowUpQuery _ => this
  end.

Definition run (ops : list SessionOp) (this : ConversationContext) : ConversationContext :=
  fold_left applyOp ops this.

(** *** ConversationManager *)

(** The [Map] of conversations, entries in insertion order, under the keys
    [userId + ":" + conversationId]. *)
Definition Conversations := list (string * ConversationContext).

Definition maxConversationAge : Z := 30 * 60 * 1000.
Definition maxConversationsPerUser : nat := 5.

Definition keyOf (userId conversationId : string) : string :=
  userId ++ ":" ++ conversationId.

(** [Map.prototype.has], [get], [set], [delete] *)
Definition map_has (k : string) (m : Conversations) : bool :=
  existsb (fun e => String.eqb (fst e) k) m.

Fixpoint map_get (k : string) (m : Conversations) : option ConversationContext :=
  match m with
  | [] => None
  | (k', c) :: r => if String.eqb k' k then Some c else map_get k r
  end.

Fixpoint map_set (k : string) (c : ConversationContext) (m : Conversations) : Conversations :=
  match m with
  | [] => [(k, c)]
  | (k', c') :: r => if String.eqb k' k then (k', c) :: r else (k', c') :: map_set k c r
  end.

Definition map_delete (k : string) (m : Conversations) : Conversations :=
  filter (fun e => negb (String.eqb (fst e) k)) m.

(** The entries of a user, as both loops over [entries()] select them. *)
Definition ofUser (userId : string) (m : Conversations) : Conversations :=
  filter (fun e => startsWith (fst e) (userId ++ ":")) m.

(** [cleanupOldConversations(userId)] at clock [now]. *)
Definition cleanupOldConversations (now : Z) (userId : string) (m : Conversations)
  : Conversations :=
  let userConversations :=
    map (fun e => (fst e, now - startTime (snd e))) (ofUser userId m) in
  (* Remove old conversations *)
  let m1 :=
    fold_left
      (fun acc ka => if maxConversationAge <? snd ka then map_delete (fst ka) acc else acc)
      userConversations m in
  (* If still too many conversations, remove oldest ones *)
  if Nat.ltb maxConversationsPerUser (List.length userConversations) then
    fold_left
      (fun acc ka => map_delete (fst ka) acc)
      (skipn maxConversationsPerUser
             (sort_by (fun a b => snd b - snd a <? 0) userConversations))
      m1
  else m1.

(** [getOrCreateConversation(userId, conversationId)]: the new store and the
    conversation returned.  [fresh] is the identifier a new conversation
    would draw; [now] is the clock. *)
Definition getOrCreateConversation (now : Z) (fresh : string) (userId : string)
           (conversationId : option string) (m : Conversations)
  : Conversations * ConversationContext :=
  let m1 := cleanupOldConversations now userId m in
  let create :=
    let newConversation := newContext fresh now in
    (map_set (keyOf userId fresh) newConversation m1, newConversation) in
  match conversationId with
  | Some cid =>
      if truthy cid then
        match map_get (keyOf userId cid) m1 with
        | Some c => (m1, c)
        | None => create
        end
      else create
  | None => create
  end.

(** [getUserConversations(userId)] *)
Definition getUserConversations (userId : string) (m : Conversations) : list Summary :=
  map (fun e => getSummary (snd e)) (ofUser userId m).

(** A run of requests that carry no conversation id: each one draws the
    identifier and reads the clock given with it. *)
Definition openConversations (userId : string) (requests : list (Z * string))
           (m : Conversations) : Conversations :=
  fold_left (fun acc r => fst (getOrCreateConversation (fst r) (snd r) userId None acc))
            requests m.

End Conversation.

(* ================================================================== *)
(** ** nlp-service.js: the query interpreter *)
(* ================================================================== *)

Module Nlp.
Import Js Query Conversation.

(** [NYC_BOROUGHS] *)
Definition NYC_BOROUGHS : list string :=
  ["manhattan"; "brooklyn"; "queens"; "bronx"; "staten island"].

(** The canonical borough names of the specification (the list that
    [generateRefinementSuggestions] spells out). *)
Definition canonicalBoroughs : list string :=
  ["Manhattan"; "Brooklyn"; "Queens"; "Bronx"; "Staten Island"].

(** The reply of the Completion Service to [openai.createCompletion]: the
    call is rejected, or it resolves with [data.choices], of which only the
    [text] fields are read ([None] for a missing text). *)
Inductive Completion : Type :=
| Rejected
| Completed (choices : list (option string)).

(** [completion.data.choices[0].text] *)
Definition firstText (c : Completion) : Result (option string) :=
  match c with
  | Rejected => Throw "Error: request failed"
  | Completed [] => Throw "TypeError: Cannot read properties of undefined (reading 'text')"
  | Completed (text :: _) => Ok text
  end.

(** The object [JSON.parse] returns, restricted to the fields read from it;
    a key that is missing, or whose value is [null], is [None]. *)
Record ParsedResponse := mkParsed {
  p_queryType : option string;
  p_entities : option Entities;
  p_filters : option (list Filter);
  p_aggregations : option (list Aggregation);
  p_sortOrder : option string;
  p_limit : option Z;
  p_originalQuery : option string
}.

(** The suffix of [s] that starts at the first occurrence of [c]. *)
Fixpoint fromFirst (c : ascii) (s : string) : option string :=
  match s with
  | EmptyString => None
  | String a r => if Ascii.eqb a c then Some s else fromFirst c r
  end.

(** The prefix of [s] that ends at the last occurrence of [c]. *)
Fixpoint throughLast (c : ascii) (s : string) : option string :=
  match s with
  | EmptyString => None
  | String a r =>
      match throughLast c r with
      | Some t => Some (String a t)
      | None => if Ascii.eqb a c then Some (String a EmptyString) else None
      end
  end.

(** [response.match(/\{[\s\S]*\}/)]: from the first opening brace through
    the last closing brace after it. *)
Definition jsonMatch (response : string) : option string :=
  match fromFirst "{" response with
  | Some (String brace rest) =>
      match throughLast "}" rest with
      | Some t => Some (String brace t)
      | None => None
      end
  | _ => None
  end.

(** [x || null] on a string field. *)
Definition or_null (x : option string) : option string :=
  if truthy_opt x then x else None.

Definition minimalStructure (response : option string) : StructuredQuery :=
  {| queryType := None;
     entities := noEntities;
     filters := [];
     aggregations := [];
     sortOrder := None;
     limit := 100;
     originalQuery := response |}.

Section Parsing.

(** [JSON.parse] followed by the reading of the fields: [None] when the text
    is not JSON ([JSON.parse] throws a [SyntaxError]). *)
Variable JSON_parse : string -> option ParsedResponse.

(** The [try] block of [parseModelResponse]. *)
Definition parseModelResponse_try (response : option string) : Result StructuredQuery :=
  match response with
  | None => Throw "TypeError: Cannot read properties of undefined (reading 'match')"
  | Some text =>
      match jsonMatch text with
      | None => Throw "Error: Could not extract JSON from model response"
      | Some json =>
          match JSON_parse json with
          | None => Throw "SyntaxError"
          | Some parsedResponse =>
              Ok {| queryType := or_null (p_queryType parsedResponse);
                    entities := match p_entities parsedResponse with
                                | Some e => e
                                | None => noEntities
                                end;
                    filters := match p_filters parsedResponse with
                               | Some f => f
                               | None => []
                               end;
                    aggregations := match p_aggregations parsedResponse with
                                    | Some a => a
                                    | None => []
                                    end;
                    sortOrder := or_null (p_sortOrder parsedResponse);
                    limit := match p_limit parsedResponse with
                             | Some n => if n =? 0 then 100 else n
                             | None => 100
                             end;
                    originalQuery := p_originalQuery parsedResponse |}
          end
      end
  end.

(** [parseModelResponse(response)] *)
Definition parseModelResponse (response : option string) : StructuredQuery :=
  try_catch (parseModelResponse_try response) (fun _ => minimalStructure response).

(** The callback of [locations.map]. *)
Definition normalizeLocation (location : string) : string :=
  match find (fun borough => includes (toLowerCase location) borough) NYC_BOROUGHS with
  | Some boroughMatch => capitalize boroughMatch
  | None => location
  end.

(** The callback of [timePeriods.map]; a period that is not a string has no
    [toLowerCase]. *)
Definition normalizePeriod (currentYear : Z) (period : TimePeriod) : Result TimePeriod :=
  match period with
  | PeriodRange _ _ => Throw "TypeError: period.toLowerCase is not a function"
  | PeriodText phrase =>
      if includes (toLowerCase phrase) "last year" then
        Ok (PeriodRange (string_of_Z (currentYear - 1) ++ "-01-01")
                        (string_of_Z (currentYear - 1) ++ "-12-31"))
      else if includes (toLowerCase phrase) "past five years" then
        Ok (PeriodRange (string_of_Z (currentYear - 5) ++ "-01-01")
                        (string_of_Z currentYear ++ "-12-31"))
      else Ok period
  end.

Fixpoint mapResult {A B : Type} (f : A -> Result B) (l : list A) : Result (list B) :=
  match l with
  | [] => Ok []
  | x :: r =>
      y <- f x ;;
      ys <- mapResult f r ;;
      Ok (y :: ys)
  end.

(** [validateAndNormalizeQuery(query)] in the year [currentYear]. *)
Definition validateAndNormalizeQuery (currentYear : Z) (query : StructuredQuery)
  : Result StructuredQuery :=
  let e1 :=
    match locations (entities query) with
    | Some l => set_locations (Some (map normalizeLocation l)) (entities query)
    | None => entities query
    end in
  match timePeriods e1 with
  | Some periods =>
      normalized <- mapResult (normalizePeriod currentYear) periods ;;
      Ok (set_entities (set_timePeriods (Some normalized) e1) query)
  | None => Ok (set_entities e1 query)
  end.

(** [incorporateConversationContext(query, context)] *)
Definition incorporateConversationContext (query : StructuredQuery)
           (context : option ConversationContext) : StructuredQuery :=
  match context with
  | None => query
  | Some ctx =>
      match getLastQuery ctx with
      | None => query
      | Some previousQuery =>
          let e1 :=
            if absent (locations (entities query))
               && negb (absent (locations (h_entities previousQuery)))
            then set_locations (locations (h_entities previousQuery)) (entities query)
            else entities query in
          let e2 :=
            if absent (buildingTypes e1)
               && negb (absent (buildingTypes (h_entities previousQuery)))
            then set_buildingTypes (buildingTypes (h_entities previousQuery)) e1
            else e1 in
          let q1 := set_entities e2 query in
          match queryType q1 with
          | None =>
              if truthy_opt (h_queryType previousQuery)
              then set_queryType (h_queryType previousQuery) q1
              else q1
          | Some _ => q1
          end
      end
  end.

(** [processQuery(query, conversationContext)], given the outcome
    [completion] of the one call to the Completion Service (the prompt built
    from [query] and the context only reaches that service). *)
Definition processQuery (currentYear : Z) (completion : Completion) (query : string)
           (conversationContext : option ConversationContext) : Result StructuredQuery :=
  let body :=
    text <- firstText completion ;;
    let structuredQuery := parseModelResponse text in
    validatedQuery <- validateAndNormalizeQuery currentYear structuredQuery ;;
    Ok (incorporateConversationContext validatedQuery conversationContext) in
  match body with
  | Ok finalQuery => Ok finalQuery
  | Throw _ => Throw "Error: Failed to process natural language query"
  end.

End Parsing.

End Nlp.

(* ================================================================== *)
(** ** The database query builder (second module of nlp-service.js) *)
(* ================================================================== *)

Module QueryBuilder.
Import Js Query.

(** The three variables the filter loop of every builder updates. *)
Record WhereState := mkWhereState {
  whereClause : list string;
  params : list JsValue;
  paramIndex : nat
}.

Definition initialState : WhereState :=
  {| whereClause := []; params := []; paramIndex := 1 |}.

(** [$${paramIndex}] *)
Definition placeholder (i : nat) : string := "$" ++ string_of_nat i.

(** The left-hand side of a predicate: [buildRiskAssessmentQuery] writes
    [table.column], the other builders [column]. *)
Definition lhs (qualified : bool) (filter : Filter) : string :=
  if qualified then table filter ++ "." ++ column filter else column filter.

(** The body of [filters.forEach]. *)
Definition addFilter (qualified : bool) (st : WhereState) (filter : Filter) : WhereState :=
  let i := paramIndex st in
  match String.eqb (operator filter) "BETWEEN", value filter with
  | true, VArray [value0; value1] =>
      {| whereClause :=
           whereClause st ++
           [lhs qualified filter ++ " BETWEEN " ++ placeholder i
            ++ " AND " ++ placeholder (i + 1)];
         params := params st ++ [VScalar value0; VScalar value1];
         paramIndex := i + 2 |}
  | _, _ =>
      {| whereClause :=
           whereClause st ++
           [lhs qualified filter ++ " " ++ operator filter ++ " " ++ placeholder i];
         params := params st ++ [value filter];
         paramIndex := i + 1 |}
  end.

Definition processFilters (qualified : bool) (filters : list Filter) : WhereState :=
  fold_left (addFilter qualified) filters initialState.

(** [if (whereClause.length === 0) whereClause.push('1=1')] *)
Definition withDefault (clauses : list string) : list string :=
  match clauses with
  | [] => ["1=1"]
  | _ => clauses
  end.

(** [queryParams], as [buildRiskAssessmentQuery] destructures it; an absent
    [limit] is [None]. *)
Record QueryParams := mkQueryParams {
  qp_filters : list Filter;
  qp_limit : option Z
}.

(** [limit || 100] *)
Definition limitOrDefault (l : option Z) : Z :=
  match l with
  | Some n => if n =? 0 then 100 else n
  | None => 100
  end.

Record BuiltQuery := mkBuiltQuery {
  query : string;
  boundParams : list JsValue
}.

(** [buildRiskAssessmentQuery(queryParams)] *)
Definition buildRiskAssessmentQuery (queryParams : QueryParams) : BuiltQuery :=
  let st := processFilters true (qp_filters queryParams) in
  {| query :=
       "
    SELECT 
      p.bbl,
      p.address,
      p.borough,
      p.block,
      p.lot,
      p.bldgclass,
      p.yearbuilt,
      COUNT(DISTINCT hv.id) as hpd_violation_count,
      COUNT(DISTINCT dv.id) as dob_violation_count,
      (COUNT(DISTINCT hv.id) + COUNT(DISTINCT dv.id)) as total_violations
    FROM 
      pluto p
    LEFT JOIN 
      hpd_violations hv ON p.bbl = hv.bbl
    LEFT JOIN 
      dob_violations dv ON p.bbl = dv.bbl
    WHERE 
      "
       ++ String.concat " AND " (withDefault (whereClause st))
       ++ "
    GROUP BY 
      p.bbl, p.address, p.borough, p.block, p.lot, p.bldgclass, p.yearbuilt
    ORDER BY 
      total_violations DESC
    LIMIT "
       ++ placeholder (paramIndex st)
       ++ "
  ";
     boundParams :=
       params st ++ [VScalar (SNumber (limitOrDefault (qp_limit queryParams)))] |}.

(** The reading of a compiled filter that the specification gives: a
    BETWEEN filter over a pair is a range and binds its two endpoints, any
    other filter binds its value. *)
Definition isRange (filter : Filter) : bool :=
  String.eqb (operator filter) "BETWEEN"
  && match value filter with
     | VArray [_; _] => true
     | _ => false
     end.

Definition arity (filter : Filter) : nat := if isRange filter then 2 else 1.

Definition operands (filter : Filter) : list JsValue :=
  match value filter with
  | VArray [a; b] =>
      if String.eqb (operator filter) "BETWEEN" then [VScalar a; VScalar b]
      else [value filter]
  | _ => [value filter]
  end.

(** The predicate of a filter whose first placeholder is number [i]. *)
Definition predicate (qualified : bool) (i : nat) (filter : Filter) : string :=
  if isRange filter
  then lhs qualified filter ++ " BETWEEN " ++ placeholder i ++ " AND " ++ placeholder (i + 1)
  else lhs qualified filter ++ " " ++ operator filter ++ " " ++ placeholder i.

Definition totalArity (filters : list Filter) : nat :=
  fold_right (fun f n => (arity f + n)%nat) O filters.

Fixpoint predicates (qualified : bool) (i : nat) (filters : list Filter) : list string :=
  match filters with
  | [] => []
  | f :: rest => predicate qualified i f :: predicates qualified (i + arity f) rest
  end.

(** *** The other builders and the dispatcher *)

(** [queryParams] with every field that some builder destructures; a field
    read with a default ([limit], [table], [timeColumn], [orderBy]) may be
    absent, [filters], [tables] and [groupBy] are arrays. *)
Record Params := mkParams {
  p_filters : list Filter;
  p_limit : option Z;
  p_table : option string;
  p_timeColumn : option string;
  p_tables : list string;
  p_orderBy : option string;
  p_groupBy : list string
}.

(** [x || d] on a string that may be absent. *)
Definition stringOr (x : option string) (d : string) : string :=
  match x with
  | Some s => or_default s d
  | None => d
  end.

(** [buildTrendAnalysisQuery(queryParams)] *)
Definition buildTrendAnalysisQuery (queryParams : Params) : BuiltQuery :=
  let actualTable := stringOr (p_table queryParams) "dob_permits" in
  let actualTimeColumn := stringOr (p_timeColumn queryParams) "issueddate" in
  let st := processFilters false (p_filters queryParams) in
  {| query :=
       "
    SELECT 
      DATE_TRUNC('month', "
       ++ actualTimeColumn
       ++ ") as time_period,
      COUNT(*) as count
    FROM 
      "
       ++ actualTable
       ++ "
    WHERE 
      "
       ++ String.concat " AND " (withDefault (whereClause st))
       ++ "
    GROUP BY 
      DATE_TRUNC('month', "
       ++ actualTimeColumn
       ++ ")
    ORDER BY 
      time_period ASC
  ";
     boundParams := params st |}.

(** [buildViolationSearchQuery(queryParams)] *)
Definition buildViolationSearchQuery (queryParams : Params) : BuiltQuery :=
  let st := processFilters false (p_filters queryParams) in
  let tables := p_tables queryParams in
  {| query :=
       if existsb (String.eqb "hpd_violations") tables
          && existsb (String.eqb "dob_violations") tables
       then
       "
      SELECT 
        'HPD' as source,
        v.violationid,
        v.bbl,
        p.address,
        p.borough,
        v.issueddate,
        v.violationstatus,
        v.violationtype,
        v.novdescription as description
      FROM 
        hpd_violations v
      JOIN 
        pluto p ON v.bbl = p.bbl
      WHERE 
        "
       ++ String.concat " AND " (withDefault (whereClause st))
       ++ "
      UNION ALL
      SELECT 
        'DOB' as source,
        v.violationid,
        v.bbl,
        p.address,
        p.borough,
        v.issueddate,
        v.violationstatus,
        v.violationtype,
        v.description
      FROM 
        dob_violations v
      JOIN 
        pluto p ON v.bbl = p.bbl
      WHERE 
        "
       ++ String.concat " AND " (withDefault (whereClause st))
       ++ "
      ORDER BY 
        issueddate DESC
      LIMIT "
       ++ placeholder (paramIndex st)
       ++ "
    "
       else if existsb (String.eqb "hpd_violations") tables
       then
       "
      SELECT 
        'HPD' as source,
        v.violationid,
        v.bbl,
        p.address,
        p.borough,
        v.issueddate,
        v.violationstatus,
        v.violationtype,
        v.novdescription as description
      FROM 
        hpd_violations v
      JOIN 
        pluto p ON v.bbl = p.bbl
      WHERE 
        "
       ++ String.concat " AND " (withDefault (whereClause st))
       ++ "
      ORDER BY 
        issueddate DESC
      LIMIT "
       ++ placeholder (paramIndex st)
       ++ "
    "
       else
       "
      SELECT 
        'DOB' as source,
        v.violationid,
        v.bbl,
        p.address,
        p.borough,
        v.issueddate,
        v.violationstatus,
        v.violationtype,
        v.description
      FROM 
        dob_violations v
      JOIN 
        pluto p ON v.bbl = p.bbl
      WHERE 
        "
       ++ String.concat " AND " (withDefault (whereClause st))
       ++ "
      ORDER BY 
        issueddate DESC
      LIMIT "
       ++ placeholder (paramIndex st)
       ++ "
    ";
     boundParams :=
       params st ++ [VScalar (SNumber (limitOrDefault (p_limit queryParams)))] |}.

(** [buildBuildingLookupQuery(queryParams)] *)
Definition buildBuildingLookupQuery (queryParams : Params) : BuiltQuery :=
  let st := processFilters false (p_filters queryParams) in
  let orderByOrDefault := stringOr (p_orderBy queryParams) "p.address ASC" in
  {| query :=
       "
    SELECT 
      p.bbl,
      p.address,
      p.borough,
      p.block,
      p.lot,
      p.bldgclass,
      p.landuse,
      p.yearbuilt,
      p.numfloors,
      p.unitsres,
      p.unitstotal,
      p.assesstot,
      p.exemptland,
      p.exempttot
    FROM 
      pluto p
    WHERE 
      "
       ++ String.concat " AND " (withDefault (whereClause st))
       ++ "
    ORDER BY 
      "
       ++ orderByOrDefault
       ++ "
    LIMIT "
       ++ placeholder (paramIndex st)
       ++ "
  ";
     boundParams :=
       params st ++ [VScalar (SNumber (limitOrDefault (p_limit queryParams)))] |}.

(** [buildComparisonQuery(queryParams)] *)
Definition buildComparisonQuery (queryParams : Params) : BuiltQuery :=
  let st := processFilters false (p_filters queryParams) in
  let groupByColumns :=
    match p_groupBy queryParams with
    | [] => ["p.borough"]
    | groupBy => groupBy
    end in
  {| query :=
       "
    SELECT 
      "
       ++ String.concat ", " groupByColumns
       ++ ",
      COUNT(DISTINCT p.bbl) as building_count,
      AVG(p.yearbuilt) as avg_year_built,
      AVG(p.numfloors) as avg_floors,
      AVG(p.unitsres) as avg_residential_units,
      COUNT(DISTINCT hv.id) as hpd_violation_count,
      COUNT(DISTINCT dv.id) as dob_violation_count
    FROM 
      pluto p
    LEFT JOIN 
      hpd_violations hv ON p.bbl = hv.bbl
    LEFT JOIN 
      dob_violations dv ON p.bbl = dv.bbl
    WHERE 
      "
       ++ String.concat " AND " (withDefault (whereClause st))
       ++ "
    GROUP BY 
      "
       ++ String.concat ", " groupByColumns
       ++ "
    ORDER BY 
      building_count DESC
  ";
     boundParams := params st |}.

(** [buildGeneralStatsQuery(queryParams)] *)
Definition buildGeneralStatsQuery (queryParams : Params) : BuiltQuery :=
  let st := processFilters false (p_filters queryParams) in
  {| query :=
       "
    SELECT 
      COUNT(DISTINCT p.bbl) as total_buildings,
      AVG(p.yearbuilt) as avg_year_built,
      MIN(p.yearbuilt) as oldest_building,
      MAX(p.yearbuilt) as newest_building,
      AVG(p.numfloors) as avg_floors,
      MAX(p.numfloors) as max_floors,
      SUM(p.unitsres) as total_residential_units,
      COUNT(DISTINCT hv.id) as total_hpd_violations,
      COUNT(DISTINCT dv.id) as total_dob_violations
    FROM 
      pluto p
    LEFT JOIN 
      hpd_violations hv ON p.bbl = hv.bbl
    LEFT JOIN 
      dob_violations dv ON p.bbl = dv.bbl
    WHERE 
      "
       ++ String.concat " AND " (withDefault (whereClause st))
       ++ "
  ";
     boundParams := params st |}.

(** [buildQuery(queryType, queryParams)] *)
Definition buildQuery (queryType : option string) (queryParams : Params) : BuiltQuery :=
  match queryType with
  | Some t =>
      if String.eqb t "risk_assessment" then
        buildRiskAssessmentQuery {| qp_filters := p_filters queryParams;
                                    qp_limit := p_limit queryParams |}
      else if String.eqb t "trend_analysis" then buildTrendAnalysisQuery queryParams
      else if String.eqb t "violation_search" then buildViolationSearchQuery queryParams
      else if String.eqb t "building_lookup" then buildBuildingLookupQuery queryParams
      else if String.eqb t "comparison" then buildComparisonQuery queryParams
      else if String.eqb t "general_stats" then buildGeneralStatsQuery queryParams
      else buildBuildingLookupQuery queryParams
  | None => buildBuildingLookupQuery queryParams
  end.

(** The intents whose query ends in a LIMIT placeholder. *)
Definition bindsLimit (queryType : option string) : bool :=
  match queryType with
  | Some t =>
      negb (String.eqb t "trend_analysis" || String.eqb t "comparison"
            || String.eqb t "general_stats")
  | None => true
  end.

(** The six intents of the closed set. *)
Definition knownIntents : list string :=
  ["risk_assessment"; "trend_analysis"; "violation_search"; "building_lookup";
   "comparison"; "general_stats"].

End QueryBuilder.

(* ================================================================== *)
(** ** ai-insight-generator.js: narrative insights *)
(* ================================================================== *)

Module InsightGenerator.
Import Js Query Nlp.

Definition newline : ascii := ascii_of_nat 10.

Fixpoint drop (n : nat) (s : string) : string :=
  match n, s with
  | O, _ => s
  | S k, String _ r => drop k r
  | S _, EmptyString => EmptyString
  end.

Fixpoint takeWhile (p : ascii -> bool) (s : string) : string :=
  match s with
  | String c r => if p c then String c (takeWhile p r) else EmptyString
  | EmptyString => EmptyString
  end.

(** [String.prototype.split] with a regular expression none of whose matches
    is empty: [sep s] is the length of the match that starts [s], if any.
    [skip] counts the characters of a separator still to pass, [piece] is the
    piece being collected. *)
Fixpoint splitOn (sep : string -> option nat) (skip : nat) (piece s : string)
  : list string :=
  match s with
  | EmptyString => [piece]
  | String c r =>
      match skip with
      | S k => splitOn sep k piece r
      | O =>
          match sep s with
          | Some (S k) => piece :: splitOn sep k EmptyString r
          | _ => splitOn sep O (piece ++ String c EmptyString) r
          end
      end
  end.

Definition split (sep : string -> option nat) (s : string) : list string :=
  splitOn sep O EmptyString s.

(** [/\n-|\n\d+\./] at the start of [s] *)
Definition itemSeparator (s : string) : option nat :=
  match s with
  | String c r =>
      if Ascii.eqb c newline then
        match r with
        | String d _ =>
            if Ascii.eqb d "-" then Some 2%nat
            else
              let digits := String.length (takeWhile is_digit r) in
              match digits, drop digits r with
              | S _, String e _ =>
                  if Ascii.eqb e "." then Some (1 + digits + 1)%nat else None
              | _, _ => None
              end
        | EmptyString => None
        end
      else None
  | EmptyString => None
  end.

(** [/\.\s+/] at the start of [s] *)
Definition sentenceSeparator (s : string) : option nat :=
  match s with
  | String c r =>
      if Ascii.eqb c "." then
        match String.length (takeWhile is_space r) with
        | O => None
        | S k => Some (1 + S k)%nat
        end
      else None
  | EmptyString => None
  end.

(** What follows the leftmost occurrence of [needle] (given in lower case) in
    [s], letter case ignored. *)
Fixpoint afterFirst (needle s : string) : option string :=
  if String.prefix needle (toLowerCase s) then Some (drop (String.length needle) s)
  else match s with
       | EmptyString => None
       | String _ r => afterFirst needle r
       end.

(** [[\s\S]*?] before [(?:\n\n|$)] *)
Fixpoint beforeBlankLine (s : string) : string :=
  match s with
  | EmptyString => EmptyString
  | String c r =>
      if String.prefix (String newline (String newline EmptyString)) s then EmptyString
      else String c (beforeBlankLine r)
  end.

(** Group 1 of [insights.match(/key findings:?([\s\S]*?)(?:\n\n|$)/i)];
    [None] when there is no match. *)
Definition findingsMatch (insights : string) : option string :=
  match afterFirst "key findings" insights with
  | None => None
  | Some rest =>
      let rest' := match rest with
                   | String c r => if Ascii.eqb c ":" then r else rest
                   | EmptyString => rest
                   end in
      Some (beforeBlankLine rest')
  end.

(** [extractKeyFindings(insights)] *)
Definition extractKeyFindings (insights : string) : list string :=
  match findingsMatch insights with
  | Some (String c r) =>
      filter truthy (map trim (split itemSeparator (String c r)))
  | _ =>
      let sentences := split sentenceSeparator insights in
      map (fun sentence => trim sentence ++ ".")
          (filter (fun sentence =>
                     includes sentence "significant"
                     || includes sentence "notable"
                     || includes sentence "important"
                     || includes sentence "found that")
                  sentences)
  end.

(** One match of [/(?:because|due to|explained by|result of|caused by)([^.]+)/i]
    at the start of [s]. *)
Definition explanationAt (s : string) : option string :=
  match find (fun keyword => String.prefix keyword (toLowerCase s))
             ["because"; "due to"; "explained by"; "result of"; "caused by"] with
  | None => None
  | Some keyword =>
      let tail :=
        takeWhile (fun c => negb (Ascii.eqb c ".")) (drop (String.length keyword) s) in
      match tail with
      | EmptyString => None
      | _ => Some (take (String.length keyword + String.length tail) s)
      end
  end.

(** All matches, left to right, of the same expression with the [g] flag. *)
Fixpoint explanationMatches (skip : nat) (s : string) : list string :=
  match s with
  | EmptyString => []
  | String _ r =>
      match skip with
      | S k => explanationMatches k r
      | O =>
          match explanationAt s with
          | Some m => m :: explanationMatches (String.length m - 1) r
          | None => explanationMatches O r
          end
      end
  end.

(** [extractExplanations(insights)] *)
Definition extractExplanations (insights : string) : list string :=
  map trim (explanationMatches O insights).

(** The object [generateNarrativeInsights] returns. *)
Record NarrativeInsights := mkInsights {
  summary : string;
  keyFindings : list string;
  explanations : list string;
  confidence : Q
}.

Definition show_opt (absent : string) (x : option string) : string :=
  match x with
  | Some s => s
  | None => absent
  end.

(** [prepareInsightPrompt(structuredQuery, analysisResults)];
    [analysisJson] is [JSON.stringify(analysisResults, null, 2)], [None] when
    it yields [undefined], which has no [substring]. *)
Definition prepareInsightPrompt (structuredQuery : StructuredQuery)
           (analysisJson : option string) : Result string :=
  match analysisJson with
  | None => Throw "TypeError: Cannot read properties of undefined (reading 'substring')"
  | Some json =>
      Ok ("
You are an expert analyst of NYC Department of Buildings data. Based on the following query and analysis results, 
provide insightful observations about the data. Focus on patterns, trends, and notable findings.

User Query: " ++ String (ascii_of_nat 34) (show_opt "undefined" (originalQuery structuredQuery))
          ++ String (ascii_of_nat 34) "

Query Type: " ++ show_opt "null" (queryType structuredQuery) ++ "

Analysis Results: " ++ take 1500 json ++ "

Provide a concise summary of key insights, including:
1. Most significant findings
2. Patterns or trends identified
3. Possible explanations for these patterns
4. Any recommendations or next steps for further investigation

Your response should be informative, factual, and avoid speculation beyond what the data supports.
")
  end.

Definition fallbackInsights : NarrativeInsights :=
  {| summary := "Unable to generate insights due to an error.";
     keyFindings := [];
     explanations := [];
     confidence := 0 |}.

(** The [try] block of [generateNarrativeInsights]; [openai] is the
    Completion Service, which answers a prompt with a [Completion]. *)
Definition generateNarrativeInsights_try (openai : string -> Completion)
           (structuredQuery : StructuredQuery) (analysisJson : option string)
  : Result NarrativeInsights :=
  prompt <- prepareInsightPrompt structuredQuery analysisJson ;;
  text <- firstText (openai prompt) ;;
  match text with
  | None => Throw "TypeError: Cannot read properties of undefined (reading 'trim')"
  | Some t =>
      let insights := trim t in
      Ok {| summary := insights;
            keyFindings := extractKeyFindings insights;
            explanations := extractExplanations insights;
            confidence := 85 # 100 |}
  end.

(** [generateNarrativeInsights(structuredQuery, analysisResults)] *)
Definition generateNarrativeInsights (openai : string -> Completion)
           (structuredQuery : StructuredQuery) (analysisJson : option string)
  : NarrativeInsights :=
  try_catch (generateNarrativeInsights_try openai structuredQuery analysisJson)
            (fun _ => fallbackInsights).

(** *** Recommendations *)

(** [/\n+/] at the start of [s] *)
Definition lineSeparator (s : string) : option nat :=
  match String.length (takeWhile (fun c => Ascii.eqb c newline) s) with
  | O => None
  | S k => Some (S k)
  end.

(** The length of the match of [/^\d+\.\s+/], if any. *)
Definition numberedPrefix (line : string) : option nat :=
  let digits := String.length (takeWhile is_digit line) in
  match digits, drop digits line with
  | S _, String c r =>
      if Ascii.eqb c "." then
        match String.length (takeWhile is_space r) with
        | O => None
        | S k => Some (digits + 1 + S k)%nat
        end
      else None
  | _, _ => None
  end.

(** The length of the match of [/^Recommendation:\s+/], if any. *)
Definition labelPrefix (s : string) : option nat :=
  if String.prefix "Recommendation:" s then
    match String.length (takeWhile is_space (drop 15 s)) with
    | O => None
    | S k => Some (15 + S k)%nat
    end
  else None.

(** [line.replace(/^(\d+\.\s+)?Recommendation:\s+/, '')]: the label after a
    number, or else the label at the start; neither repetition can give
    back characters to what follows it. *)
Definition stripLabel (line : string) : string :=
  match numberedPrefix line with
  | Some n =>
      match labelPrefix (drop n line) with
      | Some k => drop (n + k) line
      | None =>
          match labelPrefix line with
          | Some k => drop k line
          | None => line
          end
      end
  | None =>
      match labelPrefix line with
      | Some k => drop k line
      | None => line
      end
  end.

(** The chain of array operations on the trimmed text. *)
Definition extractRecommendations (recommendationsText : string) : list string :=
  filter truthy
    (map (fun line => trim (stripLabel line))
         (filter (fun line =>
                    includes line "Recommendation:"
                    || match numberedPrefix line with Some _ => true | None => false end)
                 (split lineSeparator recommendationsText))).

(** The prompt of [generateRecommendations]; [analysisJson] as in
    [prepareInsightPrompt]. *)
Definition recommendationPrompt (structuredQuery : StructuredQuery)
           (analysisJson : option string) : Result string :=
  match analysisJson with
  | None => Throw "TypeError: Cannot read properties of undefined (reading 'substring')"
  | Some json =>
      Ok ("
You are an expert analyst of NYC Department of Buildings data. Based on the following query and analysis results, 
provide actionable recommendations.

User Query: "
          ++ String (ascii_of_nat 34) EmptyString
          ++ show_opt "undefined" (originalQuery structuredQuery)
          ++ String (ascii_of_nat 34) EmptyString
          ++ "

Query Type: "
          ++ show_opt "null" (queryType structuredQuery)
          ++ "

Analysis Results: "
          ++ take 1500 json
          ++ "

Provide 3-5 specific, actionable recommendations based on this data. Each recommendation should:
1. Be clearly stated
2. Be directly related to the data and analysis
3. Include a brief rationale
4. Be practical and implementable

Format each recommendation as: "
          ++ String (ascii_of_nat 34) EmptyString
          ++ "Recommendation: [action] - [brief rationale]"
          ++ String (ascii_of_nat 34) EmptyString
          ++ "
")
  end.

Definition fallbackRecommendations : list string :=
  ["Unable to generate recommendations due to an error."].

(** The [try] block of [generateRecommendations]. *)
Definition generateRecommendations_try (openai : string -> Completion)
           (structuredQuery : StructuredQuery) (analysisJson : option string)
  : Result (list string) :=
  prompt <- recommendationPrompt structuredQuery analysisJson ;;
  text <- firstText (openai prompt) ;;
  match text with
  | None => Throw "TypeError: Cannot read properties of undefined (reading 'trim')"
  | Some t => Ok (extractRecommendations (trim t))
  end.

(** [generateRecommendations(structuredQuery, analysisResults)] *)
Definition generateRecommendations (openai : string -> Completion)
           (structuredQuery : StructuredQuery) (analysisJson : option string)
  : list string :=
  try_catch (generateRecommendations_try openai structuredQuery analysisJson)
            (fun _ => fallbackRecommendations).

(** *** The vocabulary of the round trips *)

(** A list item: one non-empty line without white space around it. *)
Definition cleanLine (item : string) : Prop :=
  trimStart item = item /\ trimEnd item = item /\ item <> ""
  /\ fromFirst newline item = None.

(** The items, each on a line of its own that starts with [prefix]. *)
Fixpoint listing (prefix : string) (items : list string) : string :=
  match items with
  | [] => ""
  | item :: rest => String newline (prefix ++ item ++ listing prefix rest)
  end.

End InsightGenerator.

(* ================================================================== *)
(** ** data-analysis-service.js: the trend routine *)
(* ================================================================== *)

Module TrendAnalysis.
Import Js.

(** A row of the trend query.  [time_period] is the instant, in milliseconds
    since the epoch, that [new Date(row.time_period)] denotes; [count] is the
    number of records of the period. *)
Record TrendRow := mkTrendRow {
  time_period : Z;
  count : Z
}.

(** The comparator [new Date(a.time_period) - new Date(b.time_period)] is
    negative. *)
Definition earlier (a b : TrendRow) : bool := time_period a - time_period b <? 0.

(** [((current - previous) / previous * 100).toFixed(1)] *)
Definition percentChangeOf (previous current : Z) : Fixed1 :=
  toFixed1 (js_mul (js_div (inject_Z (current - previous)) (inject_Z previous)) (of_Z 100)).

Record TrendStats := mkTrendStats {
  firstPeriod : Z;
  lastPeriod : Z;
  firstValue : Z;
  lastValue : Z;
  percentChange : Fixed1;
  trend : string
}.

(** An element of [significantChanges]. *)
Record Change := mkChange {
  period : Z;
  previousPeriod : Z;
  previousValue : Z;
  currentValue : Z;
  c_percentChange : Fixed1;
  direction : string
}.

(** The loop [for (let i = 1; i < sortedData.length; i++)] over consecutive
    periods. *)
Fixpoint significantChangesOf (sortedData : list TrendRow) : list Change :=
  match sortedData with
  | previous :: ((current :: _) as rest) =>
      let prevValue := count previous in
      let currValue := count current in
      if prevValue =? 0 then significantChangesOf rest
      else
        let change := percentChangeOf prevValue currValue in
        if js_ge (js_abs (parseFloat change)) (of_Z 20) then
          {| period := time_period current;
             previousPeriod := time_period previous;
             previousValue := prevValue;
             currentValue := currValue;
             c_percentChange := change;
             direction := if js_ge (parseFloat change) (of_Z 0)
                          then "increase" else "decrease" |}
          :: significantChangesOf rest
        else significantChangesOf rest
  | _ => []
  end.

(** The loop [for (let i = 2; i < sortedData.length; i++)]: the 3-period
    moving average, as [(date, value)]. *)
Fixpoint movingAverageOf (sortedData : list TrendRow) : list (Z * Q) :=
  match sortedData with
  | a :: ((b :: c :: _) as rest) =>
      (time_period c, inject_Z (count c + count b + count a) / 3)%Q
      :: movingAverageOf rest
  | _ => []
  end.

Definition monthNames : list string :=
  ["January"; "February"; "March"; "April"; "May"; "June";
   "July"; "August"; "September"; "October"; "November"; "December"].

(** [toLocaleDateString('en-US', { month: 'short' })], by month. *)
Definition shortMonthNames : list string :=
  ["Jan"; "Feb"; "Mar"; "Apr"; "May"; "Jun"; "Jul"; "Aug"; "Sep"; "Oct"; "Nov"; "Dec"].

(** An element of [seasonalMonths]. *)
Record SeasonalMonth := mkSeasonalMonth {
  month : string;
  deviation : string;
  m_direction : string
}.

(** The object [analyzeTrendData] returns; [None] is a field left unset
    ([trendStats = None] is the initial [{}]). *)
Record TrendResults := mkTrendResults {
  trendStats : option TrendStats;
  significantChanges : list Change;
  seasonality : option string;                 (* timeSeriesAnalysis.seasonality *)
  trendLine : option (list (Z * Z));
  movingAverage : option (list (Z * Q));
  yearOverYearComparison : option (list (string * Z * Z))
}.

Definition emptyTrendResults : TrendResults :=
  {| trendStats := None; significantChanges := []; seasonality := None;
     trendLine := None; movingAverage := None; yearOverYearComparison := None |}.

Section Calendar.

(** [new Date(t).getMonth()]: the month, 0 to 11, of an instant in the time
    zone of the process. *)
Variable getMonth : Z -> nat.

(** The two arrays filled by [sortedData.forEach]: the sum of the counts and
    the number of periods of each month. *)
Definition monthly (sortedData : list TrendRow) : list Z * list Z :=
  fold_left
    (fun acc item =>
       let month := getMonth (time_period item) in
       (update_at (fun sum => sum + count item) month (fst acc),
        update_at Z.succ month (snd acc)))
    sortedData
    (repeat 0 12, repeat 0 12).

(** [monthlyAverages] after the loop that divides by [monthCounts]. *)
Definition monthlyAverages (sortedData : list TrendRow) : list Q :=
  map (fun sums => if 0 <? snd sums
                   then (inject_Z (fst sums) / inject_Z (snd sums))%Q
                   else inject_Z (fst sums))
      (combine (fst (monthly sortedData)) (snd (monthly sortedData))).

(** [avgValue] *)
Definition avgValue (averages : list Q) : JsNum :=
  js_div (fold_left Qplus averages 0%Q)
         (inject_Z (Z.of_nat (List.length (filter (fun v => Qlt_bool 0 v) averages)))).

(** The months whose average deviates from [avgValue] by 20 percent or more. *)
Definition seasonalMonthsOf (averages : list Q) : list SeasonalMonth :=
  flat_map
    (fun entry =>
       let value := fst entry in
       if Qeq_bool value 0 then []
       else
         let deviation :=
           toFixed1 (js_mul (js_quot (js_sub (JNum value) (avgValue averages))
                                     (avgValue averages))
                            (of_Z 100)) in
         if js_ge (js_abs (parseFloat deviation)) (of_Z 20) then
           [ {| month := snd entry;
                deviation := render deviation ++ "%";
                m_direction := if js_ge (parseFloat deviation) (of_Z 0)
                               then "above average" else "below average" |} ]
         else [])
    (combine averages monthNames).

(** [timeSeriesAnalysis.seasonality] *)
Definition seasonalityOf (sortedData : list TrendRow) : string :=
  if Nat.leb 24 (List.length sortedData) then
    match seasonalMonthsOf (monthlyAverages sortedData) with
    | [] => "No clear seasonal pattern detected"
    | seasonalMonths =>
        "Seasonal pattern detected with "
        ++ String.concat ", "
             (map (fun m => month m ++ " (" ++ deviation m ++ " " ++ m_direction m ++ ")")
                  seasonalMonths)
    end
  else "insufficient data for seasonality analysis".

(** [analyzeTrendData(retrievedData, structuredQuery)]; the argument is
    [retrievedData.data], [None] when there is no array under [data].  The
    second argument is never read. *)
Definition analyzeTrendData (retrievedData : option (list TrendRow)) : TrendResults :=
  match retrievedData with
  | None => emptyTrendResults
  | Some [] => emptyTrendResults
  | Some data =>
      let sortedData := sort_by earlier data in
      {| trendStats :=
           match sortedData with
           | [] => None
           | first :: _ =>
               let firstValue := count first in
               let lastValue := count (last sortedData first) in
               let percentChange := percentChangeOf firstValue lastValue in
               Some {| firstPeriod := time_period first;
                       lastPeriod := time_period (last sortedData first);
                       firstValue := firstValue;
                       lastValue := lastValue;
                       percentChange := percentChange;
                       trend := if js_ge (parseFloat percentChange) (of_Z 0)
                                then "increasing" else "decreasing" |}
           end;
         significantChanges := significantChangesOf sortedData;
         seasonality := Some (seasonalityOf sortedData);
         trendLine := Some (map (fun item => (time_period item, count item)) sortedData);
         movingAverage := Some (movingAverageOf sortedData);
         yearOverYearComparison :=
           if Nat.leb 13 (List.length sortedData) then
             Some (map (fun pair =>
                          (nth (getMonth (time_period (fst pair))) shortMonthNames "",
                           count (fst pair), count (snd pair)))
                       (combine (skipn 12 sortedData) sortedData))
           else None |}
  end.

End Calendar.

(** *** The vocabulary of the trend properties *)

(** The pairs of neighbours of a list, in order. *)
Fixpoint adjacent {A : Type} (l : list A) : list (A * A) :=
  match l with
  | a :: ((b :: _) as rest) => (a, b) :: adjacent rest
  | _ => []
  end.

(** The test of the loop on two neighbouring periods, read on their counts:
    the earlier count is not zero and the change is at least 19.95 percent
    of it in absolute value. *)
Definition isSignificant (pair : TrendRow * TrendRow) : bool :=
  negb (count (fst pair) =? 0)
  && (399 * Z.abs (count (fst pair))
      <=? 2000 * Z.abs (count (snd pair) - count (fst pair))).

(** What an entry of [significantChanges] says of its two periods, the
    percentage apart: [(previousPeriod, period, previousValue, currentValue,
    direction)]. *)
Definition outline (change : Change) : Z * Z * Z * Z * string :=
  (previousPeriod change, period change, previousValue change, currentValue change,
   direction change).

(** The same of two neighbouring rows; the direction is that of the
    quotient [(current - previous) / previous]. *)
Definition outlineOf (pair : TrendRow * TrendRow) : Z * Z * Z * Z * string :=
  (time_period (fst pair), time_period (snd pair), count (fst pair), count (snd pair),
   if (count (snd pair) - count (fst pair)) * count (fst pair) <? 0
   then "decrease" else "increase").

(** [l] has [n] neighbouring elements that all satisfy [p]. *)
Definition hasRun {A : Type} (n : nat) (p : A -> bool) (l : list A) : Prop :=
  exists before run after,
    l = (before ++ run ++ after)%list /\ List.length run = n /\ forallb p run = true.

End TrendAnalysis.

(* ================================================================== *)
(** ** data-transformation-service.js: violation and trend rows *)
(* ================================================================== *)

Module Transformations.
Import Js.

(** A row of the violation query; an absent or null column is the empty
    string. *)
Record ViolationRow := mkViolationRow {
  source : string;
  violationid : string;
  bbl : string;
  address : string;
  borough : string;
  issueddate : string;
  violationstatus : string;
  violationtype : string;
  description : string
}.

Record ViolationMetadata := mkViolationMetadata {
  v_count : nat;
  v_queryType : string;
  violationsByStatus : Counts;
  violationsBySource : Counts
}.

(** [violation.violationstatus || 'Unknown'], [violation.source || 'Unknown'] *)
Definition statusOf (violation : ViolationRow) : string :=
  or_default (violationstatus violation) "Unknown".

Definition sourceOf (violation : ViolationRow) : string :=
  or_default (source violation) "Unknown".

(** [transformViolationData(rows)] (the timestamp of the metadata is left
    out); the one loop fills the two counters independently. *)
Definition transformViolationData (rows : list ViolationRow)
  : list ViolationRow * ViolationMetadata :=
  (rows,
   {| v_count := List.length rows;
      v_queryType := "violation_search";
      violationsByStatus := tally statusOf rows [];
      violationsBySource := tally sourceOf rows [] |}).

(** [timeRange]; [None] is [null]. *)
Record TimeRange := mkTimeRange {
  range_start : option Z;
  range_end : option Z
}.

(** [transformTrendAnalysisData(rows)]: the sorted rows and [timeRange]
    (which the metadata repeats, with the count and the query type). *)
Definition transformTrendAnalysisData (rows : list TrendAnalysis.TrendRow)
  : list TrendAnalysis.TrendRow * TimeRange :=
  let sortedData := sort_by TrendAnalysis.earlier rows in
  (sortedData,
   {| range_start :=
        match sortedData with
        | first :: _ => Some (TrendAnalysis.time_period first)
        | [] => None
        end;
      range_end :=
        match sortedData with
        | first :: _ => Some (TrendAnalysis.time_period (last sortedData first))
        | [] => None
        end |}).

End Transformations.

(* ================================================================== *)
(** ** pattern-detection-service.js: the trend detector *)
(* ================================================================== *)

Module TrendPatterns.
Import Js.

(** The [data] object of a finding of the trend detector. *)
Inductive TrendFindingData : Type :=
| OverallTrendData (trend : string) (percentChange : Fixed1)
| SignificantChangeData (change : TrendAnalysis.Change)
| RunData (count : nat)
| SeasonalData (pattern : string).

Record TrendFinding := mkTrendFinding {
  type : string;
  description : string;
  importance : string;
  data : TrendFindingData
}.

Record TrendFindings := mkTrendFindings {
  significantPatterns : list TrendFinding;
  anomalies : list TrendFinding;
  seasonality : option TrendFinding
}.

(** The callback of [significantChanges.reduce]. *)
Definition moreSignificant (prev current : TrendAnalysis.Change) : TrendAnalysis.Change :=
  if js_gt (js_abs (parseFloat (TrendAnalysis.c_percentChange prev)))
           (js_abs (parseFloat (TrendAnalysis.c_percentChange current)))
  then prev else current.

(** The four counters of the loop over [significantChanges]. *)
Record Runs := mkRuns {
  consecutiveIncreases : nat;
  consecutiveDecreases : nat;
  maxConsecutiveIncreases : nat;
  maxConsecutiveDecreases : nat
}.

Definition countRun (runs : Runs) (change : TrendAnalysis.Change) : Runs :=
  if String.eqb (TrendAnalysis.direction change) "increase" then
    {| consecutiveIncreases := consecutiveIncreases runs + 1;
       consecutiveDecreases := 0;
       maxConsecutiveIncreases :=
         Nat.max (maxConsecutiveIncreases runs) (consecutiveIncreases runs + 1);
       maxConsecutiveDecreases := maxConsecutiveDecreases runs |}
  else
    {| consecutiveIncreases := 0;
       consecutiveDecreases := consecutiveDecreases runs + 1;
       maxConsecutiveIncreases := maxConsecutiveIncreases runs;
       maxConsecutiveDecreases :=
         Nat.max (maxConsecutiveDecreases runs) (consecutiveDecreases runs + 1) |}.

Definition countRuns (changes : list TrendAnalysis.Change) : Runs :=
  fold_left countRun changes
            {| consecutiveIncreases := 0; consecutiveDecreases := 0;
               maxConsecutiveIncreases := 0; maxConsecutiveDecreases := 0 |}.

Section Locale.

(** [new Date(t).toLocaleDateString()], in the locale and time zone of the
    process. *)
Variable toLocaleDateString : Z -> string.

(** The finding about the most significant change. *)
Definition changeFindings (significantChanges : list TrendAnalysis.Change)
  : list TrendFinding :=
  match significantChanges with
  | [] => []
  | first :: rest =>
      let mostSignificantChange := fold_left moreSignificant rest first in
      [ {| type := "significant_change";
           description :=
             (if String.eqb (TrendAnalysis.direction mostSignificantChange) "increase"
              then "Increase" else "Decrease")
             ++ " of " ++ show_abs (TrendAnalysis.c_percentChange mostSignificantChange)
             ++ "% on " ++ toLocaleDateString (TrendAnalysis.period mostSignificantChange);
           importance := "high";
           data := SignificantChangeData mostSignificantChange |} ]
  end.

(** The findings about runs of increases and of decreases. *)
Definition runFindings (significantChanges : list TrendAnalysis.Change)
  : list TrendFinding :=
  match significantChanges with
  | [] => []
  | _ =>
      let runs := countRuns significantChanges in
      ((if Nat.leb 3 (maxConsecutiveIncreases runs) then
          [ {| type := "consecutive_increases";
               description := string_of_nat (maxConsecutiveIncreases runs)
                              ++ " consecutive periods of significant increases";
               importance := "medium";
               data := RunData (maxConsecutiveIncreases runs) |} ]
        else [])
       ++
       (if Nat.leb 3 (maxConsecutiveDecreases runs) then
          [ {| type := "consecutive_decreases";
               description := string_of_nat (maxConsecutiveDecreases runs)
                              ++ " consecutive periods of significant decreases";
               importance := "medium";
               data := RunData (maxConsecutiveDecreases runs) |} ]
        else []))%list
  end.

(** [detectTrendPatterns(analysisResults)] *)
Definition detectTrendPatterns (analysisResults : TrendAnalysis.TrendResults) : TrendFindings :=
  {| significantPatterns :=
       ((match TrendAnalysis.trendStats analysisResults with
         | Some trendStats =>
             if truthy (TrendAnalysis.trend trendStats) then
               [ {| type := "overall_trend";
                    description := "Overall " ++ TrendAnalysis.trend trendStats
                                   ++ " trend with "
                                   ++ render (TrendAnalysis.percentChange trendStats)
                                   ++ "% change";
                    importance := "high";
                    data := OverallTrendData (TrendAnalysis.trend trendStats)
                                             (TrendAnalysis.percentChange trendStats) |} ]
             else []
         | None => []
         end)
        ++ runFindings (TrendAnalysis.significantChanges analysisResults))%list;
     anomalies := changeFindings (TrendAnalysis.significantChanges analysisResults);
     seasonality :=
       match TrendAnalysis.seasonality analysisResults with
       | Some text =>
           if truthy text
              && negb (String.eqb text "none detected")
              && negb (String.eqb text "insufficient data")
           then Some {| type := "seasonal_pattern";
                        description := text;
                        importance := "medium";
                        data := SeasonalData text |}
           else None
       | None => None
       end |}.

End Locale.

(** *** The vocabulary of the run counters *)

(** The test the loop makes on an element of [significantChanges]. *)
Definition isIncrease (change : TrendAnalysis.Change) : bool :=
  String.eqb (TrendAnalysis.direction change) "increase".

(** One pair of counters of the loop: the length of the run of elements
    satisfying [p] that ends at the current element, and the longest run so
    far. *)
Definition runStep {A : Type} (p : A -> bool) (counters : nat * nat) (x : A) : nat * nat :=
  if p x then (fst counters + 1, Nat.max (snd counters) (fst counters + 1))%nat
  else (O, snd counters).

(** A finding of the given kind is among [findings]. *)
Definition reports (kind : string) (findings : list TrendFinding) : Prop :=
  exists finding, In finding findings /\ type finding = kind.

End TrendPatterns.

(* ================================================================== *)
(** ** visualization-generator.js: the charts of the risk and trend analyses *)
(* ================================================================== *)

Module Visualization.
Import Js.

(** The [data] of a chart, one constructor per shape of its elements. *)
Inductive ChartData : Type :=
| Categories (items : list (string * Z))        (* {category, value} *)
| RiskTable (rows : list (string * string * Z * Fixed1 * string))
                                                (* {address, borough, yearBuilt,
                                                    riskScore, riskLevel} *)
| Series (points : list (Z * Z))                (* {date, value} *)
| AverageSeries (points : list (Z * Q))         (* {date, value} *)
| YearOverYear (items : list (string * Z * Z))  (* {category, currentYear,
                                                    previousYear} *)
| ChangeTable (rows : list (string * string * Z * Z * string * string)).
                                                (* {period, previousPeriod,
                                                    previousValue, currentValue,
                                                    percentChange, direction} *)

(** The [config] of a chart; a key that a chart does not set is [None], the
    empty list or [false]. *)
Record ChartConfig := mkChartConfig {
  colors : list string;
  categoryKey : option string;
  valueKey : option string;
  valueKeys : list string;
  xAxisLabel : option string;
  yAxisLabel : option string;
  isGrouped : bool;
  columns : list (string * string)
}.

Record Chart := mkChart {
  type : string;
  title : string;
  data : ChartData;
  config : ChartConfig
}.

(** The labels of a chart over [{category, value}], with its axes. *)
Definition categoryConfig (xAxis yAxis : option string) : ChartConfig :=
  {| colors := []; categoryKey := Some "category"; valueKey := Some "value";
     valueKeys := []; xAxisLabel := xAxis; yAxisLabel := yAxis; isGrouped := false;
     columns := [] |}.

(** The labels of a chart over [{date, value}], with its axes. *)
Definition dateConfig (xAxis yAxis : string) : ChartConfig :=
  {| colors := []; categoryKey := Some "date"; valueKey := Some "value";
     valueKeys := []; xAxisLabel := Some xAxis; yAxisLabel := Some yAxis;
     isGrouped := false; columns := [] |}.

(** The row of the table of top buildings that the callback of
    [topRiskBuildings.slice(0, 10).map] makes of a building. *)
Definition riskTableRow (building : DataTransformation.Building)
  : string * string * Z * Fixed1 * string :=
  (DataTransformation.address (DataTransformation.row building),
   DataTransformation.borough (DataTransformation.row building),
   DataTransformation.yearbuilt (DataTransformation.row building),
   toFixed1 (JNum (DataTransformation.risk_score building)),
   DataTransformation.risk_level building).

(** [generateRiskAssessmentVisualizations(analysisResults)] *)
Definition generateRiskAssessmentVisualizations (analysisResults : DataAnalysis.RiskResults)
  : list Chart :=
  ((match DataAnalysis.riskDistribution analysisResults with
    | Some riskDistribution =>
        [ {| type := "pieChart";
             title := "Risk Level Distribution";
             data := Categories riskDistribution;
             config := {| colors := ["#d9534f"; "#f0ad4e"; "#5bc0de"; "#5cb85c"];
                          categoryKey := Some "category"; valueKey := Some "value";
                          valueKeys := []; xAxisLabel := None; yAxisLabel := None;
                          isGrouped := false; columns := [] |} |} ]
    | None => []
    end)
   ++
   (match DataAnalysis.riskByBorough analysisResults with
    | Some riskByBorough =>
        [ {| type := "barChart";
             title := "High Risk Buildings by Borough";
             data := Categories (map (fun item => (fst item, snd item)) riskByBorough);
             config := categoryConfig (Some "Borough")
                                      (Some "Number of High Risk Buildings") |} ]
    | None => []
    end)
   ++
   (match DataAnalysis.riskByBuildingAge analysisResults with
    | Some riskByBuildingAge =>
        [ {| type := "barChart";
             title := "Risk Level by Building Age";
             data := Categories (map (fun item => (fst item, snd item)) riskByBuildingAge);
             config := categoryConfig (Some "Building Age")
                                      (Some "Number of High Risk Buildings") |} ]
    | None => []
    end)
   ++
   (match DataAnalysis.topRiskBuildings analysisResults with
    | [] => []
    | topRiskBuildings =>
        [ {| type := "table";
             title := "Top High Risk Buildings";
             data := RiskTable (map riskTableRow (firstn 10 topRiskBuildings));
             config := {| colors := []; categoryKey := None; valueKey := None;
                          valueKeys := []; xAxisLabel := None; yAxisLabel := None;
                          isGrouped := false;
                          columns := [("address", "Address"); ("borough", "Borough");
                                      ("yearBuilt", "Year Built");
                                      ("riskScore", "Risk Score");
                                      ("riskLevel", "Risk Level")] |} |} ]
    end))%list.

Section Locale.

(** [new Date(t).toLocaleDateString()], in the locale and time zone of the
    process. *)
Variable toLocaleDateString : Z -> string.

(** [generateTrendAnalysisVisualizations(analysisResults)] *)
Definition generateTrendAnalysisVisualizations
           (analysisResults : TrendAnalysis.TrendResults) : list Chart :=
  ((match TrendAnalysis.trendLine analysisResults with
    | Some trendLine =>
        [ {| type := "lineChart";
             title := "Trend Over Time";
             data := Series trendLine;
             config := dateConfig "Date" "Count" |} ]
    | None => []
    end)
   ++
   (match TrendAnalysis.movingAverage analysisResults with
    | Some movingAverage =>
        [ {| type := "lineChart";
             title := "Moving Average (3-month)";
             data := AverageSeries movingAverage;
             config := dateConfig "Date" "Average Count" |} ]
    | None => []
    end)
   ++
   (match TrendAnalysis.yearOverYearComparison analysisResults with
    | Some yearOverYearComparison =>
        [ {| type := "barChart";
             title := "Year-over-Year Comparison";
             data := YearOverYear yearOverYearComparison;
             config := {| colors := []; categoryKey := Some "category"; valueKey := None;
                          valueKeys := ["currentYear"; "previousYear"];
                          xAxisLabel := Some "Month"; yAxisLabel := Some "Count";
                          isGrouped := true; columns := [] |} |} ]
    | None => []
    end)
   ++
   (match TrendAnalysis.significantChanges analysisResults with
    | [] => []
    | significantChanges =>
        [ {| type := "table";
             title := "Significant Changes";
             data := ChangeTable
                       (map (fun change =>
                               (toLocaleDateString (TrendAnalysis.period change),
                                toLocaleDateString (TrendAnalysis.previousPeriod change),
                                TrendAnalysis.previousValue change,
                                TrendAnalysis.currentValue change,
                                (render (TrendAnalysis.c_percentChange change) ++ "%")%string,
                                TrendAnalysis.direction change))
                            significantChanges);
             config := {| colors := []; categoryKey := None; valueKey := None;
                          valueKeys := []; xAxisLabel := None; yAxisLabel := None;
                          isGrouped := false;
                          columns := [("period", "Period");
                                      ("previousValue", "Previous Value");
                                      ("currentValue", "Current Value");
                                      ("percentChange", "Change");
                                      ("direction", "Direction")] |} |} ]
    end))%list.

End Locale.

End Visualization.

(* ================================================================== *)
(** ** data-retrieval-service.js: from the structured query to the database query *)
(* ================================================================== *)

Module DataRetrieval.
Import Js Query.

(** [dbQuery]; its [columns] and [joins] are never written to and stay
    empty. *)
Record DbQuery := mkDbQuery {
  tables : list string;
  db_filters : list Filter;
  db_groupBy : list string;
  orderBy : option string;
  db_limit : Z
}.

(** The [switch] on [structuredQuery.queryType]. *)
Definition tablesOf (queryType : option string) : list string :=
  match queryType with
  | Some t =>
      if String.eqb t "risk_assessment" then ["hpd_violations"; "dob_violations"; "pluto"]
      else if String.eqb t "trend_analysis" then ["dob_permits"]
      else if String.eqb t "violation_search" then ["hpd_violations"; "dob_violations"]
      else if String.eqb t "building_lookup" then ["pluto"]
      else if String.eqb t "comparison" then ["pluto"; "hpd_violations"; "dob_violations"]
      else if String.eqb t "general_stats" then ["pluto"]
      else ["pluto"]
  | None => ["pluto"]
  end.

(** [tables.includes(t)] *)
Definition includesTable (tables : list string) (t : string) : bool :=
  existsb (String.eqb t) tables.

(** The filter pushed for one element of [entities.locations]. *)
Definition locationFilter (location : string) : Filter :=
  {| table := "pluto"; column := "borough"; operator := "=";
     value := VScalar (SString location) |}.

(** The filter pushed for one element of [entities.buildingTypes]. *)
Definition buildingTypeFilter (buildingType : string) : Filter :=
  let dbValue :=
    if String.eqb (toLowerCase buildingType) "residential" then "R"
    else if String.eqb (toLowerCase buildingType) "commercial" then "C"
    else if String.eqb (toLowerCase buildingType) "mixed use" then "M"
    else buildingType in
  {| table := "pluto"; column := "bldgclass"; operator := "LIKE";
     value := VScalar (SString (dbValue ++ "%")) |}.

Definition rangeFilter (tableName p_start p_end : string) : Filter :=
  {| table := tableName; column := "issueddate"; operator := "BETWEEN";
     value := VArray [SString p_start; SString p_end] |}.

(** The filters pushed for one element of [entities.timePeriods]. *)
Definition periodFilters (tables : list string) (period : TimePeriod) : list Filter :=
  match period with
  | PeriodRange p_start p_end =>
      if truthy p_start && truthy p_end then
        ((if includesTable tables "hpd_violations" || includesTable tables "dob_violations"
          then [ rangeFilter (if includesTable tables "hpd_violations"
                             then "hpd_violations" else "dob_violations")
                            p_start p_end ]
          else [])
         ++
         (if includesTable tables "dob_permits"
          then [ rangeFilter "dob_permits" p_start p_end ]
          else []))%list
      else []
  | PeriodText _ => []
  end.

(** [buildDatabaseQuery(structuredQuery)] *)
Definition buildDatabaseQuery (structuredQuery : StructuredQuery) : DbQuery :=
  let tables := tablesOf (queryType structuredQuery) in
  {| tables := tables;
     db_filters :=
       ((match locations (entities structuredQuery) with
         | Some locations => map locationFilter locations
         | None => []
         end)
        ++
        (match buildingTypes (entities structuredQuery) with
         | Some buildingTypes => map buildingTypeFilter buildingTypes
         | None => []
         end)
        ++
        (match timePeriods (entities structuredQuery) with
         | Some timePeriods => flat_map (periodFilters tables) timePeriods
         | None => []
         end)
        ++ filters structuredQuery)%list;
     db_groupBy :=
       flat_map (fun agg => if truthy_opt (groupBy agg)
                            then match groupBy agg with Some g => [g] | None => [] end
                            else [])
                (aggregations structuredQuery);
     orderBy := if truthy_opt (sortOrder structuredQuery)
                then sortOrder structuredQuery else None;
     db_limit := if limit structuredQuery =? 0 then 100 else limit structuredQuery |}.

(** *** The statement sent to the database *)

(** [`${value}`]: a string as it is, a number in decimal, an array as its
    elements separated by commas. *)
Definition showScalar (v : Scalar) : string :=
  match v with
  | SString s => s
  | SNumber n => string_of_Z n
  end.

Definition showValue (v : JsValue) : string :=
  match v with
  | VScalar v => showScalar v
  | VArray items => String.concat "," (map showScalar items)
  end.

(** The clause of the [=] case of [buildWhereClause]: the value is written
    into the text, between single quotes. *)
Definition equalityClause (filter : Filter) : string :=
  table filter ++ "." ++ column filter ++ " = '" ++ showValue (value filter) ++ "'".

Section WhereClause.

(** The sources stop inside [buildWhereClause], after the [=] case of its
    [switch]: the clause of a filter with another operator, and what the
    function makes of the array [clauses], are parameters. *)
Variable otherClause : Filter -> string.
Variable joinClauses : list string -> string.

(** The callback of [filters.map]. *)
Definition clauseOf (filter : Filter) : string :=
  if String.eqb (operator filter) "=" then equalityClause filter else otherClause filter.

(** [buildWhereClause(filters)]: a string, and nothing else. *)
Definition buildWhereClause (filters : list Filter) : string :=
  match filters with
  | [] => "1=1"
  | _ => joinClauses (map clauseOf filters)
  end.

(** What [retrieveRiskAssessmentData(dbQuery)] hands to [pool.query]: the
    text of the statement and the values bound to it.  The call is
    [pool.query(query)], with the text alone. *)
Definition riskAssessmentStatement (dbQuery : DbQuery) : string * list JsValue :=
  ("
    SELECT 
      p.bbl,
      p.address,
      p.borough,
      p.block,
      p.lot,
      p.bldgclass,
      p.yearbuilt,
      COUNT(DISTINCT hv.id) as hpd_violation_count,
      COUNT(DISTINCT dv.id) as dob_violation_count,
      (COUNT(DISTINCT hv.id) + COUNT(DISTINCT dv.id)) as total_violations
    FROM 
      pluto p
    LEFT JOIN 
      hpd_violations hv ON p.bbl = hv.bbl
    LEFT JOIN 
      dob_violations dv ON p.bbl = dv.bbl
    WHERE 
      "
   ++ buildWhereClause (db_filters dbQuery)
   ++ "
    GROUP BY 
      p.bbl, p.address, p.borough, p.block, p.lot, p.bldgclass, p.yearbuilt
    ORDER BY 
      total_violations DESC
    LIMIT "
   ++ string_of_Z (db_limit dbQuery)
   ++ ";
  ",
   []).

End WhereClause.

(** *** The vocabulary of the retrieval properties *)

(** The elements of an entity list that may be absent. *)
Definition listed {A : Type} (l : option (list A)) : list A :=
  match l with
  | Some elements => elements
  | None => []
  end.

(** The time periods that were resolved to a range with both ends. *)
Definition resolvedRanges (periods : list TimePeriod) : list (string * string) :=
  flat_map (fun period =>
              match period with
              | PeriodRange p_start p_end =>
                  if truthy p_start && truthy p_end then [(p_start, p_end)] else []
              | PeriodText _ => []
              end)
           periods.

(** The table whose [issueddate] a time period constrains, by intent. *)
Definition datedTable (queryType : option string) : option string :=
  match queryType with
  | Some t =>
      if String.eqb t "risk_assessment" || String.eqb t "violation_search"
         || String.eqb t "comparison"
      then Some "hpd_violations"
      else if String.eqb t "trend_analysis" then Some "dob_permits"
      else None
  | None => None
  end.

(** Every period of the list is a phrase still to be normalised. *)
Definition allPhrases (periods : list TimePeriod) : Prop :=
  Forall (fun period => exists phrase, period = PeriodText phrase) periods.

End DataRetrieval.

(* ================================================================== *)
(** ** interactive-refinement-service.js: refinement suggestions *)
(* ================================================================== *)

Module Refinement.
Import Js Query.

Record Suggestion := mkSuggestion {
  text : string;
  query : string
}.

(** [generateRefinementSuggestions(structuredQuery, response,
    conversationContext)]; of [response] only the length of [response.data]
    is read ([None] when there is no [data]), the third argument is never
    read. *)
Definition generateRefinementSuggestions (structuredQuery : StructuredQuery)
           (responseData : option nat) : list Suggestion :=
  let original := InsightGenerator.show_opt "undefined" (originalQuery structuredQuery) in
  ([ {| text := "Tell me more details about this";
        query := "Tell me more details about " ++ original |} ]
   ++
   (match responseData with
    | Some length =>
        if Nat.ltb 10 length then
          [ {| text := "Show me only the top results";
               query := "Show me only the top results from " ++ original |} ]
        else []
    | None => []
    end)
   ++
   [ {| text := "Can you visualize this data?";
        query := "Visualize the data from " ++ original |} ]
   ++
   (match queryType structuredQuery with
    | Some t =>
        if String.eqb t "risk_assessment" then
          [ {| text := "What factors contribute to these risks?";
               query := "What factors contribute to these building risks?" |} ]
        else if String.eqb t "trend_analysis" then
          [ {| text := "What might explain these trends?";
               query := "What might explain these trends?" |} ]
        else if String.eqb t "violation_search" then
          [ {| text := "Which buildings have the most violations?";
               query := "Which buildings have the most violations?" |} ]
        else []
    | None => []
    end)
   ++
   (match locations (entities structuredQuery) with
    | Some (currentLocation :: _) =>
        let otherLocations :=
          filter (fun loc => negb (String.eqb loc currentLocation))
                 ["Manhattan"; "Brooklyn"; "Queens"; "Bronx"; "Staten Island"] in
        match otherLocations with
        | other :: _ =>
            [ {| text := "Compare with " ++ other;
                 query := "Compare " ++ original ++ " with " ++ other |} ]
        | [] => []
        end
    | _ => []
    end))%list.

End Refinement.

(* ================================================================== *)
(** ** Concrete inputs used by the examples of Part II *)
(* ================================================================== *)

Module Samples.
Import Js Query Conversation Nlp.

(** A parser that accepts nothing: enough for replies without braces, which
    never reach [JSON.parse]. *)
Definition rejectAll : string -> option ParsedResponse := fun _ => None.

Definition brooklynRiskQuery : StructuredQuery :=
  {| queryType := Some "risk_assessment";
     entities := set_locations (Some ["Brooklyn"]) noEntities;
     filters := [];
     aggregations := [];
     sortOrder := None;
     limit := 100;
     originalQuery := Some "Show me buildings in Brooklyn with a high risk of structural issues" |}.

(** A session whose one turn was the Brooklyn risk query. *)
Definition brooklynSession : ConversationContext :=
  addQuery 1000 brooklynRiskQuery {| id := None |} (newContext "conv_1" 0).

Definition apologyReply : string := "I am sorry, I cannot interpret this question.".

Definition ambiguousQuery : string := "Show me building data".

(** A query with every field populated. *)
Definition fullQuery : StructuredQuery :=
  {| queryType := Some "violation_search";
     entities := {| locations := Some ["Queens"];
                    buildingTypes := Some ["residential"];
                    timePeriods := Some [PeriodRange "2025-01-01" "2025-12-31"];
                    otherEntities := [] |};
     filters := [];
     aggregations := [];
     sortOrder := None;
     limit := 100;
     originalQuery := Some "What about those in Queens?" |}.

(** The same query as the interpreter returns it in 2026 for [queensReply],
    defined below: there is no [originalQuery]. *)
Definition untitledQuery : StructuredQuery :=
  {| queryType := Some "violation_search";
     entities := {| locations := Some ["Queens"];
                    buildingTypes := Some ["residential"];
                    timePeriods := Some [PeriodRange "2025-01-01" "2025-12-31"];
                    otherEntities := [] |};
     filters := [];
     aggregations := [];
     sortOrder := None;
     limit := 100;
     originalQuery := None |}.

(** What [JSON.parse] reads in the reply of the model to a follow-up about
    Queens: the keys the prompt asks for, the period still as a phrase. *)
Definition queensReply : ParsedResponse :=
  {| p_queryType := Some "violation_search";
     p_entities := Some {| locations := Some ["Queens"];
                           buildingTypes := Some ["residential"];
                           timePeriods := Some [PeriodText "last year"];
                           otherEntities := [] |};
     p_filters := None;
     p_aggregations := None;
     p_sortOrder := None;
     p_limit := None;
     p_originalQuery := None |}.

(** A risk question about a neighbourhood whose name has an apostrophe. *)
Definition hellsKitchenQuery : StructuredQuery :=
  {| queryType := Some "risk_assessment";
     entities := set_locations (Some ["Hell's Kitchen"]) noEntities;
     filters := [];
     aggregations := [];
     sortOrder := None;
     limit := 100;
     originalQuery := Some "Which buildings in Hell's Kitchen are at risk?" |}.

Definition sixRequests : list (Z * string) :=
  [(1000, "c1"); (2000, "c2"); (3000, "c3"); (4000, "c4"); (5000, "c5"); (6000, "c6")].

(** The store after six conversations of user [u], opened one second apart. *)
Definition sixConversations : Conversations := openConversations "u" sixRequests [].

(** A Completion Service that answers every prompt with an empty text. *)
Definition emptyCompletion : string -> Completion := fun _ => Completed [Some ""].

(** A Completion Service whose call fails. *)
Definition failingCompletion : string -> Completion := fun _ => Rejected.

Definition boroughFilter : Filter :=
  {| table := "pluto"; column := "borough"; operator := "=";
     value := VScalar (SString "Brooklyn") |}.

Definition dateFilter : Filter :=
  {| table := "hpd_violations"; column := "issueddate"; operator := "BETWEEN";
     value := VArray [SString "2025-01-01"; SString "2025-12-31"] |}.

(** A row that the scoring of 2026 puts in the high-risk group. *)
Definition oldBuilding (boroughName : string) : DataTransformation.Building :=
  DataTransformation.scoreBuilding
    2026 (DataTransformation.mkRaw "3012345678" "1 Main St" boroughName "D1" 1920 30).

(** 402 high-risk buildings: 161 in Brooklyn (40.05 percent, to two
    decimals), 121 in Queens, 120 in the Bronx. *)
Definition scatteredRisk : list DataTransformation.Building :=
  (repeat (oldBuilding "Brooklyn") 161 ++ repeat (oldBuilding "Queens") 121
   ++ repeat (oldBuilding "Bronx") 120)%list.

(** 203 violations, 61 of them (30.05 percent, to two decimals) of the most
    frequent type. *)
Definition scatteredViolations : PatternDetection.ViolationResults :=
  {| PatternDetection.totalViolations := Some 203;
     PatternDetection.topViolationTypes :=
       [ PatternDetection.mkTypeCount "IMMEDIATELY HAZARDOUS" 61;
         PatternDetection.mkTypeCount "HAZARDOUS" 60 ];
     PatternDetection.buildingsWithMultipleViolations := [] |}.

(** 200 violations, 61 of the most frequent type, and five buildings of
    which one has 20 violations. *)
Definition concentratedViolations : PatternDetection.ViolationResults :=
  {| PatternDetection.totalViolations := Some 200;
     PatternDetection.topViolationTypes :=
       [ PatternDetection.mkTypeCount "IMMEDIATELY HAZARDOUS" 61;
         PatternDetection.mkTypeCount "HAZARDOUS" 60 ];
     PatternDetection.buildingsWithMultipleViolations :=
       [ PatternDetection.mkViolationBuilding "1 Main St" "Brooklyn" 2;
         PatternDetection.mkViolationBuilding "2 Main St" "Brooklyn" 2;
         PatternDetection.mkViolationBuilding "3 Main St" "Queens" 2;
         PatternDetection.mkViolationBuilding "4 Main St" "Queens" 2;
         PatternDetection.mkViolationBuilding "5 Main St" "Bronx" 20 ] |}.

(** A violation question about last year, as the model returns it. *)
Definition lastYearQuery : StructuredQuery :=
  {| queryType := Some "violation_search";
     entities := {| locations := Some ["brooklyn"];
                    buildingTypes := None;
                    timePeriods := Some [PeriodText "Last year"];
                    otherEntities := [] |};
     filters := [];
     aggregations := [];
     sortOrder := None;
     limit := 100;
     originalQuery := Some "Which violations were issued in Brooklyn last year?" |}.

End Samples.

(* ================================================================== *)
(** * Part II: properties *)
(* ================================================================== *)

(** ** Arithmetic of the JavaScript primitives *)

Module JsFacts.
Import Js.

Lemma Qfloor_half (n : Z) : Qfloor (inject_Z n + (1 # 2))%Q = n.
Proof.
  unfold Qfloor, Qplus, inject_Z; simpl.
  symmetry; apply (Z.div_unique _ _ _ 1); lia.
Qed.

Lemma Qfloor_ge (m : Z) (x : Q) : m <= Qfloor x <-> (inject_Z m <= x)%Q.
Proof.
  split.
  - intro H. apply Qle_trans with (inject_Z (Qfloor x)).
    + rewrite <- Zle_Qle. exact H.
    + apply Qfloor_le.
  - intro H. destruct (Z_lt_le_dec (Qfloor x) m) as [Hlt|Hle]; [|exact Hle].
    exfalso.
    assert (H1 : (x < inject_Z (Qfloor x + 1))%Q) by apply Qlt_floor.
    assert (H2 : (inject_Z (Qfloor x + 1) <= inject_Z m)%Q) by (rewrite <- Zle_Qle; lia).
    apply (Qlt_irrefl x).
    apply Qlt_le_trans with (inject_Z (Qfloor x + 1)); [exact H1|].
    apply Qle_trans with (inject_Z m); assumption.
Qed.

Lemma Qlt_bool_iff (a b : Q) : Qlt_bool a b = true <-> (a < b)%Q.
Proof.
  unfold Qlt_bool. rewrite negb_true_iff.
  split.
  - intro H. apply Qnot_le_lt. intro Hle. apply Qle_bool_iff in Hle. congruence.
  - intro H. destruct (Qle_bool b a) eqn:E; [|reflexivity].
    apply Qle_bool_iff in E. exfalso. apply (Qlt_irrefl a).
    apply Qlt_le_trans with b; assumption.
Qed.

Lemma Qeq_bool_inject_pos (n : Z) : 0 < n -> Qeq_bool (inject_Z n) 0 = false.
Proof.
  intro H. destruct (Qeq_bool (inject_Z n) 0) eqn:E; [|reflexivity].
  apply Qeq_bool_iff in E. unfold Qeq, inject_Z in E. simpl in E. lia.
Qed.

Lemma percent_exceeds (v n k : Z) :
  0 <= v -> 0 < n ->
  js_gt (parseFloat (toFixed1 (js_mul (js_div (inject_Z v) (inject_Z n)) (of_Z 100))))
        (of_Z k) = true
  <-> (20 * k + 1) * n <= 2000 * v.
Proof.
  intros Hv Hn.
  unfold js_div. rewrite (Qeq_bool_inject_pos n Hn).
  unfold of_Z, js_mul, toFixed1.
  set (q := (inject_Z v / inject_Z n * inject_Z 100)%Q).
  assert (Hq : (0 <= q)%Q).
  { unfold q. apply Qmult_le_0_compat; [|discriminate].
    apply Qle_shift_div_l.
    - change 0%Q with (inject_Z 0). rewrite <- Zlt_Qlt. exact Hn.
    - rewrite Qmult_0_l. change 0%Q with (inject_Z 0). rewrite <- Zle_Qle. exact Hv. }
  assert (Hs : Qlt_bool q 0 = false).
  { unfold Qlt_bool. apply negb_false_iff, Qle_bool_iff, Hq. }
  rewrite Hs. unfold parseFloat, js_gt.
  rewrite Qlt_bool_iff.
  rewrite (Qabs_pos q Hq).
  set (t := Qfloor (q * 10 + (1 # 2))%Q).
  assert (E1 : (inject_Z k < t # 10)%Q <-> 10 * k + 1 <= t).
  { unfold Qlt, inject_Z. cbn [Qnum Qden]. lia. }
  rewrite E1. unfold t. rewrite Qfloor_ge.
  unfold q.
  assert (Hn' : ~ (inject_Z n == 0)%Q).
  { intro E. unfold Qeq, inject_Z in E. simpl in E. lia. }
  split.
  - intro H.
    assert (H' : (inject_Z ((20 * k + 1) * n) <= inject_Z (2000 * v))%Q).
    { rewrite !inject_Z_mult, inject_Z_plus, inject_Z_mult.
      apply Qmult_le_r with (z := (/ inject_Z n * (1 # 2))%Q).
      - apply Qmult_lt_0_compat; [|reflexivity].
        apply Qinv_lt_0_compat. change 0%Q with (inject_Z 0). rewrite <- Zlt_Qlt. exact Hn.
      - rewrite inject_Z_plus, inject_Z_mult in H.
        setoid_replace ((inject_Z 20 * inject_Z k + inject_Z 1) * inject_Z n * (/ inject_Z n * (1 # 2)))%Q
          with (inject_Z 10 * inject_Z k + inject_Z 1 - (1 # 2))%Q by (field; exact Hn').
        setoid_replace (inject_Z 2000 * inject_Z v * (/ inject_Z n * (1 # 2)))%Q
          with (inject_Z v / inject_Z n * inject_Z 100 * 10 + (1 # 2) - (1 # 2))%Q by (field; exact Hn').
        apply Qplus_le_l. exact H. }
    rewrite <- Zle_Qle in H'. exact H'.
  - intro H. rewrite Zle_Qle in H.
    rewrite !inject_Z_mult, inject_Z_plus, inject_Z_mult in H.
    rewrite inject_Z_plus, inject_Z_mult.
    apply Qmult_le_r with (z := (/ inject_Z n * (1 # 2))%Q) in H.
    + setoid_replace ((inject_Z 20 * inject_Z k + inject_Z 1) * inject_Z n * (/ inject_Z n * (1 # 2)))%Q
          with (inject_Z 10 * inject_Z k + inject_Z 1 - (1 # 2))%Q in H by (field; exact Hn').
      setoid_replace (inject_Z 2000 * inject_Z v * (/ inject_Z n * (1 # 2)))%Q
          with (inject_Z v / inject_Z n * inject_Z 100 * 10 + (1 # 2) - (1 # 2))%Q in H by (field; exact Hn').
      apply Qplus_le_l in H. exact H.
    + apply Qmult_lt_0_compat; [|reflexivity].
      apply Qinv_lt_0_compat. change 0%Q with (inject_Z 0). rewrite <- Zlt_Qlt. exact Hn.
Qed.

Lemma get_bump (k k' : string) (o : Counts) :
  get k (bump k' o)
  = if String.eqb k' k
    then Some (match get k o with Some v => v + 1 | None => 1 end)
    else get k o.
Proof.
  induction o as [|[k0 v0] r IH]; simpl.
  - destruct (String.eqb k' k); reflexivity.
  - destruct (String.eqb_spec k0 k') as [E|N]; simpl.
    + subst k0. destruct (String.eqb k' k); reflexivity.
    + destruct (String.eqb_spec k0 k) as [E|N']; simpl.
      * subst k0. destruct (String.eqb_spec k' k); [congruence | reflexivity].
      * exact IH.
Qed.

Lemma keys_bump (k : string) (o : Counts) :
  forall x, In x (map fst (bump k o)) <-> x = k \/ In x (map fst o).
Proof.
  induction o as [|[k0 v0] r IH]; intro x; simpl.
  - split; [intros [H|[]]; auto | intros [H|[]]; auto].
  - destruct (String.eqb_spec k0 k) as [E|N]; simpl.
    + subst k0. intuition (subst; auto).
    + rewrite IH. intuition (subst; auto).
Qed.

Lemma nodup_bump (k : string) (o : Counts) :
  NoDup (map fst o) -> NoDup (map fst (bump k o)).
Proof.
  induction o as [|[k0 v0] r IH]; simpl; intro H.
  - constructor; [intros [] | constructor].
  - inversion H as [|? ? Hnot Hr]; subst.
    destruct (String.eqb_spec k0 k) as [E|N]; simpl.
    + constructor; assumption.
    + constructor; [|apply IH, Hr].
      rewrite keys_bump. intros [E|Hin]; [congruence | contradiction].
Qed.

Lemma in_get (o : Counts) :
  NoDup (map fst o) -> forall k v, In (k, v) o <-> get k o = Some v.
Proof.
  induction o as [|[k0 v0] r IH]; simpl; intros H k v.
  - split; [intros [] | discriminate].
  - inversion H as [|? ? Hnot Hr]; subst.
    destruct (String.eqb_spec k0 k) as [E|N].
    + subst k0. split.
      * intros [E|Hin]; [congruence|].
        exfalso. apply Hnot. apply (in_map fst) in Hin. exact Hin.
      * intro E. left. congruence.
    + rewrite <- (IH Hr). split.
      * intros [E|Hin]; [congruence | exact Hin].
      * intro Hin. right. exact Hin.
Qed.

Section Tally.
Context {A : Type} (key : A -> string).

Lemma nodup_tally (l : list A) :
  forall o, NoDup (map fst o) -> NoDup (map fst (tally key l o)).
Proof.
  induction l as [|b l IH]; intros o H; simpl; [exact H|].
  apply IH, nodup_bump, H.
Qed.

Lemma get_tally (k : string) (l : list A) :
  forall o,
    get k (tally key l o)
    = if occurrences key k l =? 0 then get k o
      else Some (match get k o with Some v => v | None => 0 end + occurrences key k l).
Proof.
  unfold occurrences, tally.
  induction l as [|b l IH]; intro o; [reflexivity|].
  cbn [fold_left filter]. rewrite IH, get_bump.
  set (m := Z.of_nat (List.length (filter (fun b0 => String.eqb (key b0) k) l))).
  assert (Hm : 0 <= m) by (unfold m; lia).
  destruct (String.eqb_spec (key b) k) as [E|N]; [|reflexivity].
  cbn [List.length]. rewrite Nat2Z.inj_succ. fold m.
  destruct (Z.eqb_spec m 0) as [E0|N0];
    destruct (Z.eqb_spec (Z.succ m) 0) as [E1|N1]; try lia;
    destruct (get k o); f_equal; lia.
Qed.

Lemma in_tally (l : list A) (k : string) (v : Z) :
  In (k, v) (tally key l []) <-> 0 < v /\ v = occurrences key k l.
Proof.
  rewrite (in_get _ (nodup_tally l [] (NoDup_nil _))), get_tally. simpl.
  assert (0 <= occurrences key k l) by (unfold occurrences; lia).
  destruct (Z.eqb_spec (occurrences key k l) 0) as [E|N].
  - split; [discriminate | lia].
  - split.
    + intro H1. injection H1 as <-. lia.
    + intros [_ ->]. reflexivity.
Qed.

End Tally.

Lemma filter_insert_by {A : Type} (before : A -> A -> bool) (p : A -> bool) (x : A)
      (l : list A) :
  List.length (filter p (insert_by before x l)) = List.length (filter p (x :: l)).
Proof.
  induction l as [|y r IH]; [reflexivity|].
  simpl. destruct (before y x); [|reflexivity].
  simpl in *. destruct (p y), (p x); simpl in *; lia.
Qed.

Lemma filter_sort_by {A : Type} (before : A -> A -> bool) (p : A -> bool) (l : list A) :
  List.length (filter p (sort_by before l)) = List.length (filter p l).
Proof.
  induction l as [|x r IH]; [reflexivity|].
  unfold sort_by in *. simpl. rewrite filter_insert_by. simpl.
  destruct (p x); simpl; rewrite IH; reflexivity.
Qed.

Lemma filter_true {A : Type} (l : list A) : filter (fun _ => true) l = l.
Proof.
  induction l as [|x r IH]; simpl; [reflexivity | rewrite IH; reflexivity].
Qed.

Lemma length_sort_by {A : Type} (before : A -> A -> bool) (l : list A) :
  List.length (sort_by before l) = List.length l.
Proof.
  pose proof (filter_sort_by before (fun _ => true) l) as H.
  rewrite !filter_true in H. exact H.
Qed.


Lemma in_insert_by {A : Type} (before : A -> A -> bool) (x : A) (l : list A) (y : A) :
  In y (insert_by before x l) <-> y = x \/ In y l.
Proof.
  induction l as [|z r IH]; simpl.
  - intuition.
  - destruct (before z x); simpl; [rewrite IH|]; intuition.
Qed.

Lemma in_sort_by {A : Type} (before : A -> A -> bool) (l : list A) (y : A) :
  In y (sort_by before l) <-> In y l.
Proof.
  induction l as [|x r IH]; simpl; [reflexivity|].
  unfold sort_by in *. simpl. rewrite in_insert_by, IH. intuition.
Qed.

Lemma filter_length_le {A : Type} (p : A -> bool) (l : list A) :
  (List.length (filter p l) <= List.length l)%nat.
Proof.
  induction l as [|x r IH]; simpl; [lia|]. destruct (p x); simpl; lia.
Qed.

End JsFacts.

(** ** Risk scoring *)

Module DataTransformationFacts.
Import Js JsFacts DataTransformation.

Lemma ageScore_ref (currentYear yearBuilt : Z) :
  calculateBuildingAgeScore currentYear yearBuilt = ref_ageScore (currentYear - yearBuilt).
Proof.
  unfold calculateBuildingAgeScore, ref_ageScore.
  set (age := currentYear - yearBuilt).
  rewrite Z.geb_leb.
  destruct (100 <=? age); [reflexivity|].
  destruct (age <=? 10); [reflexivity|].
  unfold Math_round.
  assert (E : (inject_Z (age - 10) * (90 / 90) + 10 + (1 # 2) == inject_Z age + (1 # 2))%Q).
  { unfold Z.sub. rewrite inject_Z_plus. change (inject_Z (- (10))) with (- (10))%Q. field. }
  rewrite E, Qfloor_half. lia.
Qed.

Lemma violationScore_ref (n : Z) :
  calculateViolationScore n = ref_violationScore n.
Proof.
  unfold calculateViolationScore, ref_violationScore.
  destruct (n =? 0); [reflexivity|].
  rewrite Z.geb_leb.
  destruct (Z.leb_spec 20 n); [lia|].
  unfold Math_round.
  assert (E : (inject_Z n * 5 + (1 # 2) == inject_Z (n * 5) + (1 # 2))%Q).
  { rewrite inject_Z_mult. reflexivity. }
  rewrite E, Qfloor_half. lia.
Qed.

Lemma scoreBuilding_ref (currentYear : Z) (b : RawBuilding) :
  let s := scoreBuilding currentYear b in
  let age := currentYear - yearbuilt b in
  age_score s = ref_ageScore age /\
  violation_score s = ref_violationScore (total_violations b) /\
  risk_score s = ref_riskScore age (total_violations b) /\
  risk_level s = ref_riskLevel (ref_riskScore age (total_violations b)).
Proof.
  cbv zeta. unfold scoreBuilding, ref_riskScore; simpl.
  rewrite ageScore_ref, violationScore_ref. repeat split; reflexivity.
Qed.

(** C1.  For every row of the risk-assessment query, the scores that
    [transformRiskAssessmentData] attaches are those of the reference
    definition: age score 100 from 100 years on, 10 up to 10 years and
    [10 + (age - 10)] in between; violation score 0 for no violation and
    [min (count * 5) 100] otherwise; risk score the half of their sum; level
    High from 80, Medium from 50, Low from 20, Minimal below.  A building
    of age 5 without violations scores 5, one of age 150 with 25 violations
    scores 100. *)
Theorem risk_score_matches_reference :
  forall (currentYear : Z) (rows : list RawBuilding),
    map (fun b => (age_score b, violation_score b, risk_score b, risk_level b))
        (fst (transformRiskAssessmentData currentYear rows))
    = map (fun r =>
             let age := currentYear - yearbuilt r in
             let score := ref_riskScore age (total_violations r) in
             (ref_ageScore age, ref_violationScore (total_violations r), score,
              ref_riskLevel score))
          rows
    /\ (forall a b c d,
          (risk_score (scoreBuilding currentYear (mkRaw a b c d (currentYear - 5) 0)) == 5)%Q)
    /\ (forall a b c d,
          (risk_score (scoreBuilding currentYear (mkRaw a b c d (currentYear - 150) 25))
           == 100)%Q).
Proof.
  intros currentYear rows. split; [|split].
  - unfold transformRiskAssessmentData; simpl. rewrite map_map.
    apply map_ext. intro r.
    destruct (scoreBuilding_ref currentYear r) as (Ha & Hv & Hs & Hl).
    rewrite Ha, Hv, Hs, Hl. reflexivity.
  - intros a b c d.
    destruct (scoreBuilding_ref currentYear (mkRaw a b c d (currentYear - 5) 0))
      as (_ & _ & Hs & _).
    rewrite Hs. simpl.
    replace (currentYear - (currentYear - 5)) with 5 by lia. reflexivity.
  - intros a b c d.
    destruct (scoreBuilding_ref currentYear (mkRaw a b c d (currentYear - 150) 25))
      as (_ & _ & Hs & _).
    rewrite Hs. simpl.
    replace (currentYear - (currentYear - 150)) with 150 by lia. reflexivity.
Qed.

Lemma ref_ageScore_monotone (a1 a2 : Z) :
  a1 <= a2 -> ref_ageScore a1 <= ref_ageScore a2.
Proof.
  unfold ref_ageScore. intro H.
  destruct (Z.leb_spec 100 a1), (Z.leb_spec 100 a2),
           (Z.leb_spec a1 10), (Z.leb_spec a2 10); lia.
Qed.

Lemma ref_violationScore_monotone (n1 n2 : Z) :
  n1 <= n2 -> ref_violationScore n1 <= ref_violationScore n2.
Proof.
  unfold ref_violationScore. intro H.
  destruct (Z.eqb_spec n1 0), (Z.eqb_spec n2 0); lia.
Qed.

(** X1.  The risk score does not decrease when the violation count grows,
    nor when the building is older (built earlier), the rest of the row
    being whatever it is. *)
Theorem risk_score_monotone :
  forall (currentYear : Z) (r1 r2 : RawBuilding),
    yearbuilt r2 <= yearbuilt r1 ->
    total_violations r1 <= total_violations r2 ->
    (risk_score (scoreBuilding currentYear r1)
     <= risk_score (scoreBuilding currentYear r2))%Q.
Proof.
  intros currentYear r1 r2 Hy Hv.
  destruct (scoreBuilding_ref currentYear r1) as (_ & _ & -> & _).
  destruct (scoreBuilding_ref currentYear r2) as (_ & _ & -> & _).
  unfold ref_riskScore.
  pose proof (ref_ageScore_monotone (currentYear - yearbuilt r1)
                                    (currentYear - yearbuilt r2) ltac:(lia)) as Ha.
  pose proof (ref_violationScore_monotone _ _ Hv) as Hs.
  unfold Qle, Qdiv, Qmult, Qinv, inject_Z. cbn [Qnum Qden]. lia.
Qed.

(** The theorem at a building of 1990 with 3 violations and one of 1950
    with 12. *)
Lemma risk_score_monotone_witness :
  (risk_score (scoreBuilding 2026 (mkRaw "1" "a" "Queens" "A1" 1990 3))
   <= risk_score (scoreBuilding 2026 (mkRaw "2" "b" "Bronx" "C4" 1950 12)))%Q.
Proof.
  apply risk_score_monotone; simpl; lia.
Defined.

End DataTransformationFacts.

(** ** The analyzer on the empty row set *)

Module DataAnalysisFacts.
Import Js DataTransformation DataAnalysis.

(** C2.  On the empty row set [analyzeRiskData] returns without throwing,
    with [totalBuildings = 0] and all four risk-level counters at 0, but
    every entry of [riskLevelPercentages] is the quotient [0 / 0] passed to
    [toFixed(1)], the string NaN: the derived percentages are not zeroed. *)
Theorem analyzeRiskData_empty_divides_zero_by_zero :
  analyzeRiskData (Some []) =
    {| riskStats :=
         Some {| riskLevelCounts := [("High", 0); ("Medium", 0); ("Low", 0); ("Minimal", 0)];
                 totalBuildings := 0;
                 riskLevelPercentages :=
                   [("High", FxNaN); ("Medium", FxNaN); ("Low", FxNaN); ("Minimal", FxNaN)] |};
       commonFactors := None;
       topRiskBuildings := [];
       riskDistribution := Some [("High", 0); ("Medium", 0); ("Low", 0); ("Minimal", 0)];
       riskByBorough := None;
       riskByBuildingAge := None |}
  /\ js_div 0 0 = JNaN
  /\ render (percentOf 0 0) = "NaN".
Proof.
  repeat split; vm_compute; reflexivity.
Qed.

End DataAnalysisFacts.

(** ** Conversation state *)

Module ConversationFacts.
Import Js JsFacts Query Conversation.

Lemma addQuery_history (now : Z) (q : StructuredQuery) (r : Response)
      (c : ConversationContext) :
  List.length (previousQueries (addQuery now q r c)) = S (List.length (previousQueries c))
  /\ messageCount (addQuery now q r c) = messageCount c + 1.
Proof.
  unfold addQuery; simpl. rewrite length_app; simpl. split; [lia | reflexivity].
Qed.

Lemma applyOp_invariant (c : ConversationContext) (op : SessionOp) :
  messageCount c = Z.of_nat (List.length (previousQueries c)) ->
  messageCount (applyOp c op) = Z.of_nat (List.length (previousQueries (applyOp c op))).
Proof.
  intro H. destruct op; unfold applyOp; try exact H.
  destruct (addQuery_history now structuredQuery response c) as [Hl Hm].
  rewrite Hl, Hm, H. lia.
Qed.

Lemma run_invariant (ops : list SessionOp) :
  forall c : ConversationContext,
    messageCount c = Z.of_nat (List.length (previousQueries c)) ->
    messageCount (run ops c) = Z.of_nat (List.length (previousQueries (run ops c))).
Proof.
  induction ops as [|op ops IH]; intros c H; simpl.
  - exact H.
  - apply IH, applyOp_invariant, H.
Qed.

(** C10.  [messageCount] equals the length of [previousQueries] in every
    state of a session: it is 0 on construction, each [addQuery] appends
    exactly one history entry and adds exactly one to the counter, and no
    other operation writes to the session. *)
Theorem messageCount_is_history_length :
  forall (id : string) (created : Z) (ops : list SessionOp),
    let c := run ops (newContext id created) in
    messageCount (newContext id created) = 0
    /\ previousQueries (newContext id created) = []
    /\ messageCount c = Z.of_nat (List.length (previousQueries c))
    /\ (forall now q r,
          messageCount (addQuery now q r c) = messageCount c + 1
          /\ exists entry,
               previousQueries (addQuery now q r c) = (previousQueries c ++ [entry])%list)
    /\ (forall op,
          messageCount (applyOp c op)
          = Z.of_nat (List.length (previousQueries (applyOp c op)))).
Proof.
  intros id created ops c.
  assert (Hc : messageCount c = Z.of_nat (List.length (previousQueries c))).
  { apply run_invariant. reflexivity. }
  repeat split; try reflexivity; try exact Hc.
  - eexists. unfold addQuery; simpl. reflexivity.
  - intro op. apply applyOp_invariant, Hc.
Qed.

(** C3.  Six conversations of one user, opened one second apart, then one
    more request of that user one second later.  The cleanup that the
    request runs sorts the six by age, oldest first, and deletes what
    [slice(5)] keeps of that order: the youngest one, [c6].  The five oldest
    stay: a request naming [c1] lists five conversations, the five oldest; a
    request without a conversation id adds a seventh, so the user lists six;
    and a request naming [c6], the conversation last opened, no longer finds
    it and is answered with a new one. *)
Theorem cleanup_drops_the_newest_conversation :
  map s_conversationId (getUserConversations "u" Samples.sixConversations)
  = ["c1"; "c2"; "c3"; "c4"; "c5"; "c6"]
  /\ map s_conversationId
         (getUserConversations "u"
            (cleanupOldConversations 7000 "u" Samples.sixConversations))
     = ["c1"; "c2"; "c3"; "c4"; "c5"]
  /\ map s_conversationId
         (getUserConversations "u"
            (fst (getOrCreateConversation 7000 "c7" "u" None Samples.sixConversations)))
     = ["c1"; "c2"; "c3"; "c4"; "c5"; "c7"]
  /\ map s_conversationId
         (getUserConversations "u"
            (fst (getOrCreateConversation 7000 "c7" "u" (Some "c1")
                    Samples.sixConversations)))
     = ["c1"; "c2"; "c3"; "c4"; "c5"]
  /\ conversationId
       (snd (getOrCreateConversation 7000 "c7" "u" (Some "c6") Samples.sixConversations))
     = "c7".
Proof.
  repeat split; vm_compute; reflexivity.
Qed.

Lemma in_map_delete (k : string) (m : Conversations) (e : string * ConversationContext) :
  In e (map_delete k m) <-> In e m /\ fst e <> k.
Proof.
  unfold map_delete. rewrite filter_In.
  destruct (String.eqb_spec (fst e) k); simpl; intuition congruence.
Qed.

Lemma in_fold_delete (expired : string * Z -> bool) (l : list (string * Z)) :
  forall (m : Conversations) (e : string * ConversationContext),
    In e (fold_left (fun acc ka => if expired ka then map_delete (fst ka) acc else acc)
                    l m)
    <-> In e m /\ forall ka, In ka l -> expired ka = true -> fst e <> fst ka.
Proof.
  induction l as [|ka l IH]; intros m e; simpl.
  - intuition.
  - rewrite IH. destruct (expired ka) eqn:E.
    + rewrite in_map_delete. split.
      * intros [[Hin Hne] H]. split; [exact Hin|].
        intros ka' [<- | Hin'] Hexp; [exact Hne | apply H; assumption].
      * intros [Hin H]. repeat split; [exact Hin | apply H; auto | ].
        intros ka' Hin' Hexp. apply H; auto.
    + split.
      * intros [Hin H]. split; [exact Hin|].
        intros ka' [<- | Hin'] Hexp; [congruence | apply H; assumption].
      * intros [Hin H]. split; [exact Hin|]. intros ka' Hin' Hexp. apply H; auto.
Qed.

Lemma nodup_keys_filter (p : string * ConversationContext -> bool) (m : Conversations) :
  NoDup (map fst m) -> NoDup (map fst (filter p m)).
Proof.
  induction m as [|e m IH]; simpl; intro H; [constructor|].
  inversion H as [|? ? Hnot Hm]; subst.
  destruct (p e); simpl; [|apply IH, Hm].
  constructor; [|apply IH, Hm].
  intro Hin. apply Hnot. apply in_map_iff in Hin. destruct Hin as (e' & E & Hin).
  apply filter_In in Hin. apply in_map_iff. exists e'. tauto.
Qed.

Lemma nodup_keys_fold (expired : string * Z -> bool) (l : list (string * Z)) :
  forall m : Conversations,
    NoDup (map fst m) ->
    NoDup (map fst (fold_left
                      (fun acc ka => if expired ka then map_delete (fst ka) acc else acc)
                      l m)).
Proof.
  induction l as [|ka l IH]; intros m H; simpl; [exact H|].
  apply IH. destruct (expired ka); [apply nodup_keys_filter, H | exact H].
Qed.

(** What [cleanupOldConversations] leaves. *)
Lemma cleanup_spec (now : Z) (userId : string) (m : Conversations)
      (e : string * ConversationContext) :
  In e (cleanupOldConversations now userId m) ->
  In e m
  /\ (startsWith (fst e) (userId ++ ":") = true ->
      now - startTime (snd e) <= maxConversationAge
      /\ ((maxConversationsPerUser < List.length (ofUser userId m))%nat ->
          In (fst e)
             (map fst (firstn maxConversationsPerUser
                              (sort_by (fun a b => snd b - snd a <? 0)
                                       (map (fun e => (fst e, now - startTime (snd e)))
                                            (ofUser userId m))))))).
Proof.
  unfold cleanupOldConversations.
  set (userConversations := map (fun e => (fst e, now - startTime (snd e)))
                                (ofUser userId m)).
  set (m1 := fold_left _ userConversations m).
  assert (H1 : In e m1 ->
               In e m /\ (startsWith (fst e) (userId ++ ":") = true ->
                          now - startTime (snd e) <= maxConversationAge)).
  { unfold m1. rewrite in_fold_delete. intros [Hin H]. split; [exact Hin|].
    intro Hu.
    destruct (Z.ltb_spec maxConversationAge (now - startTime (snd e))) as [Hlt|Hle];
      [|exact Hle].
    exfalso. apply (H (fst e, now - startTime (snd e))).
    - unfold userConversations. apply in_map_iff. exists e. split; [reflexivity|].
      unfold ofUser. apply filter_In. split; assumption.
    - simpl. apply Z.ltb_lt. exact Hlt.
    - reflexivity. }
  assert (Hlen : List.length userConversations = List.length (ofUser userId m))
    by (unfold userConversations; apply length_map).
  rewrite Hlen.
  destruct (Nat.ltb_spec maxConversationsPerUser (List.length (ofUser userId m)))
    as [Hmany | Hfew].
  - intro Hin.
    apply (in_fold_delete (fun _ => true)) in Hin. destruct Hin as [Hin Hkept].
    destruct (H1 Hin) as [Hm Hage]. split; [exact Hm|].
    intro Hu. split; [apply Hage, Hu|]. intros _.
    set (sorted := sort_by (fun a b => snd b - snd a <? 0) userConversations) in *.
    assert (Hs : In (fst e, now - startTime (snd e)) sorted).
    { unfold sorted. apply in_sort_by. unfold userConversations.
      apply in_map_iff. exists e. split; [reflexivity|].
      unfold ofUser. apply filter_In. split; assumption. }
    rewrite <- (firstn_skipn maxConversationsPerUser sorted) in Hs.
    apply in_app_or in Hs. destruct Hs as [Hs | Hs].
    + apply in_map_iff. exists (fst e, now - startTime (snd e)). split; [reflexivity|exact Hs].
    + exfalso. apply (Hkept _ Hs eq_refl). reflexivity.
  - intro Hin. destruct (H1 Hin) as [Hm Hage]. split; [exact Hm|].
    intro Hu. split; [apply Hage, Hu | lia].
Qed.

Lemma nodup_keys_cleanup (now : Z) (userId : string) (m : Conversations) :
  NoDup (map fst m) -> NoDup (map fst (cleanupOldConversations now userId m)).
Proof.
  intro H. unfold cleanupOldConversations.
  destruct (Nat.ltb _ _).
  - apply (nodup_keys_fold (fun _ => true)), nodup_keys_fold, H.
  - apply nodup_keys_fold, H.
Qed.

Lemma length_fold_delete (expired : string * Z -> bool) (p : string * ConversationContext -> bool)
      (l : list (string * Z)) :
  forall m : Conversations,
    (List.length (filter p (fold_left
                      (fun acc ka => if expired ka then map_delete (fst ka) acc else acc)
                      l m))
     <= List.length (filter p m))%nat.
Proof.
  induction l as [|ka l IH]; intro m; simpl; [lia|].
  eapply Nat.le_trans; [apply IH|].
  destruct (expired ka); [|lia].
  unfold map_delete.
  assert (E : filter p (filter (fun e => negb (String.eqb (fst e) (fst ka))) m)
              = filter (fun e => negb (String.eqb (fst e) (fst ka))) (filter p m)).
  { induction m as [|e m IHm]; simpl; [reflexivity|].
    destruct (negb (String.eqb (fst e) (fst ka))) eqn:E1, (p e) eqn:E2; simpl;
      rewrite ?E1, ?E2, IHm; reflexivity. }
  rewrite E. apply filter_length_le.
Qed.

(** X2.  Eviction, as [cleanupOldConversations] enforces it on a store
    with distinct keys: it only deletes; none of the user's conversations
    that it leaves was created more than [maxConversationAge] before the
    call; and it leaves at most [maxConversationsPerUser] of them. *)
Theorem cleanup_enforces_ttl_and_cap :
  forall (now : Z) (userId : string) (m : Conversations),
    NoDup (map fst m) ->
    let m' := cleanupOldConversations now userId m in
    (forall e, In e m' -> In e m)
    /\ (forall e, In e (ofUser userId m') ->
                  now - startTime (snd e) <= maxConversationAge)
    /\ (List.length (ofUser userId m') <= maxConversationsPerUser)%nat.
Proof.
  intros now userId m Hnd m'. split; [|split].
  - intros e Hin. apply (cleanup_spec now userId m e Hin).
  - intros e Hin. unfold ofUser in Hin. apply filter_In in Hin. destruct Hin as [Hin Hu].
    apply (cleanup_spec now userId m e Hin). exact Hu.
  - destruct (Nat.ltb_spec maxConversationsPerUser (List.length (ofUser userId m)))
      as [Hmany | Hfew].
    + set (kept := firstn maxConversationsPerUser
                          (sort_by (fun a b => snd b - snd a <? 0)
                                   (map (fun e => (fst e, now - startTime (snd e)))
                                        (ofUser userId m)))).
      assert (Hincl : incl (map fst (ofUser userId m')) (map fst kept)).
      { intros k Hk. apply in_map_iff in Hk. destruct Hk as (e & <- & Hin).
        unfold ofUser in Hin. apply filter_In in Hin. destruct Hin as [Hin Hu].
        apply (cleanup_spec now userId m e Hin); assumption. }
      assert (Hnd' : NoDup (map fst (ofUser userId m'))).
      { unfold ofUser. apply nodup_keys_filter, nodup_keys_cleanup, Hnd. }
      pose proof (NoDup_incl_length Hnd' Hincl) as Hlen.
      rewrite !length_map in Hlen.
      eapply Nat.le_trans; [exact Hlen|]. unfold kept. apply firstn_le_length.
    + eapply Nat.le_trans; [|exact Hfew].
      unfold m', cleanupOldConversations.
      rewrite length_map.
      destruct (Nat.ltb_spec maxConversationsPerUser (List.length (ofUser userId m)));
        [lia|].
      unfold ofUser. apply length_fold_delete.
Qed.

Lemma sixConversations_keys : NoDup (map fst Samples.sixConversations).
Proof.
  vm_compute. repeat constructor; simpl; intuition discriminate.
Qed.

(** The theorem at the store of six conversations. *)
Lemma cleanup_enforces_ttl_and_cap_witness :
  (List.length (ofUser "u" (cleanupOldConversations 7000 "u" Samples.sixConversations))
   <= maxConversationsPerUser)%nat.
Proof.
  apply (cleanup_enforces_ttl_and_cap 7000 "u" Samples.sixConversations
                                      sixConversations_keys).
Defined.

End ConversationFacts.

(** ** The query interpreter *)

Module NlpFacts.
Import Js Query Conversation Nlp.

(** C7.  A location that names Staten Island is not normalised to the
    canonical name: only the first letter of the matched list entry is put in
    upper case, which gives a string outside the five canonical names, even
    when the input was the canonical name itself. *)
Theorem normalizeLocation_staten_island :
  normalizeLocation "Staten Island" = "Staten island"
  /\ normalizeLocation "staten island, ny" = "Staten island"
  /\ ~ In (normalizeLocation "Staten Island") canonicalBoroughs.
Proof.
  split; [reflexivity | split; [reflexivity |]].
  vm_compute. intros H.
  repeat (destruct H as [H | H]; [discriminate H |]). exact H.
Qed.

(** *** Follow-up resolution *)

Lemma entities_ext (e e' : Entities) :
  locations e' = locations e -> buildingTypes e' = buildingTypes e ->
  timePeriods e' = timePeriods e -> otherEntities e' = otherEntities e -> e' = e.
Proof.
  destruct e, e'; simpl; intros; subst; reflexivity.
Qed.

Lemma query_ext (q q' : StructuredQuery) :
  queryType q' = queryType q -> entities q' = entities q -> filters q' = filters q ->
  aggregations q' = aggregations q -> sortOrder q' = sortOrder q -> limit q' = limit q ->
  originalQuery q' = originalQuery q -> q' = q.
Proof.
  destruct q, q'; simpl; intros; subst; reflexivity.
Qed.

Lemma truthy_populated (t : string) : t <> EmptyString -> truthy_opt (Some t) = true.
Proof.
  intro H. unfold truthy_opt, truthy.
  destruct (String.eqb_spec t ""); [contradiction | reflexivity].
Qed.

Lemma missing_absent {A : Type} (l : option (list A)) : missing l = false -> absent l = false.
Proof.
  destruct l as [[|]|]; simpl; congruence.
Qed.

(** The four tests of [enhance], in source order. *)
Ltac enhance_cases q prev :=
  unfold enhance;
  destruct (negb (truthy_opt (queryType q)) && truthy_opt (h_queryType prev)); simpl;
  destruct (missing (locations (entities q))
            && negb (absent (locations (h_entities prev)))); simpl;
  destruct (missing (buildingTypes (entities q))
            && negb (absent (buildingTypes (h_entities prev)))); simpl;
  destruct (missing (timePeriods (entities q))
            && negb (absent (timePeriods (h_entities prev)))); simpl.

Lemma enhance_queryType (q : StructuredQuery) (prev : HistoryEntry) :
  queryType (enhance q prev)
  = if negb (truthy_opt (queryType q)) && truthy_opt (h_queryType prev)
    then h_queryType prev else queryType q.
Proof.
  enhance_cases q prev; reflexivity.
Qed.

Lemma enhance_locations (q : StructuredQuery) (prev : HistoryEntry) :
  locations (entities (enhance q prev))
  = if missing (locations (entities q)) && negb (absent (locations (h_entities prev)))
    then locations (h_entities prev) else locations (entities q).
Proof.
  enhance_cases q prev; reflexivity.
Qed.

Lemma enhance_buildingTypes (q : StructuredQuery) (prev : HistoryEntry) :
  buildingTypes (entities (enhance q prev))
  = if missing (buildingTypes (entities q))
       && negb (absent (buildingTypes (h_entities prev)))
    then buildingTypes (h_entities prev) else buildingTypes (entities q).
Proof.
  enhance_cases q prev; reflexivity.
Qed.

Lemma enhance_timePeriods (q : StructuredQuery) (prev : HistoryEntry) :
  timePeriods (entities (enhance q prev))
  = if missing (timePeriods (entities q))
       && negb (absent (timePeriods (h_entities prev)))
    then timePeriods (h_entities prev) else timePeriods (entities q).
Proof.
  enhance_cases q prev; reflexivity.
Qed.

Lemma enhance_rest (q : StructuredQuery) (prev : HistoryEntry) :
  otherEntities (entities (enhance q prev)) = otherEntities (entities q)
  /\ filters (enhance q prev) = filters q
  /\ aggregations (enhance q prev) = aggregations q
  /\ sortOrder (enhance q prev) = sortOrder q
  /\ limit (enhance q prev) = limit q
  /\ originalQuery (enhance q prev) = originalQuery q.
Proof.
  enhance_cases q prev; repeat split; reflexivity.
Qed.

Lemma keepsPopulated_refl (q : StructuredQuery) : keepsPopulated q q.
Proof.
  unfold keepsPopulated. repeat split; auto.
Qed.

Lemma enhance_keeps (q : StructuredQuery) (prev : HistoryEntry) :
  keepsPopulated q (enhance q prev).
Proof.
  destruct (enhance_rest q prev) as (Ho & Hf & Ha & Hs & Hl & Hq).
  unfold keepsPopulated. repeat split; try assumption.
  - intros t Ht Hne. rewrite enhance_queryType, Ht, truthy_populated by exact Hne.
    reflexivity.
  - intro H. rewrite enhance_locations, H. reflexivity.
  - intro H. rewrite enhance_buildingTypes, H. reflexivity.
  - intro H. rewrite enhance_timePeriods, H. reflexivity.
Qed.

Lemma enhance_from_previous (q : StructuredQuery) (prev : HistoryEntry) :
  fromPreviousTurn prev q (enhance q prev).
Proof.
  unfold fromPreviousTurn.
  rewrite enhance_queryType, enhance_locations, enhance_buildingTypes, enhance_timePeriods.
  repeat split;
    match goal with
    | |- context [if ?b then _ else _] => destruct b; auto
    end.
Qed.

Lemma enhance_populated (q : StructuredQuery) (prev : HistoryEntry) :
  fullyPopulated q -> enhance q prev = q.
Proof.
  intros ((t & Ht & Hne) & Hl & Hb & Hp).
  destruct (enhance_rest q prev) as (Ho & Hf & Ha & Hs & Hli & Hq).
  apply query_ext; try assumption.
  - rewrite enhance_queryType, Ht, truthy_populated by exact Hne. reflexivity.
  - apply entities_ext; try assumption.
    + rewrite enhance_locations, Hl. reflexivity.
    + rewrite enhance_buildingTypes, Hb. reflexivity.
    + rewrite enhance_timePeriods, Hp. reflexivity.
Qed.

(** The same three facts for [incorporateConversationContext]. *)
Lemma incorporate_cases (q : StructuredQuery) (context : option ConversationContext) :
  incorporateConversationContext q context = q
  \/ exists ctx prev, context = Some ctx /\ getLastQuery ctx = Some prev.
Proof.
  destruct context as [ctx|]; [|left; reflexivity].
  unfold incorporateConversationContext.
  destruct (getLastQuery ctx) as [prev|] eqn:E; [|left; reflexivity].
  right. exists ctx, prev. split; [reflexivity | exact E].
Qed.

(** The three tests of [incorporateConversationContext], in source order. *)
Ltac incorporate_tests q prev H :=
  unfold incorporateConversationContext; rewrite H; cbv zeta;
  cbn [queryType set_entities];
  destruct (absent (locations (entities q))
            && negb (absent (locations (h_entities prev)))); simpl;
  destruct (absent (buildingTypes (entities q))
            && negb (absent (buildingTypes (h_entities prev)))); simpl;
  destruct (queryType q) eqn:?; simpl;
  try (destruct (truthy_opt (h_queryType prev)); simpl).

Lemma incorporate_queryType (q : StructuredQuery) (ctx : ConversationContext)
      (prev : HistoryEntry) :
  getLastQuery ctx = Some prev ->
  queryType (incorporateConversationContext q (Some ctx))
  = match queryType q with
    | None => if truthy_opt (h_queryType prev) then h_queryType prev else None
    | Some t => Some t
    end.
Proof.
  intro H. incorporate_tests q prev H; congruence.
Qed.

Lemma incorporate_entities (q : StructuredQuery) (ctx : ConversationContext)
      (prev : HistoryEntry) :
  getLastQuery ctx = Some prev ->
  let e := entities (incorporateConversationContext q (Some ctx)) in
  locations e
  = (if absent (locations (entities q)) && negb (absent (locations (h_entities prev)))
     then locations (h_entities prev) else locations (entities q))
  /\ buildingTypes e
     = (if absent (buildingTypes (entities q))
           && negb (absent (buildingTypes (h_entities prev)))
        then buildingTypes (h_entities prev) else buildingTypes (entities q))
  /\ timePeriods e = timePeriods (entities q)
  /\ otherEntities e = otherEntities (entities q).
Proof.
  intro H. incorporate_tests q prev H; repeat split; reflexivity.
Qed.

Lemma incorporate_rest (q : StructuredQuery) (context : option ConversationContext) :
  let q' := incorporateConversationContext q context in
  filters q' = filters q /\ aggregations q' = aggregations q
  /\ sortOrder q' = sortOrder q /\ limit q' = limit q
  /\ originalQuery q' = originalQuery q.
Proof.
  destruct (incorporate_cases q context) as [E | (ctx & prev & -> & H)].
  - cbv zeta. rewrite E. repeat split; reflexivity.
  - incorporate_tests q prev H; repeat split; reflexivity.
Qed.

Lemma incorporate_keeps (q : StructuredQuery) (context : option ConversationContext) :
  keepsPopulated q (incorporateConversationContext q context).
Proof.
  destruct (incorporate_cases q context) as [E | (ctx & prev & -> & Hlast)].
  - rewrite E. apply keepsPopulated_refl.
  - destruct (incorporate_entities q ctx prev Hlast) as (Hl & Hb & Hp & Ho).
    destruct (incorporate_rest q (Some ctx)) as (Hf & Ha & Hs & Hli & Hq).
    unfold keepsPopulated. repeat split; try assumption.
    + intros t Ht _. rewrite (incorporate_queryType q ctx prev Hlast), Ht. reflexivity.
    + intro H. rewrite Hl, (missing_absent _ H). reflexivity.
    + intro H. rewrite Hb, (missing_absent _ H). reflexivity.
    + intros _. exact Hp.
Qed.

Lemma incorporate_from_previous (q : StructuredQuery) (ctx : ConversationContext)
      (prev : HistoryEntry) :
  getLastQuery ctx = Some prev ->
  fromPreviousTurn prev q (incorporateConversationContext q (Some ctx)).
Proof.
  intro Hlast.
  destruct (incorporate_entities q ctx prev Hlast) as (Hl & Hb & Hp & Ho).
  unfold fromPreviousTurn.
  rewrite (incorporate_queryType q ctx prev Hlast), Hl, Hb, Hp.
  split; [|split; [|split]].
  - destruct (queryType q); [left; reflexivity|].
    destruct (truthy_opt (h_queryType prev)); [right | left]; reflexivity.
  - destruct (absent (locations (entities q))
              && negb (absent (locations (h_entities prev)))); auto.
  - destruct (absent (buildingTypes (entities q))
              && negb (absent (buildingTypes (h_entities prev)))); auto.
  - left. reflexivity.
Qed.

Lemma incorporate_populated (q : StructuredQuery) (context : option ConversationContext) :
  fullyPopulated q -> incorporateConversationContext q context = q.
Proof.
  intros ((t & Ht & Hne) & Hl & Hb & Hp).
  destruct (incorporate_cases q context) as [E | (ctx & prev & -> & Hlast)]; [exact E|].
  destruct (incorporate_entities q ctx prev Hlast) as (Hl' & Hb' & Hp' & Ho').
  destruct (incorporate_rest q (Some ctx)) as (Hf & Ha & Hs & Hli & Hq).
  apply query_ext; try assumption.
  - rewrite (incorporate_queryType q ctx prev Hlast), Ht. reflexivity.
  - apply entities_ext; try assumption.
    + rewrite Hl', (missing_absent _ Hl). reflexivity.
    + rewrite Hb', (missing_absent _ Hb). reflexivity.
Qed.

(** [processFollowUpQuery] returns the query itself or its enhancement by the
    last turn, or throws for want of the text of the query. *)
Lemma processFollowUpQuery_outcome (q : StructuredQuery) (session : ConversationContext) :
  match processFollowUpQuery q session with
  | Ok q' =>
      q' = q \/ exists prev, getLastQuery session = Some prev /\ q' = enhance q prev
  | Throw _ =>
      originalQuery q = None
      /\ exists prev, getLastQuery session = Some prev
                      /\ (truthy_opt (queryType q) = true
                          \/ truthy_opt (h_queryType prev) = false)
  end.
Proof.
  unfold processFollowUpQuery, isFollowUpQuery.
  destruct (getLastQuery session) as [prev|] eqn:E; [|left; reflexivity].
  destruct (truthy_opt (queryType q)) eqn:Tq; cbn [negb andb].
  - destruct (originalQuery q) as [text|]; cbn [bind].
    + destruct (mentionsReferent text); cbn [negb].
      * right. exists prev. split; reflexivity.
      * destruct (negb (absent (locations (h_entities prev)))
                  && missing (locations (entities q))); cbn [negb].
        -- right. exists prev. split; reflexivity.
        -- left. reflexivity.
    + split; [reflexivity|]. exists prev. split; [reflexivity | left; first [reflexivity | assumption]].
  - destruct (truthy_opt (h_queryType prev)) eqn:Tp; cbn [bind negb].
    + right. exists prev. split; reflexivity.
    + destruct (originalQuery q) as [text|]; cbn [bind].
      * destruct (mentionsReferent text); cbn [negb].
        -- right. exists prev. split; reflexivity.
        -- destruct (negb (absent (locations (h_entities prev)))
                     && missing (locations (entities q))); cbn [negb].
           ++ right. exists prev. split; reflexivity.
           ++ left. reflexivity.
      * split; [reflexivity|]. exists prev. split; [reflexivity | right; first [reflexivity | assumption]].
Qed.

(** A populated intent without text, in a session with history. *)
Lemma processFollowUpQuery_throws (q : StructuredQuery) (session : ConversationContext)
      (prev : HistoryEntry) :
  originalQuery q = None ->
  getLastQuery session = Some prev ->
  truthy_opt (queryType q) = true ->
  processFollowUpQuery q session
  = Throw "TypeError: Cannot read properties of undefined (reading 'match')".
Proof.
  intros Ho Hl Ht. unfold processFollowUpQuery, isFollowUpQuery.
  rewrite Hl, Ht, Ho. reflexivity.
Qed.

Lemma validate_originalQuery (currentYear : Z) (q q' : StructuredQuery) :
  validateAndNormalizeQuery currentYear q = Ok q' ->
  originalQuery q' = originalQuery q.
Proof.
  unfold validateAndNormalizeQuery.
  destruct (timePeriods _) as [periods|].
  - destruct (mapResult _ periods); cbn [bind]; intro H; [|discriminate H].
    injection H as <-. reflexivity.
  - intro H. injection H as <-. reflexivity.
Qed.

(** [processQuery] never puts the question of the user into [originalQuery]:
    the field is what the reply of the model carried under that key. *)
Lemma processQuery_originalQuery (JSON_parse : string -> option ParsedResponse)
      (currentYear : Z) (reply json question : string) (parsed : ParsedResponse)
      (context : option ConversationContext) (q : StructuredQuery) :
  jsonMatch reply = Some json ->
  JSON_parse json = Some parsed ->
  processQuery JSON_parse currentYear (Completed [Some reply]) question context = Ok q ->
  originalQuery q = p_originalQuery parsed.
Proof.
  intros Hj Hp. unfold processQuery. cbn [firstText bind].
  unfold parseModelResponse, parseModelResponse_try. rewrite Hj, Hp. cbn [try_catch].
  match goal with
  | |- context [validateAndNormalizeQuery currentYear ?s] =>
      destruct (validateAndNormalizeQuery currentYear s) as [v|e] eqn:V
  end; cbn [bind]; intro H; [|discriminate H].
  injection H as <-.
  destruct (incorporate_rest v context) as (_ & _ & _ & _ & Ho).
  rewrite Ho. apply validate_originalQuery in V. exact V.
Qed.

(** C5.  Follow-up resolution only copies from the previous turn into the
    new query and never overwrites a populated field, wherever it returns a
    query; but [processFollowUpQuery] does not always return one.
    [isFollowUpQuery] reads [originalQuery.match], and [processQuery] never
    puts the question into [originalQuery]: the field is what the reply of
    the model carried under that key.  So for a query with an intent and
    without that key, in a session with history, [processFollowUpQuery]
    throws a TypeError instead of leaving the query as it is, where
    [incorporateConversationContext] returns it unchanged.  In this order:
    the fully populated query of the samples; every query that
    [processQuery] returns from a reply with an intent and no
    [originalQuery]; what holds of every outcome of [processFollowUpQuery];
    and of [incorporateConversationContext], which always returns. *)
Theorem follow_up_throws_without_the_question :
  (fullyPopulated Samples.untitledQuery
   /\ (forall (JSON_parse : string -> option ParsedResponse) (reply json : string),
          jsonMatch reply = Some json ->
          JSON_parse json = Some Samples.queensReply ->
          processQuery JSON_parse 2026 (Completed [Some reply])
                       "What about those in Queens?" (Some Samples.brooklynSession)
          = Ok Samples.untitledQuery)
   /\ incorporateConversationContext Samples.untitledQuery (Some Samples.brooklynSession)
      = Samples.untitledQuery
   /\ processFollowUpQuery Samples.untitledQuery Samples.brooklynSession
      = Throw "TypeError: Cannot read properties of undefined (reading 'match')")
  /\ (forall (JSON_parse : string -> option ParsedResponse) (currentYear : Z)
             (reply json question : string) (parsed : ParsedResponse)
             (session : ConversationContext) (prev : HistoryEntry) (q : StructuredQuery),
         jsonMatch reply = Some json ->
         JSON_parse json = Some parsed ->
         p_originalQuery parsed = None ->
         truthy_opt (p_queryType parsed) = true ->
         getLastQuery session = Some prev ->
         processQuery JSON_parse currentYear (Completed [Some reply]) question (Some session)
         = Ok q ->
         processFollowUpQuery q session
         = Throw "TypeError: Cannot read properties of undefined (reading 'match')")
  /\ (forall (q : StructuredQuery) (session : ConversationContext),
         match processFollowUpQuery q session with
         | Ok q' =>
             keepsPopulated q q'
             /\ (q' = q \/ exists prev, getLastQuery session = Some prev
                                        /\ fromPreviousTurn prev q q')
             /\ (fullyPopulated q -> q' = q)
         | Throw _ =>
             originalQuery q = None
             /\ exists prev, getLastQuery session = Some prev
                             /\ (truthy_opt (queryType q) = true
                                 \/ truthy_opt (h_queryType prev) = false)
         end)
  /\ (forall (q : StructuredQuery) (context : option ConversationContext),
         let q' := incorporateConversationContext q context in
         keepsPopulated q q'
         /\ (q' = q \/ exists ctx prev, context = Some ctx /\ getLastQuery ctx = Some prev
                                        /\ fromPreviousTurn prev q q')
         /\ (fullyPopulated q -> q' = q)).
Proof.
  split; [|split; [|split]].
  - split; [|split; [|split; reflexivity]].
    + split; [|repeat split].
      exists "violation_search". split; [reflexivity | discriminate].
    + intros JSON_parse reply json Hj Hp. unfold processQuery. cbn [firstText bind].
      unfold parseModelResponse, parseModelResponse_try. rewrite Hj, Hp. reflexivity.
  - intros JSON_parse currentYear reply json question parsed session prev q
           Hj Hp Ho Ht Hl Hq.
    pose proof (processQuery_originalQuery _ _ _ _ _ _ _ _ Hj Hp Hq) as Eo.
    apply (processFollowUpQuery_throws q session prev); [congruence | exact Hl |].
    revert Hq. unfold processQuery. cbn [firstText bind].
    unfold parseModelResponse, parseModelResponse_try. rewrite Hj, Hp. cbn [try_catch].
    match goal with
    | |- context [validateAndNormalizeQuery currentYear ?s] =>
        destruct (validateAndNormalizeQuery currentYear s) as [v|e] eqn:V
    end; cbn [bind]; intro H; [|discriminate H].
    assert (Eq : q = incorporateConversationContext v (Some session)) by congruence.
    clear H. subst q.
    assert (Tv : truthy_opt (queryType v) = true).
    { revert V. unfold validateAndNormalizeQuery. cbn [entities queryType].
      match goal with
      | |- context [timePeriods ?e] => destruct (timePeriods e) as [periods|]
      end.
      - destruct (mapResult _ periods); cbn [bind]; intro H; [|discriminate H].
        injection H as <-. cbn [set_entities queryType].
        unfold or_null. rewrite Ht. exact Ht.
      - intro H. injection H as <-. cbn [set_entities queryType].
        unfold or_null. rewrite Ht. exact Ht. }
    destruct (queryType v) as [t|] eqn:Et; [|discriminate Tv].
    destruct (incorporate_keeps v (Some session)) as (Hk & _).
    assert (Ne : t <> EmptyString).
    { intro E. subst t. discriminate Tv. }
    rewrite (Hk t Et Ne). exact Tv.
  - intros q session.
    pose proof (processFollowUpQuery_outcome q session) as H.
    destruct (processFollowUpQuery q session) as [q'|e]; [|exact H].
    destruct H as [-> | (prev & Hl & ->)].
    + split; [apply keepsPopulated_refl | split; [left; reflexivity | reflexivity]].
    + split; [apply enhance_keeps | split].
      * right. exists prev. split; [exact Hl | apply enhance_from_previous].
      * apply enhance_populated.
  - intros q context q'. subst q'. split; [apply incorporate_keeps | split].
    + destruct (incorporate_cases q context) as [E | (ctx & prev & -> & Hlast)].
      * left. exact E.
      * right. exists ctx, prev. repeat split; try assumption.
        all: apply (incorporate_from_previous q ctx prev Hlast).
    + apply incorporate_populated.
Qed.

(** *** Replies without a structured payload *)

Lemma parseModelResponse_fallback (JSON_parse : string -> option ParsedResponse)
      (reply : option string) (error : string) :
  parseModelResponse_try JSON_parse reply = Throw error ->
  parseModelResponse JSON_parse reply = minimalStructure reply.
Proof.
  intro H. unfold parseModelResponse. rewrite H. reflexivity.
Qed.

Lemma validate_minimalStructure (currentYear : Z) (reply : option string) :
  validateAndNormalizeQuery currentYear (minimalStructure reply)
  = Ok (minimalStructure reply).
Proof.
  reflexivity.
Qed.

(** C4, as amended.  When no structured payload can be extracted from the
    reply (it has no text, no braces, or [JSON.parse] rejects what stands
    between them), the interpreter does not raise: [parseModelResponse]
    yields the minimal structure, with unknown intent, no entity, no filter,
    no aggregation and limit 100, and [processQuery] returns it after
    follow-up resolution.  Without a session, or with a session that has no
    history, intent stays unknown and the entities stay empty; with a
    previous turn, intent, locations and building types are the previous
    turn's. *)
Theorem unparsable_reply_fails_soft :
  forall (JSON_parse : string -> option ParsedResponse) (currentYear : Z)
         (reply : option string) (choices : list (option string)) (query : string)
         (context : option ConversationContext) (error : string),
    parseModelResponse_try JSON_parse reply = Throw error ->
    let result :=
      processQuery JSON_parse currentYear (Completed (reply :: choices)) query context in
    queryType (parseModelResponse JSON_parse reply) = None
    /\ entities (parseModelResponse JSON_parse reply) = noEntities
    /\ filters (parseModelResponse JSON_parse reply) = []
    /\ aggregations (parseModelResponse JSON_parse reply) = []
    /\ limit (parseModelResponse JSON_parse reply) = 100
    /\ result = Ok (incorporateConversationContext (minimalStructure reply) context)
    /\ ((context = None \/ exists ctx, context = Some ctx /\ previousQueries ctx = []) ->
        exists q, result = Ok q /\ queryType q = None /\ entities q = noEntities)
    /\ (forall ctx prev,
           context = Some ctx -> getLastQuery ctx = Some prev ->
           exists q, result = Ok q
                     /\ queryType q = or_null (h_queryType prev)
                     /\ locations (entities q) = locations (h_entities prev)
                     /\ buildingTypes (entities q) = buildingTypes (h_entities prev)
                     /\ timePeriods (entities q) = None).
Proof.
  intros JSON_parse currentYear reply choices query context error H result.
  assert (R : result
              = Ok (incorporateConversationContext (minimalStructure reply) context)).
  { unfold result, processQuery. simpl.
    rewrite (parseModelResponse_fallback _ _ _ H). reflexivity. }
  rewrite (parseModelResponse_fallback _ _ _ H).
  repeat (split; [reflexivity|]).
  split; [exact R | split].
  - intros [-> | (ctx & -> & Hnil)].
    + exists (minimalStructure reply). rewrite R. repeat split.
    + exists (minimalStructure reply). rewrite R.
      unfold incorporateConversationContext, getLastQuery. rewrite Hnil.
      repeat split.
  - intros ctx prev -> Hlast.
    eexists. split; [exact R|].
    destruct (incorporate_entities (minimalStructure reply) ctx prev Hlast)
      as (Hl & Hb & Hp & _).
    rewrite (incorporate_queryType _ ctx prev Hlast), Hl, Hb, Hp. simpl.
    repeat split.
    + destruct (locations (h_entities prev)); reflexivity.
    + destruct (buildingTypes (h_entities prev)); reflexivity.
Qed.

(** The theorem at a reply without braces and no session. *)
Lemma unparsable_reply_fails_soft_witness :
  parseModelResponse_try Samples.rejectAll (Some Samples.apologyReply)
  = Throw "Error: Could not extract JSON from model response"
  /\ processQuery Samples.rejectAll 2026 (Completed [Some Samples.apologyReply])
                  Samples.ambiguousQuery None
     = Ok (minimalStructure (Some Samples.apologyReply)).
Proof.
  split; [reflexivity|].
  apply (unparsable_reply_fails_soft
           Samples.rejectAll 2026 (Some Samples.apologyReply) [] Samples.ambiguousQuery
           None "Error: Could not extract JSON from model response" eq_refl).
Defined.

(** C4, the claim as stated fails.  The reply carries no payload.  With the
    Brooklyn session the interpreter returns the previous turn's intent and
    location instead of the unknown intent and no entity; and with or
    without a session [originalQuery] holds the reply of the Completion
    Service, not the user's question. *)
Lemma unparsable_reply_counterexample :
  parseModelResponse_try Samples.rejectAll (Some Samples.apologyReply)
  = Throw "Error: Could not extract JSON from model response"
  /\ (exists q,
         processQuery Samples.rejectAll 2026 (Completed [Some Samples.apologyReply])
                      Samples.ambiguousQuery (Some Samples.brooklynSession) = Ok q
         /\ queryType q = Some "risk_assessment"
         /\ locations (entities q) = Some ["Brooklyn"]
         /\ originalQuery q = Some Samples.apologyReply
         /\ originalQuery q <> Some Samples.ambiguousQuery)
  /\ (exists q,
         processQuery Samples.rejectAll 2026 (Completed [Some Samples.apologyReply])
                      Samples.ambiguousQuery None = Ok q
         /\ originalQuery q = Some Samples.apologyReply
         /\ originalQuery q <> Some Samples.ambiguousQuery).
Proof.
  split; [reflexivity | split].
  - eexists. split; [vm_compute; reflexivity|].
    repeat split; try reflexivity. discriminate.
  - eexists. split; [vm_compute; reflexivity|].
    repeat split; try reflexivity. discriminate.
Qed.

End NlpFacts.

(** ** Narrative insights *)

Module InsightGeneratorFacts.
Import Js Query Nlp InsightGenerator.

(** C9, as amended.  [generateNarrativeInsights] never raises.  It returns
    the fixed fallback payload (the apology as summary, no finding, no
    explanation, confidence 0) whenever the prompt cannot be built, the call
    to the Completion Service is rejected, or the completion has no first
    choice or no text in it.  In every other case, an empty text included,
    the summary is the trimmed text and the confidence is the constant
    0.85. *)
Theorem narrate_fallback_or_placeholder :
  forall (openai : string -> Completion) (q : StructuredQuery)
         (analysisJson : option string),
    let r := generateNarrativeInsights openai q analysisJson in
    fallbackInsights
    = {| summary := "Unable to generate insights due to an error.";
         keyFindings := []; explanations := []; confidence := 0 |}
    /\ match prepareInsightPrompt q analysisJson with
       | Throw _ => r = fallbackInsights
       | Ok prompt =>
           match openai prompt with
           | Rejected => r = fallbackInsights
           | Completed [] => r = fallbackInsights
           | Completed (None :: _) => r = fallbackInsights
           | Completed (Some text :: _) =>
               summary r = trim text
               /\ keyFindings r = extractKeyFindings (trim text)
               /\ explanations r = extractExplanations (trim text)
               /\ confidence r = 85 # 100
           end
       end.
Proof.
  intros openai q analysisJson r. split; [reflexivity|].
  unfold r, generateNarrativeInsights, generateNarrativeInsights_try.
  destruct (prepareInsightPrompt q analysisJson) as [prompt|e]; simpl; [|reflexivity].
  destruct (openai prompt) as [|[|[text|] rest]]; simpl;
    try reflexivity.
  repeat split; reflexivity.
Qed.

(** C9, the claim as stated fails.  An empty completion is not treated as
    a failure: the summary is the empty string and the confidence 0.85,
    where the claim has the fallback payload with confidence 0.  (A rejected
    call does give the fallback.) *)
Lemma empty_completion_counterexample :
  generateNarrativeInsights Samples.emptyCompletion Samples.fullQuery (Some "{}")
  = {| summary := ""; keyFindings := []; explanations := []; confidence := 85 # 100 |}
  /\ generateNarrativeInsights Samples.emptyCompletion Samples.fullQuery (Some "{}")
     <> fallbackInsights
  /\ generateNarrativeInsights Samples.failingCompletion Samples.fullQuery (Some "{}")
     = fallbackInsights.
Proof.
  split; [vm_compute; reflexivity | split; [|vm_compute; reflexivity]].
  vm_compute. discriminate.
Qed.

End InsightGeneratorFacts.

(** ** The query builder *)

Module QueryBuilderFacts.
Import Js Query QueryBuilder.

Lemma addFilter_step (qualified : bool) (st : WhereState) (f : Filter) :
  addFilter qualified st f
  = {| whereClause := whereClause st ++ [predicate qualified (paramIndex st) f];
       params := params st ++ operands f;
       paramIndex := paramIndex st + arity f |}.
Proof.
  unfold addFilter, predicate, operands, arity, isRange.
  destruct (String.eqb (operator f) "BETWEEN"); simpl;
    destruct (value f) as [v | [|a [|b [|c items]]]]; reflexivity.
Qed.

Lemma fold_addFilter (qualified : bool) (filters : list Filter) :
  forall st : WhereState,
    fold_left (addFilter qualified) filters st
    = {| whereClause := whereClause st ++ predicates qualified (paramIndex st) filters;
         params := params st ++ flat_map operands filters;
         paramIndex := paramIndex st + totalArity filters |}.
Proof.
  induction filters as [|f rest IH]; intro st; simpl.
  - rewrite !app_nil_r, Nat.add_0_r. destruct st; reflexivity.
  - rewrite IH, addFilter_step. simpl.
    rewrite <- !app_assoc, Nat.add_assoc. reflexivity.
Qed.

Lemma processFilters_spec (qualified : bool) (filters : list Filter) :
  processFilters qualified filters
  = {| whereClause := predicates qualified 1 filters;
       params := flat_map operands filters;
       paramIndex := 1 + totalArity filters |}.
Proof.
  unfold processFilters. rewrite fold_addFilter. reflexivity.
Qed.

Lemma predicates_length (qualified : bool) (filters : list Filter) :
  forall i, List.length (predicates qualified i filters) = List.length filters.
Proof.
  induction filters as [|f rest IH]; intro i; simpl; [reflexivity|].
  rewrite IH. reflexivity.
Qed.

Lemma predicates_app (qualified : bool) (l1 l2 : list Filter) :
  forall i,
    predicates qualified i (l1 ++ l2)
    = (predicates qualified i l1 ++ predicates qualified (i + totalArity l1) l2)%list.
Proof.
  induction l1 as [|f rest IH]; intro i; simpl.
  - rewrite Nat.add_0_r. reflexivity.
  - rewrite IH, Nat.add_assoc. reflexivity.
Qed.

Lemma operands_length (f : Filter) : List.length (operands f) = arity f.
Proof.
  unfold operands, arity, isRange.
  destruct (String.eqb (operator f) "BETWEEN"); simpl;
    destruct (value f) as [v | [|a [|b [|c items]]]]; reflexivity.
Qed.

Lemma operands_total (filters : list Filter) :
  List.length (flat_map operands filters) = totalArity filters.
Proof.
  induction filters as [|f rest IH]; simpl; [reflexivity|].
  rewrite length_app, operands_length, IH. reflexivity.
Qed.

Lemma withDefault_predicates (qualified : bool) (i : nat) (filters : list Filter) :
  withDefault (predicates qualified i filters)
  = match filters with
    | [] => ["1=1"]
    | _ => predicates qualified i filters
    end.
Proof. destruct filters; reflexivity. Qed.

(** X30.  [buildRiskAssessmentQuery] writes the filters into the WHERE
    clause of the statement: one predicate per filter, in order, joined by
    AND, and [1=1] when there is no filter.  The rest of the text does not
    depend on the filters, except for the placeholder of LIMIT, which is
    numbered one past the placeholders of the filters; the WHERE of the
    clause is the first one of the text.  The n-th predicate names the
    table, column and operator of the n-th filter and the placeholders under
    which its operands are bound: the two ends of the range for a BETWEEN
    over a pair, the value for any other filter.  The bound parameters are
    these operands, in order, followed by the limit. *)
Theorem filters_compile_into_the_where_clause :
  exists select gap groupOrder tail : string,
    trim gap = "" /\ trim tail = ""
    /\ includes select "WHERE" = false /\ includes groupOrder "GROUP BY" = true
    /\ (forall f, isRange f = true ->
                  exists a b, value f = VArray [a; b]
                              /\ operands f = [VScalar a; VScalar b] /\ arity f = 2%nat)
    /\ (forall f, isRange f = false -> operands f = [value f] /\ arity f = 1%nat)
    /\ forall (filters : list Filter) (limit : option Z),
         let built := buildRiskAssessmentQuery {| qp_filters := filters; qp_limit := limit |} in
         query built
         = select ++ "WHERE" ++ gap
           ++ String.concat " AND " (match filters with
                                     | [] => ["1=1"]
                                     | _ => predicates true 1 filters
                                     end)
           ++ groupOrder ++ "LIMIT " ++ placeholder (1 + totalArity filters) ++ tail
         /\ List.length (predicates true 1 filters) = List.length filters
         /\ (forall n f,
                nth_error filters n = Some f ->
                nth_error (predicates true 1 filters) n
                = Some (predicate true (1 + totalArity (firstn n filters)) f)
                /\ firstn (arity f) (skipn (totalArity (firstn n filters)) (boundParams built))
                   = operands f)
         /\ boundParams built
            = (flat_map operands filters
               ++ [VScalar (SNumber (limitOrDefault limit))])%list
         /\ List.length (boundParams built) = (1 + totalArity filters)%nat.
Proof.
  exists "
    SELECT 
      p.bbl,
      p.address,
      p.borough,
      p.block,
      p.lot,
      p.bldgclass,
      p.yearbuilt,
      COUNT(DISTINCT hv.id) as hpd_violation_count,
      COUNT(DISTINCT dv.id) as dob_violation_count,
      (COUNT(DISTINCT hv.id) + COUNT(DISTINCT dv.id)) as total_violations
    FROM 
      pluto p
    LEFT JOIN 
      hpd_violations hv ON p.bbl = hv.bbl
    LEFT JOIN 
      dob_violations dv ON p.bbl = dv.bbl
    ", " 
      ", "
    GROUP BY 
      p.bbl, p.address, p.borough, p.block, p.lot, p.bldgclass, p.yearbuilt
    ORDER BY 
      total_violations DESC
    ", "
  ".
  split; [reflexivity | split; [reflexivity|]].
  split; [vm_compute; reflexivity | split; [vm_compute; reflexivity|]].
  split; [|split].
  { intros f H. unfold arity. rewrite H.
    unfold isRange in H. apply andb_prop in H. destruct H as [Hop Hv].
    unfold operands. rewrite Hop.
    destruct (value f) as [v | [|a [|b [|c items]]]]; try discriminate Hv.
    exists a, b. repeat split; reflexivity. }
  { intros f H. unfold arity. rewrite H. split; [|reflexivity].
    unfold isRange in H. unfold operands.
    destruct (String.eqb (operator f) "BETWEEN"); simpl in H;
      destruct (value f) as [v | [|a [|b [|c items]]]]; try reflexivity;
      discriminate H. }
  intros filters limit built. subst built. unfold buildRiskAssessmentQuery.
  rewrite processFilters_spec. cbn [query boundParams whereClause params paramIndex qp_filters qp_limit].
  rewrite withDefault_predicates.
  split; [|split; [apply predicates_length | split; [|split]]].
  - cbn [append]. reflexivity.
  - intros n f Hn.
    destruct (nth_error_split _ _ Hn) as (l1 & l2 & -> & Hlen).
    assert (Hfirst : firstn n (l1 ++ f :: l2) = l1).
    { rewrite <- Hlen. rewrite firstn_app, firstn_all, Nat.sub_diag. simpl.
      apply app_nil_r. }
    rewrite Hfirst. split.
    + rewrite predicates_app, nth_error_app2;
        rewrite predicates_length; [|lia].
      rewrite <- Hlen, Nat.sub_diag. reflexivity.
    + rewrite flat_map_app. cbn [flat_map].
      rewrite <- (operands_total l1), <- !app_assoc.
      rewrite skipn_app, skipn_all, Nat.sub_diag. cbn [skipn app].
      rewrite <- operands_length, firstn_app, firstn_all, Nat.sub_diag. cbn [firstn].
      apply app_nil_r.
  - reflexivity.
  - rewrite length_app, operands_total. cbn [List.length]. lia.
Qed.

(** X4.  Without filters the WHERE clause is the default [1=1], the
    limit is the first placeholder and the only bound parameter. *)
Theorem no_filter_compiles_to_default_where :
  forall limit : option Z,
    let built := buildRiskAssessmentQuery {| qp_filters := []; qp_limit := limit |} in
    withDefault (whereClause (processFilters true [])) = ["1=1"]
    /\ includes (query built) "1=1" = true
    /\ includes (query built) "LIMIT $1" = true
    /\ boundParams built = [VScalar (SNumber (limitOrDefault limit))].
Proof.
  intro limit. repeat split; vm_compute; reflexivity.
Qed.

End QueryBuilderFacts.

(** ** The detection rules *)

Module PatternDetectionFacts.
Import Js JsFacts DataTransformation DataAnalysis PatternDetection.

Lemma firesFor_geographic (factors : list Factor) (location : string) :
  firesFor "geographic_concentration" location (flat_map factorFindings factors)
  <-> exists fac, In fac factors /\ factor fac = "Borough" /\ value fac = location
                  /\ js_gt (parseFloat (percentage fac)) (of_Z 40) = true.
Proof.
  unfold firesFor. split.
  - intros (f & Hin & Hty & pct & c & Hdata).
    apply in_flat_map in Hin. destruct Hin as (fac & Hfac & Hin).
    exists fac. split; [exact Hfac|].
    unfold factorFindings in Hin.
    apply in_app_or in Hin. destruct Hin as [Hin | Hin].
    + destruct (String.eqb_spec (factor fac) "Borough") as [E|N]; simpl in Hin;
        [|contradiction].
      destruct (js_gt (parseFloat (percentage fac)) (of_Z 40)) eqn:G;
        [|contradiction].
      destruct Hin as [<- | []]. simpl in Hdata. injection Hdata as <- _ _.
      repeat split; try assumption; reflexivity.
    + apply in_app_or in Hin. destruct Hin as [Hin | Hin];
        match type of Hin with
        | In _ (if ?b then _ else _) => destruct b
        end;
        try contradiction; destruct Hin as [<- | []]; discriminate Hty.
  - intros (fac & Hfac & Hf & Hv & Hgt).
    eexists. split; [|split; [|eexists; eexists]].
    + apply in_flat_map. exists fac. split; [exact Hfac|].
      unfold factorFindings. apply in_or_app. left.
      rewrite Hf, Hgt. simpl. left. reflexivity.
    + reflexivity.
    + simpl. rewrite Hv. reflexivity.
Qed.

Lemma in_factorsOf (name : string) (total : nat) (counts : Counts) (fac : Factor) :
  In fac (factorsOf name total counts)
  <-> exists k v, In (k, v) counts
                  /\ fac = {| factor := name; value := k; f_count := v;
                              percentage := percentOf v total |}.
Proof.
  unfold factorsOf. rewrite in_map_iff. split.
  - intros ([k v] & E & Hin). exists k, v. split; [exact Hin | symmetry; exact E].
  - intros (k & v & Hin & E). exists (k, v). split; [symmetry; exact E | exact Hin].
Qed.


(** The rule on boroughs, over the analysis of a row set. *)
Lemma geographic_rule (rows : list Building) (location : string) :
  firesFor "geographic_concentration" location
           (significantPatterns (detectRiskPatterns (analyzeRiskData (Some rows))))
  <-> 0 < Z.of_nat (List.length (inBorough location rows))
      /\ 801 * Z.of_nat (List.length (highRisk rows))
         <= 2000 * Z.of_nat (List.length (inBorough location rows)).
Proof.
  unfold detectRiskPatterns, analyzeRiskData, inBorough, highRisk.
  set (high := filter (fun b => String.eqb (risk_level b) "High") rows).
  set (sorted := sort_by (fun a b => Qlt_bool (risk_score b) (risk_score a)) high).
  assert (Hn : List.length sorted = List.length high) by apply length_sort_by.
  assert (Hc : occurrences label location sorted
               = Z.of_nat (List.length (filter (fun b => String.eqb (label b) location)
                                               high))).
  { unfold occurrences. f_equal. apply filter_sort_by. }
  pose proof (filter_length_le (fun b => String.eqb (label b) location) high) as Hle.
  destruct (Nat.ltb_spec 0 (List.length sorted)) as [Hpos | Hzero];
    cbn [significantPatterns commonFactors].
  - rewrite firesFor_geographic. split.
    + intros (fac & Hin & Hf & Hv & Hgt).
      apply in_app_or in Hin. destruct Hin as [Hin | Hin].
      * apply in_factorsOf in Hin. destruct Hin as (k & v & Hkv & ->).
        simpl in Hv. subst k.
        apply in_tally in Hkv. destruct Hkv as [Hvpos Hvc].
        rewrite Hc in Hvc. rewrite <- Hvc.
        split; [exact Hvpos|].
        simpl in Hgt. unfold percentOf in Hgt.
        apply percent_exceeds in Hgt; [|lia|lia].
        rewrite Hn in Hgt. lia.
      * apply in_app_or in Hin.
        destruct Hin as [Hin | Hin]; apply in_factorsOf in Hin;
          destruct Hin as (k & v & _ & ->); discriminate Hf.
    + intros [Hcpos Hineq].
      exists {| factor := "Borough"; value := location;
                f_count := occurrences label location sorted;
                percentage := percentOf (occurrences label location sorted)
                                        (List.length sorted) |}.
      split; [|repeat split].
      * apply in_or_app. left. apply in_factorsOf.
        exists location, (occurrences label location sorted).
        split; [|reflexivity].
        apply in_tally. split; [rewrite Hc; exact Hcpos | reflexivity].
      * simpl. unfold percentOf. apply percent_exceeds; [rewrite Hc; lia | lia |].
        rewrite Hc, Hn. lia.
  - split.
    + intros (f & [] & _).
    + intros [Hcpos _]. lia.
Qed.

Lemma sumCounts_cons (t : TypeCount) (types : list TypeCount) :
  sumCounts (t :: types) = vt_count t + sumCounts types.
Proof.
  unfold sumCounts. simpl.
  assert (G : forall l acc,
             fold_left (fun sum x => sum + vt_count x) l acc
             = acc + fold_left (fun sum x => sum + vt_count x) l 0).
  { induction l as [|x l IH]; intro acc; simpl; [lia|].
    rewrite (IH (acc + vt_count x)), (IH (vt_count x)). lia. }
  apply G.
Qed.

Lemma sumCounts_nonneg (types : list TypeCount) :
  Forall (fun t => 0 <= vt_count t) types -> 0 <= sumCounts types.
Proof.
  induction 1 as [|t types Ht _ IH]; [reflexivity|].
  rewrite sumCounts_cons. lia.
Qed.

(** The rule on the most frequent violation type. *)
Lemma dominant_rule (r : ViolationResults) :
  countsWellFormed r ->
  fires "dominant_violation_type" (significantPatterns (detectViolationPatterns r))
  <-> exists first rest,
        topViolationTypes r = first :: rest
        /\ 0 < violationTotal r
        /\ 601 * violationTotal r <= 2000 * vt_count first.
Proof.
  intros [Hcounts Htotal]. simpl. unfold dominantFindings, fires.
  destruct (topViolationTypes r) as [|first rest] eqn:Etop.
  - split; [intros (f & [] & _) | intros (first & rest & E & _); discriminate E].
  - assert (Hfirst : 0 <= vt_count first) by (inversion Hcounts; assumption).
    assert (Hsum : vt_count first <= sumCounts (first :: rest)).
    { rewrite sumCounts_cons.
      assert (0 <= sumCounts rest)
        by (apply sumCounts_nonneg; inversion Hcounts; assumption).
      lia. }
    assert (Ht : 0 < violationTotal r \/ (violationTotal r = 0 /\ vt_count first = 0)).
    { unfold violationTotal. rewrite Etop.
      destruct (totalViolations r) as [n|] eqn:En.
      - specialize (Htotal n eq_refl).
        destruct (Z.eqb_spec n 0); lia.
      - lia. }
    destruct Ht as [Hpos | [Hz Hc]].
    + pose proof (percent_exceeds (vt_count first) (violationTotal r) 30 Hfirst Hpos)
        as P.
      destruct (js_gt _ (of_Z 30)) eqn:G.
      * split.
        -- intros _. exists first, rest. repeat split; [exact Hpos|]. apply P. reflexivity.
        -- intros _. eexists. split; [left; reflexivity | reflexivity].
      * split.
        -- intros (f & [] & _).
        -- intros (first' & rest' & E & _ & Hineq). injection E as <- <-.
           apply P in Hineq. discriminate Hineq.
    + rewrite Hz, Hc. simpl. split.
      * intros (f & [] & _).
      * intros (first' & rest' & _ & H0 & _). lia.
Qed.

Lemma avg_threshold (s c len : Z) :
  0 < len ->
  (inject_Z s / inject_Z len * inject_Z 2 < inject_Z c)%Q <-> 2 * s < c * len.
Proof.
  intro Hlen.
  assert (Hl : (0 < inject_Z len)%Q)
    by (change 0%Q with (inject_Z 0); rewrite <- Zlt_Qlt; exact Hlen).
  assert (Hne : ~ (inject_Z len == 0)%Q)
    by (intro E; rewrite E in Hl; apply (Qlt_irrefl 0), Hl).
  rewrite (Zlt_Qlt (2 * s) (c * len)), !inject_Z_mult.
  split; intro H.
  - apply Qmult_lt_r with (z := inject_Z len) in H; [|exact Hl].
    setoid_replace (inject_Z s / inject_Z len * inject_Z 2 * inject_Z len)%Q
      with (inject_Z 2 * inject_Z s)%Q in H by (field; exact Hne).
    exact H.
  - apply Qmult_lt_r with (z := inject_Z len); [exact Hl|].
    setoid_replace (inject_Z s / inject_Z len * inject_Z 2 * inject_Z len)%Q
      with (inject_Z 2 * inject_Z s)%Q by (field; exact Hne).
    exact H.
Qed.

(** The rule on buildings with many violations. *)
Lemma high_count_rule (r : ViolationResults) :
  fires "high_violation_count" (anomalies (detectViolationPatterns r))
  <-> exists b, In b (buildingsWithMultipleViolations r)
                /\ 2 * sumViolations (buildingsWithMultipleViolations r)
                   < violationCount b
                     * Z.of_nat (List.length (buildingsWithMultipleViolations r)).
Proof.
  simpl. unfold highCountFindings, fires.
  destruct (buildingsWithMultipleViolations r) as [|b0 rest].
  - split; [intros (f & [] & _) | intros (b & [] & _)].
  - set (bs := b0 :: rest).
    assert (Hlen : 0 < Z.of_nat (List.length bs)) by (unfold bs; simpl; lia).
    assert (Hgt : forall b,
               js_gt (of_Z (violationCount b)) (js_mul (avgViolations bs) (of_Z 2)) = true
               <-> 2 * sumViolations bs < violationCount b * Z.of_nat (List.length bs)).
    { intro b. unfold avgViolations, js_div.
      rewrite (Qeq_bool_inject_pos _ Hlen). unfold of_Z, js_mul, js_gt.
      rewrite Qlt_bool_iff. apply avg_threshold, Hlen. }
    destruct (buildingsWithHighViolations bs) as [|h high] eqn:Eh.
    + split; [intros (f & [] & _)|].
      intros (b & Hin & Hineq).
      assert (Hb : In b (buildingsWithHighViolations bs)).
      { unfold buildingsWithHighViolations. apply filter_In.
        split; [exact Hin | apply Hgt, Hineq]. }
      rewrite Eh in Hb. destruct Hb.
    + split.
      * intros _.
        assert (Hh : In h (buildingsWithHighViolations bs)) by (rewrite Eh; left; reflexivity).
        unfold buildingsWithHighViolations in Hh. apply filter_In in Hh.
        destruct Hh as [Hin Hcond]. exists h. split; [exact Hin | apply Hgt, Hcond].
      * intros _. eexists. split; [left; reflexivity | reflexivity].
Qed.

(** C8, as amended.  The rules compare shares rounded to one decimal.  A
    geographic concentration finding about a borough fires exactly when the
    share of that borough among the high-risk buildings, rounded to one
    decimal, exceeds 40.0, that is from 40.05 percent on.  A
    dominant-violation-type finding fires only when the share of the first
    listed type in the total (the recorded total or, without one, the sum of
    the listed counts) is at least 30.05 percent, and it fires whenever that
    share is above 30.05 percent; the share of exactly 30.05 percent is a tie
    of the rounding and is left open.  A high-violation-count anomaly fires
    exactly when the count of some listed building exceeds twice the average
    count of the listed buildings. *)
Theorem detection_rules_compare_rounded_shares :
  (forall (rows : list Building) (location : string),
      firesFor "geographic_concentration" location
               (significantPatterns (detectRiskPatterns (analyzeRiskData (Some rows))))
      <-> 0 < Z.of_nat (List.length (inBorough location rows))
          /\ 801 * Z.of_nat (List.length (highRisk rows))
             <= 2000 * Z.of_nat (List.length (inBorough location rows)))
  /\ (forall r : ViolationResults,
         countsWellFormed r ->
         (fires "dominant_violation_type" (significantPatterns (detectViolationPatterns r))
          -> exists first rest,
               topViolationTypes r = first :: rest
               /\ 0 < violationTotal r
               /\ 601 * violationTotal r <= 2000 * vt_count first)
         /\ (forall first rest,
                topViolationTypes r = first :: rest ->
                0 < violationTotal r ->
                601 * violationTotal r < 2000 * vt_count first ->
                fires "dominant_violation_type"
                      (significantPatterns (detectViolationPatterns r))))
  /\ (forall r : ViolationResults,
         fires "high_violation_count" (anomalies (detectViolationPatterns r))
         <-> exists b, In b (buildingsWithMultipleViolations r)
                       /\ 2 * sumViolations (buildingsWithMultipleViolations r)
                          < violationCount b
                            * Z.of_nat (List.length (buildingsWithMultipleViolations r))).
Proof.
  split; [exact geographic_rule | split; [|exact high_count_rule]].
  intros r W. split.
  - apply (dominant_rule r W).
  - intros first rest E Hpos Hlt. apply (dominant_rule r W).
    exists first, rest. repeat split; [exact E | exact Hpos | lia].
Qed.

(** The theorem at an analysis in which the first type has 61 of 200
    violations (30.5 percent) and one of five buildings has 20 of their 28
    violations: both rules fire. *)
Lemma detection_rules_witness :
  countsWellFormed Samples.concentratedViolations
  /\ fires "dominant_violation_type"
           (significantPatterns (detectViolationPatterns Samples.concentratedViolations))
  /\ fires "high_violation_count"
           (anomalies (detectViolationPatterns Samples.concentratedViolations)).
Proof.
  assert (W : countsWellFormed Samples.concentratedViolations).
  { split.
    - repeat constructor; simpl; lia.
    - intros n E. injection E as <-. lia. }
  destruct detection_rules_compare_rounded_shares as (_ & Hdominant & Hcount).
  split; [exact W | split].
  - destruct (Hdominant Samples.concentratedViolations W) as [_ Hfires].
    eapply Hfires; [reflexivity | vm_compute; reflexivity | vm_compute; reflexivity].
  - apply (Hcount Samples.concentratedViolations).
    exists (mkViolationBuilding "5 Main St" "Bronx" 20).
    split; [simpl; tauto | vm_compute; reflexivity].
Defined.

(** C8, the claim as stated fails.  Brooklyn has 161 of 402 high-risk
    buildings, more than 40 percent, and no geographic concentration finding
    fires; the most frequent violation type has 61 of 203 violations, more
    than 30 percent, and no dominant-violation-type finding fires.  Both
    shares round to the threshold itself. *)
Lemma rounded_share_counterexample :
  (40 * Z.of_nat (List.length (highRisk Samples.scatteredRisk))
   < 100 * Z.of_nat (List.length (inBorough "Brooklyn" Samples.scatteredRisk))
   /\ map type (significantPatterns
                  (detectRiskPatterns (analyzeRiskData (Some Samples.scatteredRisk))))
      = ["age_concentration"; "building_type_concentration"])
  /\ (30 * violationTotal Samples.scatteredViolations < 100 * 61
      /\ topViolationTypes Samples.scatteredViolations
         = [mkTypeCount "IMMEDIATELY HAZARDOUS" 61; mkTypeCount "HAZARDOUS" 60]
      /\ significantPatterns (detectViolationPatterns Samples.scatteredViolations) = []).
Proof.
  split; [split | split; [|split]]; vm_compute; reflexivity.
Qed.

End PatternDetectionFacts.

(** ** Sorting and counting *)

Module ArrayFacts.
Import Js JsFacts.

Lemma insert_by_perm {A : Type} (before : A -> A -> bool) (x : A) (l : list A) :
  Permutation (insert_by before x l) (x :: l).
Proof.
  induction l as [|y r IH]; simpl; [apply Permutation_refl|].
  destruct (before y x); [|apply Permutation_refl].
  apply Permutation_trans with (y :: x :: r).
  - apply perm_skip, IH.
  - apply perm_swap.
Qed.

Lemma sort_by_perm {A : Type} (before : A -> A -> bool) (l : list A) :
  Permutation (sort_by before l) l.
Proof.
  induction l as [|x r IH]; [apply Permutation_refl|].
  unfold sort_by in *. simpl.
  apply Permutation_trans with (x :: fold_right (insert_by before) [] r).
  - apply insert_by_perm.
  - apply perm_skip, IH.
Qed.

Section Sorting.
Context {A : Type} (before : A -> A -> bool) (R : A -> A -> Prop).
Hypothesis before_R : forall a b, before a b = true -> R a b.
Hypothesis not_before_R : forall a b, before a b = false -> R b a.
Hypothesis R_trans : forall a b c, R a b -> R b c -> R a c.

Lemma insert_by_sorted (x : A) (l : list A) :
  StronglySorted R l -> StronglySorted R (insert_by before x l).
Proof.
  induction l as [|y r IH]; intro H; simpl.
  - constructor; constructor.
  - inversion H as [|? ? Hr Hy]; subst.
    destruct (before y x) eqn:E.
    + constructor; [apply IH, Hr|].
      rewrite Forall_forall. intros z Hz.
      apply in_insert_by in Hz. destruct Hz as [->|Hz].
      * apply before_R, E.
      * rewrite Forall_forall in Hy. apply Hy, Hz.
    + constructor; [exact H|].
      constructor; [apply not_before_R, E|].
      rewrite Forall_forall in *. intros z Hz.
      apply R_trans with y; [apply not_before_R, E | apply Hy, Hz].
Qed.

Lemma sort_by_sorted (l : list A) : StronglySorted R (sort_by before l).
Proof.
  induction l as [|x r IH]; [constructor|].
  unfold sort_by in *. simpl. apply insert_by_sorted, IH.
Qed.

End Sorting.

Lemma total_bump (k : string) (o : Counts) : total (bump k o) = total o + 1.
Proof.
  induction o as [|[k0 v0] r IH]; simpl; [reflexivity|].
  destruct (String.eqb k0 k); simpl; [lia | rewrite IH; lia].
Qed.

Lemma total_tally {A : Type} (key : A -> string) (l : list A) :
  forall o, total (tally key l o) = total o + Z.of_nat (List.length l).
Proof.
  unfold tally. induction l as [|x r IH]; intro o.
  - simpl. lia.
  - cbn [fold_left List.length]. rewrite IH, total_bump, Nat2Z.inj_succ. lia.
Qed.

End ArrayFacts.

(** ** The risk pipeline: transformation, analysis *)

Module RiskPipelineFacts.
Import Js JsFacts ArrayFacts DataTransformation DataAnalysis.

Lemma getRiskLevel_cases (score : Q) :
  getRiskLevel score = "High" \/ getRiskLevel score = "Medium"
  \/ getRiskLevel score = "Low" \/ getRiskLevel score = "Minimal".
Proof.
  unfold getRiskLevel.
  destruct (Qle_bool 80 score); [auto|].
  destruct (Qle_bool 50 score); [auto|].
  destruct (Qle_bool 20 score); auto.
Qed.

Lemma countLevel_partition (data : list Building) :
  Forall (fun b => risk_level b = "High" \/ risk_level b = "Medium"
                   \/ risk_level b = "Low" \/ risk_level b = "Minimal") data ->
  (countLevel "High" data + countLevel "Medium" data + countLevel "Low" data
   + countLevel "Minimal" data = List.length data)%nat.
Proof.
  unfold countLevel.
  induction 1 as [|b r Hb Hr IH]; [reflexivity|].
  cbn [filter List.length].
  destruct Hb as [E|[E|[E|E]]]; rewrite E; cbn [String.eqb Ascii.eqb Bool.eqb]; cbn [List.length]; lia.
Qed.

Lemma scored_levels (currentYear : Z) (rows : list RawBuilding) :
  Forall (fun b => risk_level b = "High" \/ risk_level b = "Medium"
                   \/ risk_level b = "Low" \/ risk_level b = "Minimal")
         (map (scoreBuilding currentYear) rows).
Proof.
  rewrite Forall_forall. intros b Hb. apply in_map_iff in Hb.
  destruct Hb as (r & <- & _). unfold scoreBuilding; simpl. apply getRiskLevel_cases.
Qed.

(** X5.  The four risk-level counters that [transformRiskAssessmentData]
    puts in the metadata partition the rows: every row is counted in exactly
    one of them, so they add up to [count], which is the number of rows. *)
Theorem risk_levels_partition_rows :
  forall (currentYear : Z) (rows : list RawBuilding),
    let metadata := snd (transformRiskAssessmentData currentYear rows) in
    (highRiskCount metadata + mediumRiskCount metadata + lowRiskCount metadata
     + minimalRiskCount metadata = count metadata)%nat
    /\ count metadata = List.length rows.
Proof.
  intros currentYear rows. cbn.
  split.
  - apply countLevel_partition, scored_levels.
  - apply length_map.
Qed.

Lemma get_countRiskLevels (data : list Building) :
  forall (o : Counts) (k : string),
    k <> "" ->
    get k (fold_left
             (fun counts building =>
                if truthy (risk_level building) then bump (risk_level building) counts
                else counts) data o)
    = if (Z.of_nat (countLevel k data) =? 0) then get k o
      else Some (match get k o with Some v => v | None => 0 end
                 + Z.of_nat (countLevel k data)).
Proof.
  unfold countLevel.
  induction data as [|b r IH]; intros o k Hk; [reflexivity|].
  cbn [fold_left filter]. rewrite (IH _ k Hk).
  set (m := Z.of_nat (List.length (filter (fun b0 => String.eqb (risk_level b0) k) r))).
  assert (Hm : 0 <= m) by (unfold m; lia).
  destruct (String.eqb_spec (risk_level b) k) as [E|N].
  - assert (T : truthy (risk_level b) = true).
    { unfold truthy. rewrite E. destruct (String.eqb_spec k ""); [contradiction|reflexivity]. }
    rewrite T, get_bump, E, String.eqb_refl.
    cbn [List.length]. rewrite Nat2Z.inj_succ. fold m.
    destruct (Z.eqb_spec m 0) as [E0|N0];
      destruct (Z.eqb_spec (Z.succ m) 0) as [E1|N1]; try lia;
      destruct (get k o); f_equal; lia.
  - destruct (truthy (risk_level b)); [|reflexivity].
    rewrite get_bump. destruct (String.eqb_spec (risk_level b) k); [contradiction|reflexivity].
Qed.

Lemma countRiskLevels_four (data : list Building) :
  Forall (fun b => risk_level b = "High" \/ risk_level b = "Medium"
                   \/ risk_level b = "Low" \/ risk_level b = "Minimal") data ->
  forall h m l n : Z,
    fold_left
      (fun counts building =>
         if truthy (risk_level building) then bump (risk_level building) counts else counts)
      data [("High", h); ("Medium", m); ("Low", l); ("Minimal", n)]
    = [("High", h + Z.of_nat (countLevel "High" data));
       ("Medium", m + Z.of_nat (countLevel "Medium" data));
       ("Low", l + Z.of_nat (countLevel "Low" data));
       ("Minimal", n + Z.of_nat (countLevel "Minimal" data))].
Proof.
  unfold countLevel.
  induction 1 as [|b r Hb Hr IH]; intros h m l n.
  - cbn. rewrite !Z.add_0_r. reflexivity.
  - cbn [fold_left filter].
    destruct Hb as [E|[E|[E|E]]]; rewrite E; cbn [truthy String.eqb Ascii.eqb Bool.eqb negb bump];
      rewrite IH; cbn [List.length]; rewrite Nat2Z.inj_succ; repeat first [lia | f_equal].
Qed.

(** X6.  On the rows that [transformRiskAssessmentData] returns,
    [analyzeRiskData] counts the same buildings per risk level as the
    transformer's metadata: [riskLevelCounts] holds the four levels, in the
    order High, Medium, Low, Minimal, with the transformer's four counters,
    and [totalBuildings] is the transformer's [count]. *)
Theorem analyzer_counts_agree_with_transformer :
  forall (currentYear : Z) (rows : list RawBuilding),
    let transformed := transformRiskAssessmentData currentYear rows in
    let metadata := snd transformed in
    exists stats,
      riskStats (analyzeRiskData (Some (fst transformed))) = Some stats
      /\ totalBuildings stats = count metadata
      /\ riskLevelCounts stats
         = [("High", Z.of_nat (highRiskCount metadata));
            ("Medium", Z.of_nat (mediumRiskCount metadata));
            ("Low", Z.of_nat (lowRiskCount metadata));
            ("Minimal", Z.of_nat (minimalRiskCount metadata))].
Proof.
  intros currentYear rows. cbv zeta.
  cbn [transformRiskAssessmentData fst snd count highRiskCount mediumRiskCount lowRiskCount
       minimalRiskCount].
  set (data := map (scoreBuilding currentYear) rows).
  assert (C : countRiskLevels data
              = [("High", Z.of_nat (countLevel "High" data));
                 ("Medium", Z.of_nat (countLevel "Medium" data));
                 ("Low", Z.of_nat (countLevel "Low" data));
                 ("Minimal", Z.of_nat (countLevel "Minimal" data))]).
  { unfold countRiskLevels. rewrite (countRiskLevels_four data (scored_levels _ _)).
    reflexivity. }
  unfold analyzeRiskData.
  match goal with |- context [if ?c then _ else _] => destruct c end;
    eexists; cbn [riskStats]; (split; [reflexivity|]);
    cbn [totalBuildings riskLevelCounts]; split; try reflexivity; exact C.
Qed.

(** X7.  [topRiskBuildings] holds exactly the rows whose level is High, each
    as often as in the input, ordered by risk score from the highest to the
    lowest. *)
Theorem top_risk_buildings_sorted :
  forall (data : list Building),
    let top := topRiskBuildings (analyzeRiskData (Some data)) in
    Permutation top (filter (fun b => String.eqb (risk_level b) "High") data)
    /\ StronglySorted (fun a b => (risk_score b <= risk_score a)%Q) top.
Proof.
  intro data. cbv zeta.
  set (before := fun a b : Building => Qlt_bool (risk_score b) (risk_score a)).
  assert (E : topRiskBuildings (analyzeRiskData (Some data))
              = sort_by before (filter (fun b => String.eqb (risk_level b) "High") data)).
  { unfold analyzeRiskData.
    match goal with |- context [if ?c then _ else _] => destruct c end; reflexivity. }
  rewrite E. split; [apply sort_by_perm|].
  apply (sort_by_sorted before).
  - intros a b H. apply Qlt_bool_iff in H. apply Qlt_le_weak, H.
  - intros a b H. unfold before, Qlt_bool in H. apply negb_false_iff, Qle_bool_iff in H.
    exact H.
  - intros a b c H1 H2. apply Qle_trans with (risk_score b); assumption.
Qed.

Lemma total_factorsOf (name : string) (n : nat) (counts : Counts) :
  fold_right (fun f s => f_count f + s) 0 (factorsOf name n counts) = total counts.
Proof.
  induction counts as [|e r IH]; simpl; [reflexivity | rewrite IH; reflexivity].
Qed.

Lemma filter_factorsOf (name kind : string) (n : nat) (counts : Counts) :
  filter (fun f => String.eqb (factor f) kind) (factorsOf name n counts)
  = if String.eqb name kind then factorsOf name n counts else [].
Proof.
  induction counts as [|e r IH]; simpl.
  - destruct (String.eqb name kind); reflexivity.
  - rewrite IH. destruct (String.eqb name kind); reflexivity.
Qed.

Lemma filter_all {A : Type} (p : A -> bool) (l : list A) :
  (forall x, In x l -> p x = true) -> filter p l = l.
Proof.
  induction l as [|x r IH]; intro H; [reflexivity|].
  cbn [filter]. rewrite (H x (or_introl eq_refl)).
  rewrite IH by (intros y Hy; apply H; right; exact Hy). reflexivity.
Qed.

Lemma positiveEntries_tally {A : Type} (key : A -> string) (l : list A) :
  positiveEntries (tally key l []) = tally key l [].
Proof.
  apply filter_all. intros [k v] H. apply in_tally in H. cbn [snd].
  apply Z.ltb_lt. lia.
Qed.

(** X8.  When there is a high-risk building, the Borough factors of
    [commonFactors] account for every high-risk building exactly once (a row
    without borough under Unknown): their counts add up to the number of
    high-risk buildings, and so do the counts of the Building Class factors.
    [commonFactors] is left unset exactly when there is no high-risk
    building. *)
Theorem borough_factors_partition_high_risk :
  forall (data : list Building),
    let share := fun kind factors =>
      fold_right (fun f s => f_count f + s) 0
                 (filter (fun f => String.eqb (factor f) kind) factors) in
    match commonFactors (analyzeRiskData (Some data)) with
    | Some factors =>
        (0 < countLevel "High" data)%nat
        /\ share "Borough" factors = Z.of_nat (countLevel "High" data)
        /\ share "Building Class" factors = Z.of_nat (countLevel "High" data)
    | None => countLevel "High" data = 0%nat
    end.
Proof.
  intro data. cbv zeta. unfold analyzeRiskData.
  set (high := sort_by _ _).
  assert (L : List.length high = countLevel "High" data).
  { unfold high. rewrite length_sort_by. reflexivity. }
  destruct (Nat.ltb_spec 0 (List.length high)) as [P|P]; cbn [commonFactors]; [|lia].
  split; [lia|].
  rewrite !filter_app, !filter_factorsOf. cbn [String.eqb Ascii.eqb Bool.eqb].
  rewrite !app_nil_r, !app_nil_l, !total_factorsOf.
  unfold countBoroughs, countBuildingClasses.
  rewrite positiveEntries_tally, !total_tally. cbn [total fold_right]. rewrite L.
  split; lia.
Qed.

End RiskPipelineFacts.

(** ** Percentages rounded to one decimal *)

Module PercentFacts.
Import Js JsFacts.

Lemma Qeq_bool_inject_nonzero (n : Z) : n <> 0 -> Qeq_bool (inject_Z n) 0 = false.
Proof.
  intro H. destruct (Qeq_bool (inject_Z n) 0) eqn:E; [|reflexivity].
  apply Qeq_bool_iff in E. unfold Qeq, inject_Z in E. simpl in E. lia.
Qed.

Lemma Qabs_inject_Z (z : Z) : Qabs (inject_Z z) = inject_Z (Z.abs z).
Proof. reflexivity. Qed.

Lemma ratio_negative (a b : Z) :
  b <> 0 -> Qlt_bool (inject_Z a / inject_Z b * inject_Z 100) 0 = (a * b <? 0).
Proof.
  intro Hb.
  apply eq_true_iff_eq. rewrite Qlt_bool_iff, Z.ltb_lt.
  unfold Qlt, Qdiv, Qmult, Qinv, inject_Z.
  destruct b as [|p|p]; [contradiction| |]; cbn [Qnum Qden]; nia.
Qed.

(** The percentage [a / b * 100], [b <> 0], rounded to one decimal. *)
Lemma fixed_of_ratio (a b : Z) :
  b <> 0 ->
  toFixed1 (js_mul (js_div (inject_Z a) (inject_Z b)) (of_Z 100))
  = FxDec (a * b <? 0) ((2000 * Z.abs a + Z.abs b) / (2 * Z.abs b)).
Proof.
  intro Hb. unfold js_div. rewrite (Qeq_bool_inject_nonzero b Hb).
  unfold of_Z, js_mul, toFixed1. f_equal.
  - apply ratio_negative, Hb.
  - rewrite Zdiv_Qdiv. apply Qfloor_comp.
    unfold Qdiv. rewrite !Qabs_Qmult, Qabs_Qinv, !Qabs_inject_Z.
    rewrite inject_Z_plus, !inject_Z_mult.
    change (inject_Z (Z.abs 100)) with 100%Q.
    field. intro E. unfold Qeq, inject_Z in E. simpl in E. lia.
Qed.


Lemma abs_fixed_ge (s : bool) (t k : Z) :
  0 <= t ->
  (js_ge (js_abs (parseFloat (FxDec s t))) (of_Z k) = true <-> 10 * k <= t).
Proof.
  intro Ht. unfold parseFloat, js_abs, js_ge, of_Z.
  rewrite Qle_bool_iff.
  destruct s.
  - rewrite Qabs_opp, Qabs_pos by (unfold Qle; cbn [Qnum Qden]; lia).
    unfold Qle, inject_Z; cbn [Qnum Qden]; lia.
  - rewrite Qabs_pos by (unfold Qle; cbn [Qnum Qden]; lia).
    unfold Qle, inject_Z; cbn [Qnum Qden]; lia.
Qed.

Lemma fixed_ge_zero (s : bool) (t : Z) :
  0 <= t ->
  (js_ge (parseFloat (FxDec s t)) (of_Z 0) = true <-> s = false \/ t = 0).
Proof.
  intro Ht. unfold parseFloat, js_ge, of_Z. rewrite Qle_bool_iff.
  destruct s; unfold Qle, Qopp, inject_Z; cbn [Qnum Qden].
  - split; [intro H; right; lia | intros [H|H]; [discriminate | lia]].
  - split; [intro H; left; reflexivity | intros _; lia].
Qed.

Lemma tenths_nonneg (a b : Z) : b <> 0 -> 0 <= (2000 * Z.abs a + Z.abs b) / (2 * Z.abs b).
Proof. intro Hb. apply Z.div_pos; lia. Qed.

Lemma tenths_ge (a b k : Z) :
  b <> 0 ->
  (k <= (2000 * Z.abs a + Z.abs b) / (2 * Z.abs b)
   <-> (2 * k - 1) * Z.abs b <= 2000 * Z.abs a).
Proof.
  intro Hb. split; intro H.
  - assert (H1 : 2 * Z.abs b * ((2000 * Z.abs a + Z.abs b) / (2 * Z.abs b))
                 <= 2000 * Z.abs a + Z.abs b) by (apply Z.mul_div_le; lia).
    nia.
  - apply Z.div_le_lower_bound; lia.
Qed.

End PercentFacts.

(** ** The trend analysis *)

Module TrendFacts.
Import Js JsFacts ArrayFacts PercentFacts TrendAnalysis.

Lemma sorted_earlier (data : list TrendRow) :
  StronglySorted (fun a b => time_period a <= time_period b) (sort_by earlier data).
Proof.
  apply (sort_by_sorted earlier); unfold earlier.
  - intros a b H. apply Z.ltb_lt in H. lia.
  - intros a b H. apply Z.ltb_ge in H. lia.
  - intros a b c H1 H2. lia.
Qed.

Lemma sorted_last {A : Type} (R : A -> A -> Prop) (l : list A) :
  StronglySorted R l ->
  forall d x, In x l -> x = last l d \/ R x (last l d).
Proof.
  induction 1 as [|a l Hl IH Ha]; intros d x Hx; [destruct Hx|].
  destruct l as [|b r].
  - destruct Hx as [<-|[]]. left. reflexivity.
  - change (last (a :: b :: r) d) with (last (b :: r) d).
    destruct Hx as [<-|Hx].
    + right. rewrite Forall_forall in Ha. apply Ha.
      destruct (IH d b (or_introl eq_refl)) as [E|_].
      * rewrite <- E. left. reflexivity.
      * clear. generalize b. induction r as [|c r IHr]; intro b0; [left; reflexivity|].
        right. apply IHr.
    + apply IH, Hx.
Qed.

Lemma last_in {A : Type} (l : list A) (a d : A) : In (last (a :: l) d) (a :: l).
Proof.
  revert a. induction l as [|b r IH]; intro a; [left; reflexivity|].
  right. apply IH.
Qed.

(** X9.  [analyzeTrendData] takes its rows in any order: the
    first and the last period of [trendStats] are rows of the input, no row
    is earlier than the first or later than the last, and the trend line is
    the input's rows in chronological order.  Only the empty input leaves
    [trendStats] and the trend line unset. *)
Theorem trend_runs_from_earliest_to_latest :
  forall (getMonth : Z -> nat) (data : list TrendRow),
    let results := analyzeTrendData getMonth (Some data) in
    match trendStats results, trendLine results with
    | Some stats, Some line =>
        In (mkTrendRow (firstPeriod stats) (firstValue stats)) data
        /\ In (mkTrendRow (lastPeriod stats) (lastValue stats)) data
        /\ (forall row, In row data ->
              firstPeriod stats <= time_period row <= lastPeriod stats)
        /\ Permutation line (map (fun row => (time_period row, count row)) data)
        /\ StronglySorted (fun a b => fst a <= fst b) line
    | _, _ => data = []
    end.
Proof.
  intros getMonth data. cbv zeta.
  destruct data as [|r0 rs]; [reflexivity|].
  unfold analyzeTrendData.
  pose proof (sorted_earlier (r0 :: rs)) as HS.
  pose proof (sort_by_perm earlier (r0 :: rs)) as HP.
  destruct (sort_by earlier (r0 :: rs)) as [|first rest] eqn:E.
  - apply Permutation_nil in HP. discriminate.
  - do 2 cbn [trendStats trendLine firstPeriod firstValue lastPeriod lastValue].
    assert (Hin : forall x, In x (first :: rest) <-> In x (r0 :: rs)).
    { intro x. split; intro H.
      - eapply Permutation_in; [exact HP | exact H].
      - eapply Permutation_in; [apply Permutation_sym, HP | exact H]. }
    repeat split.
    + apply Hin. left. destruct first; reflexivity.
    + apply Hin. pose proof (last_in rest first first) as H.
      destruct (last (first :: rest) first); exact H.
    + inversion HS as [|? ? _ Hf]; subst. rewrite Forall_forall in Hf.
      apply Hin in H. destruct H as [<-|H]; [lia | apply Hf, H].
    + apply Hin in H.
      destruct (sorted_last _ _ HS first row H) as [<-|Hle]; [lia | exact Hle].
    + apply Permutation_map, HP.
    + clear - HS. induction HS as [|a l Hl IH Ha]; [constructor|].
      cbn [map]. constructor; [exact IH|].
      rewrite Forall_forall in *. intros x Hx. apply in_map_iff in Hx.
      destruct Hx as (y & <- & Hy). cbn [fst]. apply Ha, Hy.
Qed.

Lemma percentChangeOf_nonzero (previous current : Z) :
  previous <> 0 ->
  percentChangeOf previous current
  = FxDec ((current - previous) * previous <? 0)
          ((2000 * Z.abs (current - previous) + Z.abs previous) / (2 * Z.abs previous)).
Proof. intro H. unfold percentChangeOf. apply fixed_of_ratio, H. Qed.

Lemma percentChangeOf_zero (current : Z) :
  percentChangeOf 0 current
  = if current =? 0 then FxNaN else FxInf (current <? 0).
Proof.
  unfold percentChangeOf, js_div. rewrite Z.sub_0_r.
  change (Qeq_bool (inject_Z 0) 0) with true. cbv iota.
  destruct (Z.eqb_spec current 0) as [->|N]; [reflexivity|].
  rewrite (Qeq_bool_inject_nonzero current N).
  unfold of_Z, js_mul, toFixed1.
  change (Qeq_bool (inject_Z 100) 0) with false.
  change (Qlt_bool (inject_Z 100) 0) with false.
  rewrite xorb_false_r. f_equal.
  apply eq_true_iff_eq. rewrite Qlt_bool_iff, Z.ltb_lt.
  unfold Qlt, inject_Z; cbn [Qnum Qden]. lia.
Qed.

Lemma significant_iff (previous current : Z) :
  previous <> 0 ->
  (js_ge (js_abs (parseFloat (percentChangeOf previous current))) (of_Z 20) = true
   <-> 399 * Z.abs previous <= 2000 * Z.abs (current - previous)).
Proof.
  intro H. rewrite (percentChangeOf_nonzero _ _ H).
  rewrite abs_fixed_ge by (apply tenths_nonneg, H).
  rewrite tenths_ge by exact H. lia.
Qed.

Lemma direction_of_significant (previous current : Z) :
  previous <> 0 ->
  399 * Z.abs previous <= 2000 * Z.abs (current - previous) ->
  js_ge (parseFloat (percentChangeOf previous current)) (of_Z 0)
  = negb ((current - previous) * previous <? 0).
Proof.
  intros H Hs. rewrite (percentChangeOf_nonzero _ _ H).
  apply eq_true_iff_eq. rewrite fixed_ge_zero by (apply tenths_nonneg, H).
  rewrite negb_true_iff. split; [|intro E; left; exact E].
  intros [E|E]; [exact E|]. exfalso.
  assert (H1 : 1 <= (2000 * Z.abs (current - previous) + Z.abs previous)
                    / (2 * Z.abs previous)) by (apply tenths_ge; [exact H | lia]).
  lia.
Qed.

Lemma in_significantChangesOf (sortedData : list TrendRow) (change : Change) :
  In change (significantChangesOf sortedData)
  <-> exists previous current,
        In (previous, current) (adjacent sortedData)
        /\ count previous <> 0
        /\ 399 * Z.abs (count previous) <= 2000 * Z.abs (count current - count previous)
        /\ change = {| period := time_period current;
                       previousPeriod := time_period previous;
                       previousValue := count previous;
                       currentValue := count current;
                       c_percentChange := percentChangeOf (count previous) (count current);
                       direction :=
                         if (count current - count previous) * count previous <? 0
                         then "decrease" else "increase" |}.
Proof.
  induction sortedData as [|a l IH]; [simpl; split; [intros [] | intros (? & ? & [] & _)]|].
  destruct l as [|b r]; [simpl; split; [intros [] | intros (? & ? & [] & _)]|].
  change (adjacent (a :: b :: r)) with ((a, b) :: adjacent (b :: r)).
  cbn [significantChangesOf]. fold (significantChangesOf (b :: r)).
  destruct (Z.eqb_spec (count a) 0) as [E0|N0].
  - rewrite IH. split.
    + intros (p & c & Hin & H). exists p, c. split; [right; exact Hin | exact H].
    + intros (p & c & [Hin|Hin] & Hn & H).
      * injection Hin as <- <-. contradiction.
      * exists p, c. split; [exact Hin | split; [exact Hn | exact H]].
  - destruct (js_ge (js_abs (parseFloat (percentChangeOf (count a) (count b)))) (of_Z 20))
      eqn:S.
    + apply (significant_iff _ _ N0) in S.
      rewrite (direction_of_significant _ _ N0 S).
      cbn [In]. rewrite IH. split.
      * intros [<-|(p & c & Hin & H)].
        -- exists a, b. split; [left; reflexivity|]. split; [exact N0|]. split; [exact S|].
           destruct ((count b - count a) * count a <? 0); reflexivity.
        -- exists p, c. split; [right; exact Hin | exact H].
      * intros (p & c & [Hin|Hin] & Hn & Hs & ->).
        -- injection Hin as <- <-. left.
           destruct ((count b - count a) * count a <? 0); reflexivity.
        -- right. exists p, c. repeat split; assumption.
    + rewrite IH. split.
      * intros (p & c & Hin & H). exists p, c. split; [right; exact Hin | exact H].
      * intros (p & c & [Hin|Hin] & Hn & Hs & ->).
        -- injection Hin as <- <-. apply (significant_iff _ _ N0) in Hs. congruence.
        -- exists p, c. repeat split; assumption.
Qed.

Lemma isSignificant_iff (previous current : TrendRow) :
  count previous <> 0 ->
  isSignificant (previous, current)
  = js_ge (js_abs (parseFloat (percentChangeOf (count previous) (count current)))) (of_Z 20).
Proof.
  intro N. unfold isSignificant. cbn [fst snd].
  destruct (Z.eqb_spec (count previous) 0) as [E|_]; [contradiction|]. cbn [negb andb].
  apply eq_true_iff_eq. rewrite (significant_iff _ _ N), Z.leb_le. reflexivity.
Qed.

Lemma outline_significantChangesOf (sortedData : list TrendRow) :
  map outline (significantChangesOf sortedData)
  = map outlineOf (filter isSignificant (adjacent sortedData)).
Proof.
  induction sortedData as [|a l IH]; [reflexivity|].
  destruct l as [|b r]; [reflexivity|].
  change (adjacent (a :: b :: r)) with ((a, b) :: adjacent (b :: r)).
  cbn [significantChangesOf filter]. fold (significantChangesOf (b :: r)).
  destruct (Z.eqb_spec (count a) 0) as [E0|N0].
  - unfold isSignificant at 1. cbn [fst snd]. rewrite E0. cbn [Z.eqb negb andb]. exact IH.
  - rewrite (isSignificant_iff a b N0).
    destruct (js_ge (js_abs (parseFloat (percentChangeOf (count a) (count b)))) (of_Z 20))
      eqn:S; [|exact IH].
    cbn [map]. f_equal; [|exact IH].
    apply (significant_iff _ _ N0) in S.
    rewrite (direction_of_significant _ _ N0 S).
    unfold outline, outlineOf.
    cbn [fst snd previousPeriod period previousValue currentValue direction].
    destruct ((count b - count a) * count a <? 0); reflexivity.
Qed.

Lemma significantChangesOf_entries (sortedData : list TrendRow) :
  Forall (fun change =>
            js_ge (js_abs (parseFloat (c_percentChange change))) (of_Z 20) = true
            /\ (direction change = "increase"
                <-> js_ge (parseFloat (c_percentChange change)) (of_Z 0) = true))
         (significantChangesOf sortedData).
Proof.
  induction sortedData as [|a l IH]; [constructor|].
  destruct l as [|b r]; [constructor|].
  cbn [significantChangesOf]. fold (significantChangesOf (b :: r)).
  destruct (count a =? 0); [exact IH|].
  destruct (js_ge (js_abs (parseFloat (percentChangeOf (count a) (count b)))) (of_Z 20))
    eqn:S; [|exact IH].
  constructor; [|exact IH].
  cbn [c_percentChange direction]. split; [exact S|].
  destruct (js_ge (parseFloat (percentChangeOf (count a) (count b))) (of_Z 0));
    split; intro H; try reflexivity; discriminate H.
Qed.

(** X10.  [significantChanges] has exactly one entry for each pair of
    neighbouring periods, in chronological order, whose earlier count is not
    zero and whose change is at least 19.95 percent of it in absolute value,
    so that it rounds to 20.0 or more: [399 * |previous| <= 2000 * |current -
    previous|].  The entry names the two periods, the two counts and the
    direction, decrease when the quotient is negative.  The percentage that
    an entry carries is at least 20 in absolute value, and the direction is
    increase exactly when it is not negative.  A pair whose earlier count is
    zero is never reported. *)
Theorem significant_change_threshold :
  forall (getMonth : Z -> nat) (data : list TrendRow),
    let changes := significantChanges (analyzeTrendData getMonth (Some data)) in
    map outline changes
    = map outlineOf (filter isSignificant (adjacent (sort_by earlier data)))
    /\ Forall (fun change =>
                 js_ge (js_abs (parseFloat (c_percentChange change))) (of_Z 20) = true
                 /\ (direction change = "increase"
                     <-> js_ge (parseFloat (c_percentChange change)) (of_Z 0) = true))
              changes.
Proof.
  intros getMonth data changes. subst changes.
  destruct data as [|r0 rs]; [split; [reflexivity | constructor]|].
  unfold analyzeTrendData. cbn [significantChanges].
  split; [apply outline_significantChangesOf | apply significantChangesOf_entries].
Qed.


Lemma increasing_from_positive (first final : Z) :
  0 < first ->
  (js_ge (parseFloat (percentChangeOf first final)) (of_Z 0) = true
   <-> 1999 * first < 2000 * final).
Proof.
  intro H. assert (N : first <> 0) by lia.
  rewrite (percentChangeOf_nonzero _ _ N).
  rewrite fixed_ge_zero by (apply tenths_nonneg, N).
  pose proof (tenths_ge (final - first) first 1 N) as T.
  pose proof (tenths_nonneg (final - first) first N) as P.
  destruct (Z.ltb_spec ((final - first) * first) 0) as [L|L].
  - split.
    + intros [E|E]; [discriminate|]. nia.
    + intro G. right.
      destruct (Z_le_gt_dec 1 ((2000 * Z.abs (final - first) + Z.abs first)
                               / (2 * Z.abs first))) as [C|C]; [|lia].
      apply T in C. nia.
  - split; [intros _; nia | intros _; left; reflexivity].
Qed.

Lemma increasing_from_zero (final : Z) :
  js_ge (parseFloat (percentChangeOf 0 final)) (of_Z 0) = true <-> 0 < final.
Proof.
  rewrite percentChangeOf_zero.
  destruct (Z.eqb_spec final 0) as [->|N]; [simpl; split; [discriminate | lia]|].
  cbn [parseFloat js_ge of_Z]. rewrite negb_true_iff, Z.ltb_ge. lia.
Qed.

(** X11.  The label of the overall trend is one of increasing and
    decreasing.  From a positive first count the trend is increasing exactly
    when the change, rounded to one decimal, is not below zero, that is when
    [1999 * first < 2000 * last]; from a first count of zero it is increasing
    exactly when the last count is positive, and a series that starts and
    ends at zero has the percentage NaN and is labelled decreasing. *)
Theorem trend_label_rule :
  forall (getMonth : Z -> nat) (data : list TrendRow),
    match trendStats (analyzeTrendData getMonth (Some data)) with
    | None => data = []
    | Some stats =>
        (trend stats = "increasing" \/ trend stats = "decreasing")
        /\ (0 < firstValue stats ->
            (trend stats = "increasing" <-> 1999 * firstValue stats < 2000 * lastValue stats))
        /\ (firstValue stats = 0 ->
            (trend stats = "increasing" <-> 0 < lastValue stats))
        /\ (firstValue stats = 0 -> lastValue stats = 0 ->
            render (percentChange stats) = "NaN" /\ trend stats = "decreasing")
    end.
Proof.
  intros getMonth data.
  destruct data as [|r0 rs]; [reflexivity|].
  unfold analyzeTrendData.
  pose proof (sort_by_perm earlier (r0 :: rs)) as HP.
  destruct (sort_by earlier (r0 :: rs)) as [|first rest] eqn:E.
  - apply Permutation_nil in HP. discriminate.
  - cbn [trendStats trend firstValue lastValue percentChange].
    set (f := count first). set (l := count (last (first :: rest) first)).
    assert (T : forall b : bool,
               (if b then "increasing" else "decreasing") = "increasing" <-> b = true).
    { intros [|]; split; [reflexivity | reflexivity | discriminate | discriminate]. }
    split; [destruct (js_ge _ _); [left | right]; reflexivity|].
    split; [intro H; rewrite T; apply increasing_from_positive, H|].
    split; [intro H; rewrite T, H; apply increasing_from_zero|].
    intros H0 H1. rewrite H0, H1. split; reflexivity.
Qed.

Lemma movingAverageOf_length (sortedData : list TrendRow) :
  List.length (movingAverageOf sortedData) = (List.length sortedData - 2)%nat.
Proof.
  induction sortedData as [|a l IH]; [reflexivity|].
  destruct l as [|b [|c r]]; [reflexivity | reflexivity |].
  change (movingAverageOf (a :: b :: c :: r))
    with ((time_period c, inject_Z (count c + count b + count a) / 3)%Q
          :: movingAverageOf (b :: c :: r)).
  cbn [List.length] in *. rewrite IH. lia.
Qed.

Lemma movingAverageOf_nth (sortedData : list TrendRow) :
  forall (i : nat) (a b c : TrendRow),
    nth_error sortedData i = Some a ->
    nth_error sortedData (S i) = Some b ->
    nth_error sortedData (S (S i)) = Some c ->
    nth_error (movingAverageOf sortedData) i
    = Some (time_period c, (inject_Z (count c + count b + count a) / 3)%Q).
Proof.
  induction sortedData as [|x l IH]; intros i a b c Ha Hb Hc; [destruct i; discriminate|].
  destruct l as [|y [|z r]]; [destruct i; discriminate | destruct i as [|[|i]]; discriminate |].
  change (movingAverageOf (x :: y :: z :: r))
    with ((time_period z, inject_Z (count z + count y + count x) / 3)%Q
          :: movingAverageOf (y :: z :: r)).
  destruct i as [|i].
  - cbn in Ha, Hb, Hc. injection Ha as <-. injection Hb as <-. injection Hc as <-.
    reflexivity.
  - cbn [nth_error]. apply IH; assumption.
Qed.

(** X12.  The moving average has two points fewer than there are rows
    (none below three rows); its i-th point is dated at the (i+2)-th period in
    chronological order and is the arithmetic mean of the counts of that
    period and the two before it. *)
Theorem moving_average_windows :
  forall (getMonth : Z -> nat) (data : list TrendRow),
    match movingAverage (analyzeTrendData getMonth (Some data)) with
    | None => data = []
    | Some average =>
        List.length average = (List.length data - 2)%nat
        /\ forall (i : nat) (a b c : TrendRow),
             nth_error (sort_by earlier data) i = Some a ->
             nth_error (sort_by earlier data) (S i) = Some b ->
             nth_error (sort_by earlier data) (S (S i)) = Some c ->
             nth_error average i
             = Some (time_period c, (inject_Z (count c + count b + count a) / 3)%Q)
    end.
Proof.
  intros getMonth data.
  destruct data as [|r0 rs]; [reflexivity|].
  unfold analyzeTrendData. cbn [movingAverage].
  split.
  - rewrite movingAverageOf_length, length_sort_by. reflexivity.
  - apply movingAverageOf_nth.
Qed.

End TrendFacts.

(** ** The trend detector *)

Module TrendPatternsFacts.
Import Js JsFacts ArrayFacts PercentFacts TrendAnalysis TrendPatterns TrendFacts.

Lemma seasonalityOf_fires (getMonth : Z -> nat) (sortedData : list TrendRow) :
  truthy (seasonalityOf getMonth sortedData)
  && negb (String.eqb (seasonalityOf getMonth sortedData) "none detected")
  && negb (String.eqb (seasonalityOf getMonth sortedData) "insufficient data")
  = true.
Proof.
  unfold seasonalityOf.
  destruct (Nat.leb 24 (List.length sortedData)); [|reflexivity].
  destruct (seasonalMonthsOf (monthlyAverages getMonth sortedData)); reflexivity.
Qed.

(** X13.  Composed with [analyzeTrendData], [detectTrendPatterns] reports a
    seasonal_pattern finding for every non-empty row set, whatever the
    analysis found: the texts the analysis writes are none of the two
    literals the detector excludes.  With fewer than 24 periods the finding's
    description is the text about insufficient data. *)
Theorem seasonality_finding_always_reported :
  forall (getMonth : Z -> nat) (toLocaleDateString : Z -> string) (data : list TrendRow),
    match TrendPatterns.seasonality
            (detectTrendPatterns toLocaleDateString (analyzeTrendData getMonth (Some data)))
    with
    | Some finding =>
        type finding = "seasonal_pattern"
        /\ description finding = seasonalityOf getMonth (sort_by earlier data)
        /\ ((List.length data < 24)%nat ->
            description finding = "insufficient data for seasonality analysis")
    | None => data = []
    end.
Proof.
  intros getMonth toLocaleDateString data.
  destruct data as [|r0 rs]; [reflexivity|].
  unfold analyzeTrendData, detectTrendPatterns.
  cbn [TrendAnalysis.seasonality TrendPatterns.seasonality].
  rewrite seasonalityOf_fires. cbn [type description].
  split; [reflexivity|]. split; [reflexivity|].
  intro H. unfold seasonalityOf. rewrite length_sort_by.
  destruct (Nat.leb_spec 24 (List.length (r0 :: rs))); [lia | reflexivity].
Qed.

Lemma fold_moreSignificant (k : Change -> Q) (rest : list Change) :
  forall first : Change,
    (forall c, In c (first :: rest) ->
               js_abs (parseFloat (c_percentChange c)) = JNum (k c)) ->
    In (fold_left moreSignificant rest first) (first :: rest)
    /\ forall c, In c (first :: rest) ->
                 (k c <= k (fold_left moreSignificant rest first))%Q.
Proof.
  induction rest as [|x r IH]; intros first Hk.
  - cbn [fold_left]. split; [left; reflexivity|].
    intros c [<-|[]]. apply Qle_refl.
  - cbn [fold_left].
    assert (Hy : moreSignificant first x
                 = if Qlt_bool (k x) (k first) then first else x).
    { unfold moreSignificant.
      rewrite (Hk first (or_introl eq_refl)), (Hk x (or_intror (or_introl eq_refl))).
      reflexivity. }
    set (y := moreSignificant first x) in *.
    assert (Hin : y = first \/ y = x).
    { rewrite Hy. destruct (Qlt_bool (k x) (k first)); [left | right]; reflexivity. }
    destruct (IH y) as (Hm & Hmax).
    { intros c [<-|Hc].
      - destruct Hin as [->| ->]; apply Hk; [left | right; left]; reflexivity.
      - apply Hk. right. right. exact Hc. }
    split.
    + destruct Hm as [E|Hm].
      * rewrite <- E. destruct Hin as [->| ->]; [left | right; left]; reflexivity.
      * right. right. exact Hm.
    + intros c [<-|[<-|Hc]].
      * apply Qle_trans with (k y); [|apply Hmax; left; reflexivity].
        rewrite Hy. destruct (Qlt_bool (k x) (k first)) eqn:E; [apply Qle_refl|].
        unfold Qlt_bool in E. apply negb_false_iff, Qle_bool_iff in E. exact E.
      * apply Qle_trans with (k y); [|apply Hmax; left; reflexivity].
        rewrite Hy. destruct (Qlt_bool (k x) (k first)) eqn:E; [|apply Qle_refl].
        apply Qlt_bool_iff in E. apply Qlt_le_weak, E.
      * apply Hmax. right. exact Hc.
Qed.

Lemma analyzed_changes_finite (sortedData : list TrendRow) (c : Change) :
  In c (significantChangesOf sortedData) ->
  exists q, js_abs (parseFloat (c_percentChange c)) = JNum q.
Proof.
  intro H. apply in_significantChangesOf in H.
  destruct H as (p & cur & _ & Hn & _ & ->). cbn [c_percentChange].
  rewrite (percentChangeOf_nonzero _ _ Hn). eexists. reflexivity.
Qed.

(** X14.  Composed with [analyzeTrendData], [detectTrendPatterns] reports at
    most one significant_change anomaly, none exactly when there is no
    significant change; the change it carries is one of [significantChanges]
    and no other significant change has a larger absolute percentage. *)
Theorem most_significant_change_is_largest :
  forall (getMonth : Z -> nat) (toLocaleDateString : Z -> string) (data : list TrendRow),
    let results := analyzeTrendData getMonth (Some data) in
    match anomalies (detectTrendPatterns toLocaleDateString results) with
    | [] => significantChanges results = []
    | [finding] =>
        type finding = "significant_change"
        /\ exists change,
             TrendPatterns.data finding = SignificantChangeData change
             /\ In change (significantChanges results)
             /\ forall other,
                  In other (significantChanges results) ->
                  js_gt (js_abs (parseFloat (c_percentChange other)))
                        (js_abs (parseFloat (c_percentChange change))) = false
    | _ => False
    end.
Proof.
  intros getMonth toLocaleDateString data. cbv zeta.
  unfold detectTrendPatterns. cbn [anomalies].
  assert (F : forall c, In c (significantChanges (analyzeTrendData getMonth (Some data))) ->
                        exists q, js_abs (parseFloat (c_percentChange c)) = JNum q).
  { destruct data as [|r0 rs]; [intros c []|].
    unfold analyzeTrendData. cbn [significantChanges]. apply analyzed_changes_finite. }
  destruct (significantChanges (analyzeTrendData getMonth (Some data))) as [|first rest];
    [reflexivity|].
  cbn [changeFindings type TrendPatterns.data]. split; [reflexivity|].
  set (k := fun c : Change =>
              match js_abs (parseFloat (c_percentChange c)) with
              | JNum q => q
              | _ => 0%Q
              end).
  assert (Hk : forall c, In c (first :: rest) ->
                         js_abs (parseFloat (c_percentChange c)) = JNum (k c)).
  { intros c Hc. destruct (F c Hc) as (q & E). unfold k. rewrite E. reflexivity. }
  destruct (fold_moreSignificant k rest first Hk) as (Hin & Hmax).
  eexists. split; [reflexivity|]. split; [exact Hin|].
  intros other Ho. rewrite (Hk other Ho), (Hk _ Hin). cbn [js_gt].
  unfold Qlt_bool. apply negb_false_iff, Qle_bool_iff, Hmax, Ho.
Qed.

(** *** Runs *)

Section Runs.
Context {A : Type} (p : A -> bool).

Lemma runStep_max (l : list A) :
  forall st, (snd st <= snd (fold_left (runStep p) l st))%nat.
Proof.
  induction l as [|x r IH]; intro st; [apply Nat.le_refl|].
  cbn [fold_left]. eapply Nat.le_trans; [|apply IH].
  unfold runStep. destruct (p x); cbn [snd]; lia.
Qed.

Lemma runStep_run (run : list A) :
  forallb p run = true ->
  forall st,
    fold_left (runStep p) run st
    = ((fst st + List.length run)%nat,
       Nat.max (snd st) (if List.length run =? 0 then snd st
                         else fst st + List.length run)%nat).
Proof.
  induction run as [|x r IH]; intros Hall [c m].
  - cbn. f_equal; lia.
  - cbn [forallb] in Hall. apply andb_true_iff in Hall. destruct Hall as (Hx & Hr).
    cbn [fold_left]. unfold runStep at 2. rewrite Hx. rewrite (IH Hr).
    cbn [fst snd List.length].
    destruct (Nat.eqb_spec (List.length r) 0) as [E|N];
      change (S (List.length r) =? 0)%nat with false; cbv iota; f_equal; lia.
Qed.

Lemma hasRun_counted (n : nat) (l : list A) :
  hasRun n p l -> (n <= snd (fold_left (runStep p) l (O, O)))%nat.
Proof.
  intros (before & run & after & -> & Hlen & Hall).
  rewrite !fold_left_app.
  eapply Nat.le_trans; [|apply runStep_max].
  rewrite (runStep_run run Hall). cbn [snd fst]. rewrite Hlen.
  destruct (Nat.eqb_spec n 0); lia.
Qed.

Lemma forallb_firstn (n : nat) (l : list A) :
  forallb p l = true -> forallb p (firstn n l) = true.
Proof.
  revert n. induction l as [|x r IH]; intros n H; [destruct n; reflexivity|].
  destruct n; [reflexivity|]. cbn [firstn forallb] in *.
  apply andb_true_iff in H. destruct H as (Hx & Hr). rewrite Hx. apply IH, Hr.
Qed.

Lemma hasRun_shorter (n m : nat) (l : list A) :
  (n <= m)%nat -> hasRun m p l -> hasRun n p l.
Proof.
  intros Hle (before & run & after & -> & Hlen & Hall).
  exists before, (firstn n run), (skipn n run ++ after)%list.
  split; [|split].
  - rewrite app_assoc, (app_assoc (firstn n run)), firstn_skipn, <- app_assoc. reflexivity.
  - rewrite length_firstn. lia.
  - apply forallb_firstn, Hall.
Qed.

Lemma hasRun_snoc (n : nat) (l : list A) (x : A) :
  hasRun n p l -> hasRun n p (l ++ [x]).
Proof.
  intros (before & run & after & -> & Hlen & Hall).
  exists before, run, (after ++ [x])%list.
  split; [|split; assumption]. rewrite <- !app_assoc. reflexivity.
Qed.

Lemma counted_hasRun (l : list A) :
  (exists before run,
      l = (before ++ run)%list
      /\ List.length run = fst (fold_left (runStep p) l (O, O))
      /\ forallb p run = true)
  /\ hasRun (snd (fold_left (runStep p) l (O, O))) p l.
Proof.
  induction l as [|x l IH] using rev_ind.
  - cbn. split.
    + exists [], []. repeat split.
    + exists [], [], []. repeat split.
  - rewrite fold_left_app. cbn [fold_left].
    destruct IH as ((before & run & El & Hlen & Hall) & Hmax).
    destruct (fold_left (runStep p) l (O, O)) as [c m]. cbn [fst snd] in *.
    unfold runStep. cbn [fst snd].
    destruct (p x) eqn:Hx; cbn [fst snd].
    + assert (Hrun : exists before0 run0,
                 (l ++ [x])%list = (before0 ++ run0)%list
                 /\ List.length run0 = (c + 1)%nat /\ forallb p run0 = true).
      { exists before, (run ++ [x])%list. split; [|split].
        - rewrite El, <- app_assoc. reflexivity.
        - rewrite length_app. cbn [List.length]. lia.
        - rewrite forallb_app, Hall. cbn. rewrite Hx. reflexivity. }
      split; [exact Hrun|].
      destruct (Nat.max_spec m (c + 1)) as [[_ E]|[_ E]]; rewrite E.
      * destruct Hrun as (b0 & r0 & E0 & L0 & A0).
        exists b0, r0, []. rewrite app_nil_r. repeat split; assumption.
      * apply hasRun_snoc, Hmax.
    + split.
      * exists (l ++ [x])%list, []. rewrite app_nil_r. repeat split.
      * apply hasRun_snoc, Hmax.
Qed.

Lemma run_counter_iff (n : nat) (l : list A) :
  (n <= snd (fold_left (runStep p) l (O, O)))%nat <-> hasRun n p l.
Proof.
  split.
  - intro H. eapply hasRun_shorter; [exact H | apply counted_hasRun].
  - apply hasRun_counted.
Qed.

End Runs.

Lemma countRun_increases (l : list Change) :
  forall runs,
    (consecutiveIncreases (fold_left countRun l runs),
     maxConsecutiveIncreases (fold_left countRun l runs))
    = fold_left (runStep isIncrease) l
                (consecutiveIncreases runs, maxConsecutiveIncreases runs).
Proof.
  induction l as [|x r IH]; intro runs; [reflexivity|].
  cbn [fold_left]. rewrite IH. f_equal.
  unfold countRun, runStep, isIncrease.
  destruct (String.eqb (direction x) "increase"); reflexivity.
Qed.

Lemma countRun_decreases (l : list Change) :
  forall runs,
    (consecutiveDecreases (fold_left countRun l runs),
     maxConsecutiveDecreases (fold_left countRun l runs))
    = fold_left (runStep (fun c => negb (isIncrease c))) l
                (consecutiveDecreases runs, maxConsecutiveDecreases runs).
Proof.
  induction l as [|x r IH]; intro runs; [reflexivity|].
  cbn [fold_left]. rewrite IH. f_equal.
  unfold countRun, runStep, isIncrease.
  destruct (String.eqb (direction x) "increase"); reflexivity.
Qed.

Lemma reports_app (kind : string) (l1 l2 : list TrendFinding) :
  reports kind (l1 ++ l2)%list <-> reports kind l1 \/ reports kind l2.
Proof.
  unfold reports. split.
  - intros (f & Hin & E). apply in_app_or in Hin.
    destruct Hin; [left | right]; exists f; split; assumption.
  - intros [(f & Hin & E)|(f & Hin & E)]; exists f; (split; [|exact E]);
      apply in_or_app; [left | right]; exact Hin.
Qed.

Lemma reports_nil (kind : string) : reports kind [] <-> False.
Proof. split; [intros (f & [] & _) | intros []]. Qed.

Lemma reports_one (kind : string) (f : TrendFinding) :
  reports kind [f] <-> type f = kind.
Proof.
  split.
  - intros (g & [<-|[]] & E). exact E.
  - intro E. exists f. split; [left; reflexivity | exact E].
Qed.

(** X15.  For every analysis result, [detectTrendPatterns] reports
    consecutive_increases exactly when three neighbouring entries of
    [significantChanges] all have the direction increase, and
    consecutive_decreases exactly when three neighbouring entries all have
    another direction. *)
Theorem consecutive_runs_rule :
  forall (toLocaleDateString : Z -> string) (results : TrendResults),
    let findings := significantPatterns (detectTrendPatterns toLocaleDateString results) in
    (reports "consecutive_increases" findings
     <-> hasRun 3 isIncrease (significantChanges results))
    /\ (reports "consecutive_decreases" findings
        <-> hasRun 3 (fun change => negb (isIncrease change)) (significantChanges results)).
Proof.
  intros toLocaleDateString results. cbv zeta.
  unfold detectTrendPatterns. cbn [significantPatterns].
  set (overall := match trendStats results with Some _ => _ | None => _ end).
  assert (Ho : forall kind, kind <> "overall_trend" -> ~ reports kind overall).
  { intros kind Hk (f & Hin & E). unfold overall in Hin.
    destruct (trendStats results) as [st|]; [|destruct Hin].
    destruct (truthy (trend st)); [|destruct Hin].
    destruct Hin as [<-|[]]. cbn in E. congruence. }
  pose proof (run_counter_iff isIncrease 3 (significantChanges results)) as HI.
  pose proof (run_counter_iff (fun c => negb (isIncrease c)) 3 (significantChanges results))
    as HD.
  rewrite <- HI, <- HD. clear HI HD.
  pose proof (countRun_increases (significantChanges results)
                {| consecutiveIncreases := 0; consecutiveDecreases := 0;
                   maxConsecutiveIncreases := 0; maxConsecutiveDecreases := 0 |}) as EI.
  pose proof (countRun_decreases (significantChanges results)
                {| consecutiveIncreases := 0; consecutiveDecreases := 0;
                   maxConsecutiveIncreases := 0; maxConsecutiveDecreases := 0 |}) as ED.
  cbn [consecutiveIncreases maxConsecutiveIncreases consecutiveDecreases
       maxConsecutiveDecreases] in EI, ED.
  rewrite <- EI, <- ED. cbn [snd]. clear EI ED.
  rewrite !reports_app.
  unfold runFindings. fold (countRuns (significantChanges results)).
  destruct (significantChanges results) as [|c0 cs] eqn:EC.
  - cbn. rewrite !reports_nil. split; split; try lia; intros [H|[]];
      exfalso; eapply Ho; try exact H; discriminate.
  - set (runs := countRuns (c0 :: cs)).
    rewrite !reports_app.
    split; split.
    + intros [H|[H|H]].
      * exfalso. eapply Ho; [|exact H]. discriminate.
      * destruct (Nat.leb_spec 3 (maxConsecutiveIncreases runs)); [assumption|].
        apply reports_nil in H. destruct H.
      * destruct (Nat.leb 3 (maxConsecutiveDecreases runs));
          [apply reports_one in H; discriminate | apply reports_nil in H; destruct H].
    + intro H. right. left.
      destruct (Nat.leb_spec 3 (maxConsecutiveIncreases runs)); [|lia].
      apply reports_one. reflexivity.
    + intros [H|[H|H]].
      * exfalso. eapply Ho; [|exact H]. discriminate.
      * destruct (Nat.leb 3 (maxConsecutiveIncreases runs));
          [apply reports_one in H; discriminate | apply reports_nil in H; destruct H].
      * destruct (Nat.leb_spec 3 (maxConsecutiveDecreases runs)); [assumption|].
        apply reports_nil in H. destruct H.
    + intro H. right. right.
      destruct (Nat.leb_spec 3 (maxConsecutiveDecreases runs)); [|lia].
      apply reports_one. reflexivity.
Qed.

End TrendPatternsFacts.

(** ** From the structured query to the database query *)

Module DataRetrievalFacts.
Import Js Query Nlp DataRetrieval.

Lemma periods_dated (tables : list string) (tableName : string) :
  (forall s e, periodFilters tables (PeriodRange s e)
               = if truthy s && truthy e then [rangeFilter tableName s e] else []) ->
  forall periods,
    flat_map (periodFilters tables) periods
    = map (fun range => rangeFilter tableName (fst range) (snd range))
          (resolvedRanges periods).
Proof.
  intros H periods. unfold resolvedRanges.
  induction periods as [|p r IH]; [reflexivity|].
  cbn [flat_map]. rewrite IH, map_app. f_equal.
  destruct p as [phrase|s e]; [reflexivity|].
  rewrite H. destruct (truthy s && truthy e); reflexivity.
Qed.

Lemma periods_undated (tables : list string) :
  (forall p, periodFilters tables p = []) ->
  forall periods, flat_map (periodFilters tables) periods = [].
Proof.
  intros H periods. induction periods as [|p r IH]; [reflexivity|].
  cbn [flat_map]. rewrite H, IH. reflexivity.
Qed.

Lemma periodFilters_of (queryType : option string) (periods : list TimePeriod) :
  flat_map (periodFilters (tablesOf queryType)) periods
  = match datedTable queryType with
    | Some tableName =>
        map (fun range => rangeFilter tableName (fst range) (snd range))
            (resolvedRanges periods)
    | None => []
    end
  /\ (forall tableName, datedTable queryType = Some tableName ->
                        In tableName (tablesOf queryType))
  /\ tablesOf queryType <> [].
Proof.
  assert (U : forall p, periodFilters ["pluto"] p = []).
  { intros [phrase|s e]; [reflexivity|].
    cbn. destruct (truthy s && truthy e); reflexivity. }
  destruct queryType as [t|];
    [|split; [apply periods_undated, U | split; [discriminate | discriminate]]].
  unfold tablesOf, datedTable.
  destruct (String.eqb t "risk_assessment") eqn:E1.
  { cbn [orb]. split; [|split; [intros ? [= <-]; cbn; auto | discriminate]].
    apply periods_dated. intros s e. cbn. destruct (truthy s && truthy e); reflexivity. }
  destruct (String.eqb t "trend_analysis") eqn:E2.
  { apply String.eqb_eq in E2. subst t. cbn [String.eqb Ascii.eqb Bool.eqb orb].
    split; [|split; [intros ? [= <-]; cbn; auto | discriminate]].
    apply periods_dated. intros s e. cbn. destruct (truthy s && truthy e); reflexivity. }
  destruct (String.eqb t "violation_search") eqn:E3.
  { cbn [orb]. split; [|split; [intros ? [= <-]; cbn; auto | discriminate]].
    apply periods_dated. intros s e. cbn. destruct (truthy s && truthy e); reflexivity. }
  destruct (String.eqb t "building_lookup") eqn:E4.
  { apply String.eqb_eq in E4. subst t. cbn [String.eqb Ascii.eqb Bool.eqb orb].
    split; [apply periods_undated, U | split; [discriminate | discriminate]]. }
  destruct (String.eqb t "comparison") eqn:E5.
  { cbn [orb]. split; [|split; [intros ? [= <-]; cbn; auto | discriminate]].
    apply periods_dated. intros s e. cbn. destruct (truthy s && truthy e); reflexivity. }
  cbn [orb].
  destruct (String.eqb t "general_stats");
    (split; [apply periods_undated, U | split; [discriminate | discriminate]]).
Qed.

Lemma buildDatabaseQuery_filters (structuredQuery : StructuredQuery) :
  db_filters (buildDatabaseQuery structuredQuery)
  = (map locationFilter (listed (locations (entities structuredQuery)))
     ++ map buildingTypeFilter (listed (buildingTypes (entities structuredQuery)))
     ++ match datedTable (queryType structuredQuery) with
        | Some tableName =>
            map (fun range => rangeFilter tableName (fst range) (snd range))
                (resolvedRanges (listed (timePeriods (entities structuredQuery))))
        | None => []
        end
     ++ filters structuredQuery)%list.
Proof.
  unfold buildDatabaseQuery. cbn [db_filters].
  destruct (periodFilters_of (queryType structuredQuery)
                             (listed (timePeriods (entities structuredQuery))))
    as (HF & _).
  rewrite <- HF.
  destruct (locations (entities structuredQuery)),
           (buildingTypes (entities structuredQuery)),
           (timePeriods (entities structuredQuery)); reflexivity.
Qed.

(** X16.  The filters of [buildDatabaseQuery] are, in this order: one
    equality on [pluto.borough] per location, one LIKE on [pluto.bldgclass]
    per building type, one BETWEEN on [issueddate] per time period that is a
    range with both ends, and the query's own filters, unchanged.  The BETWEEN
    filters are on [hpd_violations] for the intents risk_assessment,
    violation_search and comparison, on [dob_permits] for trend_analysis, and
    there is none for any other intent: there the time periods do not
    constrain the query.  The constrained table is one of [tables], which is
    never empty, and the limit is never 0. *)
Theorem time_periods_constrain_dated_tables_only :
  forall (structuredQuery : StructuredQuery),
    let dbQuery := buildDatabaseQuery structuredQuery in
    db_filters dbQuery
    = (map locationFilter (listed (locations (entities structuredQuery)))
       ++ map buildingTypeFilter (listed (buildingTypes (entities structuredQuery)))
       ++ match datedTable (queryType structuredQuery) with
          | Some tableName =>
              map (fun range => rangeFilter tableName (fst range) (snd range))
                  (resolvedRanges (listed (timePeriods (entities structuredQuery))))
          | None => []
          end
       ++ filters structuredQuery)%list
    /\ (forall tableName,
          datedTable (queryType structuredQuery) = Some tableName ->
          In tableName (tables dbQuery))
    /\ tables dbQuery <> []
    /\ db_limit dbQuery <> 0.
Proof.
  intro q. cbv zeta. unfold buildDatabaseQuery. cbn [db_filters tables db_limit].
  destruct (periodFilters_of (queryType q) (listed (timePeriods (entities q))))
    as (HF & HT & HN).
  split; [|split; [exact HT | split; [exact HN|]]].
  - apply buildDatabaseQuery_filters.
  - destruct (Z.eqb_spec (limit q) 0); [discriminate | assumption].
Qed.


Lemma truthy_app_r (a b : string) : truthy b = true -> truthy (a ++ b) = true.
Proof.
  intro H. destruct a as [|c a]; [exact H | reflexivity].
Qed.

Lemma mapResult_ok {A B : Type} (f : A -> Result B) (g : A -> B) (l : list A) :
  (forall x, In x l -> f x = Ok (g x)) -> mapResult f l = Ok (map g l).
Proof.
  induction l as [|x r IH]; intro H; [reflexivity|].
  cbn [mapResult map]. rewrite (H x (or_introl eq_refl)). cbn [bind].
  rewrite IH by (intros y Hy; apply H; right; exact Hy). reflexivity.
Qed.

Lemma in_resolvedRanges (periods : list TimePeriod) (s e : string) :
  In (PeriodRange s e) periods -> truthy s = true -> truthy e = true ->
  In (s, e) (resolvedRanges periods).
Proof.
  intros Hin Hs He. unfold resolvedRanges. apply in_flat_map.
  exists (PeriodRange s e). split; [exact Hin|]. rewrite Hs, He. left. reflexivity.
Qed.

(** X17.  Interpretation composed with retrieval: when the time periods of
    a query are phrases and the intent reads a dated table,
    [validateAndNormalizeQuery] succeeds, and [buildDatabaseQuery] of its
    result constrains [issueddate] of that table to the previous calendar
    year for a phrase that contains last year (in any letter case), and to
    the span from 1 January five years back to 31 December of the current
    year for one that contains past five years instead. *)
Theorem relative_period_becomes_calendar_range :
  forall (currentYear : Z) (query : StructuredQuery) (periods : list TimePeriod)
         (phrase tableName : string),
    timePeriods (entities query) = Some periods ->
    allPhrases periods ->
    In (PeriodText phrase) periods ->
    datedTable (queryType query) = Some tableName ->
    exists normalized,
      validateAndNormalizeQuery currentYear query = Ok normalized
      /\ (includes (toLowerCase phrase) "last year" = true ->
          In (rangeFilter tableName
                         (string_of_Z (currentYear - 1) ++ "-01-01")
                         (string_of_Z (currentYear - 1) ++ "-12-31"))
             (db_filters (buildDatabaseQuery normalized)))
      /\ (includes (toLowerCase phrase) "last year" = false ->
          includes (toLowerCase phrase) "past five years" = true ->
          In (rangeFilter tableName
                         (string_of_Z (currentYear - 5) ++ "-01-01")
                         (string_of_Z currentYear ++ "-12-31"))
             (db_filters (buildDatabaseQuery normalized))).
Proof.
  intros currentYear query periods phrase tableName Hp Hall Hin Hd.
  set (g := fun p => match normalizePeriod currentYear p with
                     | Ok r => r
                     | Throw _ => p
                     end).
  assert (Hmap : mapResult (normalizePeriod currentYear) periods = Ok (map g periods)).
  { apply mapResult_ok. intros x Hx. unfold allPhrases in Hall.
    rewrite Forall_forall in Hall. destruct (Hall x Hx) as (ph & ->).
    unfold g, normalizePeriod.
    destruct (includes (toLowerCase ph) "last year"); [reflexivity|].
    destruct (includes (toLowerCase ph) "past five years"); reflexivity. }
  unfold validateAndNormalizeQuery.
  set (e1 := match locations (entities query) with
             | Some l => set_locations (Some (map normalizeLocation l)) (entities query)
             | None => entities query
             end).
  assert (He1 : timePeriods e1 = Some periods).
  { unfold e1. destruct (locations (entities query)); exact Hp. }
  rewrite He1, Hmap. cbn [bind].
  eexists. split; [reflexivity|].
  assert (Hfilters : forall s e,
             In (PeriodRange s e) (map g periods) -> truthy s = true -> truthy e = true ->
             In (rangeFilter tableName s e)
                (db_filters (buildDatabaseQuery
                               (set_entities (set_timePeriods (Some (map g periods)) e1)
                                             query)))).
  { intros s e Hr Hs He.
    rewrite buildDatabaseQuery_filters. cbn [set_entities set_timePeriods entities timePeriods queryType listed].
    rewrite Hd.
    apply in_or_app. right. apply in_or_app. right. apply in_or_app. left.
    apply in_map_iff. exists (s, e). split; [reflexivity|].
    apply in_resolvedRanges; assumption. }
  assert (Hg : In (g (PeriodText phrase)) (map g periods)) by (apply in_map, Hin).
  split.
  - intro L. apply Hfilters; [|apply truthy_app_r; reflexivity ..].
    unfold g, normalizePeriod in Hg. rewrite L in Hg. exact Hg.
  - intros L P. apply Hfilters; [|apply truthy_app_r; reflexivity ..].
    unfold g, normalizePeriod in Hg. rewrite L, P in Hg. exact Hg.
Qed.

(** The theorem at a violation question about last year, asked in 2026. *)
Lemma relative_period_becomes_calendar_range_witness :
  exists normalized,
    validateAndNormalizeQuery 2026 Samples.lastYearQuery = Ok normalized
    /\ In (rangeFilter "hpd_violations" "2025-01-01" "2025-12-31")
          (db_filters (buildDatabaseQuery normalized)).
Proof.
  destruct (relative_period_becomes_calendar_range
              2026 Samples.lastYearQuery [PeriodText "Last year"] "Last year"
              "hpd_violations" eq_refl
              (Forall_cons _ (ex_intro _ "Last year" eq_refl) (Forall_nil _))
              (or_introl eq_refl) eq_refl)
    as (normalized & Hn & Hlast & _).
  exists normalized. split; [exact Hn | exact (Hlast eq_refl)].
Defined.

End DataRetrievalFacts.

(** ** The statement that the retrieval service sends *)

Module RetrievalStatementFacts.
Import Js Query QueryBuilder DataRetrieval.

(** C6.  The retrieval service does not bind the values of its filters.
    For the Brooklyn risk query [buildDatabaseQuery] yields one filter, the
    equality of [pluto.borough] with Brooklyn; [buildWhereClause] writes the
    value into the clause, between quotes, and [retrieveRiskAssessmentData]
    hands [pool.query] the text alone, with no value bound, where
    [buildRiskAssessmentQuery] compiles the same filter to
    [pluto.borough = $1] and binds the value.  A location with an
    apostrophe ends the quoted value early.  No statement of
    [retrieveRiskAssessmentData] binds a value, and every filter with the
    operator [=] is written with its value in the text. *)
Theorem retrieval_writes_values_into_the_statement :
  forall (otherClause : Filter -> string) (joinClauses : list string -> string),
    (let dbQuery := buildDatabaseQuery Samples.brooklynRiskQuery in
     db_filters dbQuery = [Samples.boroughFilter]
     /\ map (clauseOf otherClause) (db_filters dbQuery) = ["pluto.borough = 'Brooklyn'"]
     /\ buildWhereClause otherClause joinClauses (db_filters dbQuery)
        = joinClauses ["pluto.borough = 'Brooklyn'"]
     /\ snd (riskAssessmentStatement otherClause joinClauses dbQuery) = []
     /\ let built := buildRiskAssessmentQuery
                       {| qp_filters := db_filters dbQuery;
                          qp_limit := Some (db_limit dbQuery) |} in
        includes (query built) "pluto.borough = $1" = true
        /\ includes (query built) "Brooklyn" = false
        /\ boundParams built = [VScalar (SString "Brooklyn"); VScalar (SNumber 100)])
    /\ map (clauseOf otherClause) (db_filters (buildDatabaseQuery Samples.hellsKitchenQuery))
       = ["pluto.borough = 'Hell's Kitchen'"]
    /\ (forall dbQuery : DbQuery,
           snd (riskAssessmentStatement otherClause joinClauses dbQuery) = []
           /\ forall filter : Filter,
                operator filter = "=" ->
                clauseOf otherClause filter
                = table filter ++ "." ++ column filter ++ " = '"
                  ++ showValue (value filter) ++ "'").
Proof.
  intros otherClause joinClauses. split; [|split].
  - cbv zeta. repeat split; try reflexivity; vm_compute; reflexivity.
  - reflexivity.
  - intro dbQuery. split; [reflexivity|].
    intros filter H. unfold clauseOf. rewrite H. reflexivity.
Qed.

End RetrievalStatementFacts.

(** ** Refinement suggestions *)

Module RefinementFacts.
Import Js Query Nlp Refinement.

(** X18.  [generateRefinementSuggestions] returns between 2 and 5
    suggestions, the first of which asks for more details.  When the query
    names a location, the last suggestion proposes a comparison with a
    borough of the canonical list that is not the query's first location;
    when it names none, no suggestion proposes a comparison. *)
Theorem comparison_suggestion_names_another_borough :
  forall (structuredQuery : StructuredQuery) (responseData : option nat),
    let suggestions := generateRefinementSuggestions structuredQuery responseData in
    let original := InsightGenerator.show_opt "undefined" (originalQuery structuredQuery) in
    (2 <= List.length suggestions <= 5)%nat
    /\ hd_error suggestions
       = Some {| text := "Tell me more details about this";
                 query := "Tell me more details about " ++ original |}
    /\ match locations (entities structuredQuery) with
       | Some (currentLocation :: _) =>
           exists other,
             In other canonicalBoroughs
             /\ other <> currentLocation
             /\ last suggestions {| text := ""; query := "" |}
                = {| text := "Compare with " ++ other;
                     query := "Compare " ++ original ++ " with " ++ other |}
       | _ =>
           forall suggestion other,
             In suggestion suggestions -> text suggestion <> "Compare with " ++ other
       end.
Proof.
  intros q n. cbv zeta. unfold generateRefinementSuggestions.
  set (original := InsightGenerator.show_opt "undefined" (originalQuery q)).
  set (top := match n with Some _ => _ | None => _ end).
  set (byType := match queryType q with Some _ => _ | None => _ end).
  assert (Ltop : (List.length top <= 1)%nat).
  { unfold top. destruct n as [k|]; [destruct (Nat.ltb 10 k)|]; cbn; lia. }
  assert (Ltype : (List.length byType <= 1)%nat).
  { unfold byType. destruct (queryType q) as [t|]; [|cbn; lia].
    destruct (String.eqb t "risk_assessment"); [cbn; lia|].
    destruct (String.eqb t "trend_analysis"); [cbn; lia|].
    destruct (String.eqb t "violation_search"); cbn; lia. }
  assert (Ntop : forall s other, In s top -> text s <> "Compare with " ++ other).
  { unfold top. intros s other Hs.
    destruct n as [k|]; [destruct (Nat.ltb 10 k)|]; try destruct Hs as [<-|[]];
      try destruct Hs; discriminate. }
  assert (Ntype : forall s other, In s byType -> text s <> "Compare with " ++ other).
  { unfold byType. intros s other Hs.
    destruct (queryType q) as [t|]; [|destruct Hs].
    destruct (String.eqb t "risk_assessment"); [destruct Hs as [<-|[]]; discriminate|].
    destruct (String.eqb t "trend_analysis"); [destruct Hs as [<-|[]]; discriminate|].
    destruct (String.eqb t "violation_search"); [destruct Hs as [<-|[]]; discriminate|].
    destruct Hs. }
  assert (Nfixed : forall s other,
             In s ([ {| text := "Tell me more details about this";
                        query := "Tell me more details about " ++ original |} ]
                   ++ top ++ [ {| text := "Can you visualize this data?";
                                  query := "Visualize the data from " ++ original |} ]
                   ++ byType)%list ->
             text s <> "Compare with " ++ other).
  { intros s other Hs.
    apply in_app_or in Hs. destruct Hs as [[<-|[]]|Hs]; [discriminate|].
    apply in_app_or in Hs. destruct Hs as [Hs|Hs]; [apply Ntop, Hs|].
    apply in_app_or in Hs. destruct Hs as [[<-|[]]|Hs]; [discriminate | apply Ntype, Hs]. }
  split; [|split; [reflexivity|]].
  - rewrite !length_app. cbn [List.length].
    destruct (locations (entities q)) as [[|cur rest]|]; cbn [List.length]; try lia.
    destruct (filter _ _); cbn [List.length]; lia.
  - destruct (locations (entities q)) as [[|cur rest]|].
    + intros s other Hs. apply Nfixed. rewrite !app_nil_r in Hs. exact Hs.
    + assert (O : exists other,
                 In other canonicalBoroughs /\ other <> cur
                 /\ filter (fun loc => negb (String.eqb loc cur))
                           ["Manhattan"; "Brooklyn"; "Queens"; "Bronx"; "Staten Island"]
                    = other :: tl (filter (fun loc => negb (String.eqb loc cur))
                                          ["Manhattan"; "Brooklyn"; "Queens"; "Bronx";
                                           "Staten Island"])).
      { cbn [filter]. destruct (String.eqb_spec "Manhattan" cur) as [E|N].
        - subst cur. exists "Brooklyn". cbn. repeat split; [auto | discriminate].
        - exists "Manhattan". cbn [negb tl]. repeat split; [cbn; auto | exact N]. }
      destruct O as (other & Hin & Hne & E). exists other.
      split; [exact Hin|]. split; [exact Hne|].
      rewrite E. rewrite !app_assoc. apply last_last.
    + intros s other Hs. apply Nfixed. rewrite !app_nil_r in Hs. exact Hs.
Qed.

End RefinementFacts.

(** ** Sessions of different users, and a session found again *)

Module SessionFacts.
Import Js JsFacts Query Conversation ConversationFacts.

Lemma prefix_cons (a b : ascii) (s k : string) :
  String.prefix (String a s) (String b k) = true <-> a = b /\ String.prefix s k = true.
Proof.
  cbn [String.prefix]. destruct (ascii_dec a b) as [E|N].
  - split; [intro H; split; assumption | intros [_ H]; exact H].
  - split; [discriminate | intros [E _]; contradiction].
Qed.

Lemma includes_colon_cons (c : ascii) (s : string) :
  includes (String c s) ":" = false -> c <> ":"%char /\ includes s ":" = false.
Proof.
  cbn [includes String.prefix].
  destruct (ascii_dec ":" c) as [E|N].
  - destruct s; discriminate.
  - intro H. split; [intro E; apply N; symmetry; exact E | exact H].
Qed.

(** A key has at most one owner among the user ids without a colon. *)
Lemma owner_unique (u : string) :
  forall v k,
    includes u ":" = false -> includes v ":" = false ->
    startsWith k (u ++ ":") = true -> startsWith k (v ++ ":") = true -> u = v.
Proof.
  unfold startsWith.
  induction u as [|a u IH]; intros v k Hu Hv Pu Pv.
  - destruct v as [|b v]; [reflexivity|]. exfalso.
    destruct k as [|c k]; [discriminate|].
    cbn [append] in Pu, Pv. apply prefix_cons in Pu, Pv.
    destruct Pu as (E1 & _), Pv as (E2 & _).
    apply includes_colon_cons in Hv. destruct Hv as (N & _). congruence.
  - destruct k as [|c k]; [discriminate|].
    cbn [append] in Pu. apply prefix_cons in Pu. destruct Pu as (E1 & Pu).
    apply includes_colon_cons in Hu. destruct Hu as (Na & Hu).
    destruct v as [|b v].
    + exfalso. cbn [append] in Pv. apply prefix_cons in Pv. destruct Pv as (E2 & _).
      congruence.
    + cbn [append] in Pv. apply prefix_cons in Pv. destruct Pv as (E2 & Pv).
      apply includes_colon_cons in Hv. destruct Hv as (_ & Hv).
      f_equal; [congruence|]. apply (IH v k); assumption.
Qed.

Lemma prefix_app (s t : string) : String.prefix s (s ++ t) = true.
Proof.
  induction s as [|a s IH]; [destruct t; reflexivity|].
  cbn [append]. apply prefix_cons. split; [reflexivity | exact IH].
Qed.

Lemma keyOf_owner (userId conversationId : string) :
  startsWith (keyOf userId conversationId) (userId ++ ":") = true.
Proof.
  unfold startsWith, keyOf.
  replace (userId ++ ":" ++ conversationId) with ((userId ++ ":") ++ conversationId).
  - apply prefix_app.
  - induction userId as [|a u IH]; [reflexivity|]. cbn [append]. rewrite IH. reflexivity.
Qed.

Lemma ofUser_delete (v k : string) (m : Conversations) :
  startsWith k (v ++ ":") = false -> ofUser v (map_delete k m) = ofUser v m.
Proof.
  intro H. unfold ofUser, map_delete.
  induction m as [|[k0 c0] r IH]; [reflexivity|].
  cbn [filter fst]. destruct (String.eqb_spec k0 k) as [E|N]; cbn [negb].
  - subst k0. rewrite H. exact IH.
  - cbn [filter fst]. rewrite IH. reflexivity.
Qed.

Lemma ofUser_fold_delete (v : string) (expired : string * Z -> bool) (l : list (string * Z)) :
  (forall ka, In ka l -> startsWith (fst ka) (v ++ ":") = false) ->
  forall m : Conversations,
    ofUser v (fold_left (fun acc ka => if expired ka then map_delete (fst ka) acc else acc)
                        l m)
    = ofUser v m.
Proof.
  induction l as [|ka r IH]; intros H m; [reflexivity|].
  cbn [fold_left]. rewrite IH by (intros x Hx; apply H; right; exact Hx).
  destruct (expired ka); [|reflexivity].
  apply ofUser_delete, H. left. reflexivity.
Qed.

Lemma ofUser_set (v k : string) (c : ConversationContext) (m : Conversations) :
  startsWith k (v ++ ":") = false -> ofUser v (map_set k c m) = ofUser v m.
Proof.
  intro H. unfold ofUser.
  induction m as [|[k0 c0] r IH]; cbn [map_set filter fst].
  - rewrite H. reflexivity.
  - destruct (String.eqb_spec k0 k) as [E|N]; cbn [filter fst].
    + subst k0. rewrite H. reflexivity.
    + rewrite IH. reflexivity.
Qed.

Lemma in_skipn {A : Type} (n : nat) (l : list A) (x : A) : In x (skipn n l) -> In x l.
Proof.
  revert l. induction n as [|n IH]; intros l H; [exact H|].
  destruct l as [|y r]; [exact H|]. right. apply IH, H.
Qed.

Lemma ofUser_cleanup (now : Z) (u v : string) (m : Conversations) :
  includes u ":" = false -> includes v ":" = false -> u <> v ->
  ofUser v (cleanupOldConversations now u m) = ofUser v m.
Proof.
  intros Hu Hv Hne. unfold cleanupOldConversations.
  set (userConversations := map (fun e => (fst e, now - startTime (snd e))) (ofUser u m)).
  assert (K : forall ka, In ka userConversations -> startsWith (fst ka) (v ++ ":") = false).
  { intros ka Hka. unfold userConversations in Hka. apply in_map_iff in Hka.
    destruct Hka as (e & <- & He). cbn [fst].
    unfold ofUser in He. apply filter_In in He. destruct He as (_ & Pu).
    destruct (startsWith (fst e) (v ++ ":")) eqn:Pv; [|reflexivity].
    exfalso. apply Hne. apply (owner_unique u v (fst e)); assumption. }
  destruct (Nat.ltb maxConversationsPerUser (List.length userConversations)).
  - rewrite (ofUser_fold_delete v (fun _ => true)).
    + apply (ofUser_fold_delete v (fun ka => maxConversationAge <? snd ka)), K.
    + intros ka Hka. apply K. apply in_skipn in Hka. apply in_sort_by in Hka. exact Hka.
  - apply (ofUser_fold_delete v (fun ka => maxConversationAge <? snd ka)), K.
Qed.

(** X19.  Sessions are isolated: for two different user ids without a
    colon, a call of [getOrCreateConversation] for one user, with its cleanup
    and whatever conversation it creates, leaves the conversations that
    [getUserConversations] lists for the other user as they were. *)
Theorem conversations_of_other_users_untouched :
  forall (now : Z) (fresh userId otherUser : string) (conversationId : option string)
         (m : Conversations),
    includes userId ":" = false ->
    includes otherUser ":" = false ->
    userId <> otherUser ->
    getUserConversations otherUser
      (fst (getOrCreateConversation now fresh userId conversationId m))
    = getUserConversations otherUser m.
Proof.
  intros now fresh u v cid m Hu Hv Hne.
  unfold getUserConversations. f_equal.
  assert (S : ofUser v (map_set (keyOf u fresh) (newContext fresh now)
                                (cleanupOldConversations now u m))
              = ofUser v m).
  { rewrite ofUser_set; [apply ofUser_cleanup; assumption|].
    destruct (startsWith (keyOf u fresh) (v ++ ":")) eqn:P; [|reflexivity].
    exfalso. apply Hne.
    apply (owner_unique u v (keyOf u fresh)); [assumption | assumption | | exact P].
    apply keyOf_owner. }
  unfold getOrCreateConversation.
  destruct cid as [cid|]; [|exact S].
  destruct (truthy cid); [|exact S].
  destruct (map_get (keyOf u cid) (cleanupOldConversations now u m)); [|exact S].
  cbn [fst]. apply ofUser_cleanup; assumption.
Qed.

(** The theorem at the six conversations of user u and a request of user
    w. *)
Lemma conversations_of_other_users_untouched_witness :
  getUserConversations "u"
    (fst (getOrCreateConversation 7000 "c7" "w" None Samples.sixConversations))
  = getUserConversations "u" Samples.sixConversations.
Proof.
  apply conversations_of_other_users_untouched; [reflexivity | reflexivity | discriminate].
Defined.


Lemma keys_map_set (k : string) (c : ConversationContext) (m : Conversations) :
  forall x, In x (map fst (map_set k c m)) <-> x = k \/ In x (map fst m).
Proof.
  induction m as [|[k0 c0] r IH]; intro x; cbn [map_set map fst In].
  - split; [intros [H|[]]; left; symmetry; exact H | intros [H|[]]; left; symmetry; exact H].
  - destruct (String.eqb_spec k0 k) as [E|N]; cbn [map fst In].
    + subst k0. split; [intros [H|H]; right; [left | right]; assumption|].
      intros [H|[H|H]]; [left; symmetry; exact H | left; exact H | right; exact H].
    + rewrite IH. split.
      * intros [H|[H|H]]; [right; left; exact H | left; exact H | right; right; exact H].
      * intros [H|[H|H]]; [right; left; exact H | left; exact H | right; right; exact H].
Qed.

Lemma nodup_map_set (k : string) (c : ConversationContext) (m : Conversations) :
  NoDup (map fst m) -> NoDup (map fst (map_set k c m)).
Proof.
  induction m as [|[k0 c0] r IH]; cbn [map_set map fst]; intro H.
  - constructor; [intros [] | constructor].
  - inversion H as [|? ? Hnot Hr]; subst.
    destruct (String.eqb_spec k0 k) as [E|N]; cbn [map fst].
    + constructor; assumption.
    + constructor; [|apply IH, Hr].
      rewrite keys_map_set. intros [E|Hin]; [congruence | contradiction].
Qed.

Lemma in_map_set (k : string) (c : ConversationContext) (m : Conversations) :
  In (k, c) (map_set k c m).
Proof.
  induction m as [|[k0 c0] r IH]; cbn [map_set]; [left; reflexivity|].
  destruct (String.eqb_spec k0 k) as [E|N]; [left; subst; reflexivity | right; exact IH].
Qed.

Lemma map_get_in (m : Conversations) :
  NoDup (map fst m) ->
  forall k c, In (k, c) m -> map_get k m = Some c.
Proof.
  induction m as [|[k0 c0] r IH]; intros H k c Hin; [destruct Hin|].
  inversion H as [|? ? Hnot Hr]; subst. cbn [map_get].
  destruct (String.eqb_spec k0 k) as [E|N].
  - destruct Hin as [E'|Hin]; [congruence|].
    exfalso. apply Hnot. subst k0. apply (in_map fst) in Hin. exact Hin.
  - destruct Hin as [E'|Hin]; [congruence | apply IH; assumption].
Qed.

Lemma same_key_same_entry (m : Conversations) :
  NoDup (map fst m) ->
  forall e1 e2, In e1 m -> In e2 m -> fst e1 = fst e2 -> e1 = e2.
Proof.
  intros H [k1 c1] [k2 c2] H1 H2 E. cbn [fst] in E. subst k2.
  pose proof (map_get_in m H k1 c1 H1) as G1.
  pose proof (map_get_in m H k1 c2 H2) as G2.
  congruence.
Qed.

(** X28.  A conversation that [getOrCreateConversation] has just created is
    found again under its id: when the store has distinct keys, the user holds
    at most [maxConversationsPerUser] conversations after the creation and the
    next request comes no later than [maxConversationAge] after it, the call
    with that id returns the conversation created. *)
Theorem created_conversation_is_found_again :
  forall (now later : Z) (fresh fresh' userId : string) (m : Conversations),
    let created := getOrCreateConversation now fresh userId None m in
    NoDup (map fst m) ->
    truthy fresh = true ->
    later - now <= maxConversationAge ->
    (List.length (ofUser userId (fst created)) <= maxConversationsPerUser)%nat ->
    snd created = newContext fresh now
    /\ snd (getOrCreateConversation later fresh' userId (Some fresh) (fst created))
       = snd created.
Proof.
  intros now later fresh fresh' u m. cbv zeta.
  unfold getOrCreateConversation at 1 2 4. cbn [fst snd].
  set (c := newContext fresh now).
  set (m1 := map_set (keyOf u fresh) c (cleanupOldConversations now u m)).
  intros Hnd Hfresh Hage Hcap.
  split; [reflexivity|].
  assert (N1 : NoDup (map fst m1)).
  { unfold m1. apply nodup_map_set, nodup_keys_cleanup, Hnd. }
  assert (I1 : In (keyOf u fresh, c) m1) by apply in_map_set.
  unfold getOrCreateConversation. rewrite Hfresh.
  assert (G : map_get (keyOf u fresh) (cleanupOldConversations later u m1) = Some c).
  { apply map_get_in; [apply nodup_keys_cleanup, N1|].
    unfold cleanupOldConversations.
    rewrite length_map.
    destruct (Nat.ltb_spec maxConversationsPerUser (List.length (ofUser u m1))) as [L|L];
      [lia|].
    apply (in_fold_delete (fun ka => maxConversationAge <? snd ka)).
    split; [exact I1|].
    intros ka Hka Hexp E. cbn [fst] in E.
    apply in_map_iff in Hka. destruct Hka as (e & <- & He). cbn [fst snd] in *.
    unfold ofUser in He. apply filter_In in He. destruct He as (He & _).
    assert (Ee : (keyOf u fresh, c) = e).
    { apply (same_key_same_entry m1 N1); [exact I1 | exact He | exact E]. }
    subst e. cbn [snd] in Hexp. unfold c in Hexp. cbn [startTime newContext] in Hexp.
    apply Z.ltb_lt in Hexp. lia. }
  rewrite G. reflexivity.
Qed.

(** The theorem at a first conversation opened at 1 s and asked for again
    at 2 s. *)
Lemma created_conversation_is_found_again_witness :
  snd (getOrCreateConversation 1000 "c1" "u" None []) = newContext "c1" 1000
  /\ snd (getOrCreateConversation
            2000 "c2" "u" (Some "c1")
            (fst (getOrCreateConversation 1000 "c1" "u" None [])))
     = snd (getOrCreateConversation 1000 "c1" "u" None []).
Proof.
  apply (created_conversation_is_found_again 1000 2000 "c1" "c2" "u" []).
  - constructor.
  - reflexivity.
  - vm_compute. discriminate.
  - vm_compute. lia.
Defined.

Lemma map_has_false (k : string) (m : Conversations) :
  map_has k m = false <-> ~ In k (map fst m).
Proof.
  unfold map_has. induction m as [|[k0 c0] r IH]; cbn [existsb map fst In].
  - split; [intros _ [] | reflexivity].
  - destruct (String.eqb_spec k0 k) as [E|N]; cbn [orb].
    + split; [discriminate | intro H; exfalso; apply H; left; exact E].
    + rewrite IH. split; [intros H [E|Hin]; [congruence | contradiction]|].
      intros H Hin. apply H. right. exact Hin.
Qed.

(** [Map.prototype.set] on a key that the map does not have appends. *)
Lemma map_set_new (k : string) (c : ConversationContext) (m : Conversations) :
  map_has k m = false -> map_set k c m = (m ++ [(k, c)])%list.
Proof.
  unfold map_has. induction m as [|[k0 c0] r IH]; cbn [existsb map_set app fst];
    [reflexivity|].
  destruct (String.eqb k0 k); cbn [orb]; [discriminate|].
  intro H. rewrite (IH H). reflexivity.
Qed.

Lemma cleanup_keeps_new (now : Z) (userId k : string) (m : Conversations) :
  map_has k m = false -> map_has k (cleanupOldConversations now userId m) = false.
Proof.
  rewrite !map_has_false. intros H Hin. apply H.
  apply in_map_iff in Hin. destruct Hin as (e & <- & He).
  apply in_map. apply (cleanup_spec now userId m e He).
Qed.

(** The cap that [cleanupOldConversations] enforces. *)
Lemma cleanup_cap (now : Z) (userId : string) (m : Conversations) :
  NoDup (map fst m) ->
  (List.length (ofUser userId (cleanupOldConversations now userId m))
   <= maxConversationsPerUser)%nat.
Proof.
  intro Hnd. set (m' := cleanupOldConversations now userId m).
  destruct (Nat.ltb_spec maxConversationsPerUser (List.length (ofUser userId m)))
    as [Hmany | Hfew].
  - set (kept := firstn maxConversationsPerUser
                        (sort_by (fun a b => snd b - snd a <? 0)
                                 (map (fun e => (fst e, now - startTime (snd e)))
                                      (ofUser userId m)))).
    assert (Hincl : incl (map fst (ofUser userId m')) (map fst kept)).
    { intros k Hk. apply in_map_iff in Hk. destruct Hk as (e & <- & Hin).
      unfold ofUser in Hin. apply filter_In in Hin. destruct Hin as [Hin Hu].
      apply (cleanup_spec now userId m e Hin); assumption. }
    assert (Hnd' : NoDup (map fst (ofUser userId m'))).
    { unfold ofUser. apply nodup_keys_filter, nodup_keys_cleanup, Hnd. }
    pose proof (NoDup_incl_length Hnd' Hincl) as Hlen.
    rewrite !length_map in Hlen.
    eapply Nat.le_trans; [exact Hlen|]. unfold kept. apply firstn_le_length.
  - eapply Nat.le_trans; [|exact Hfew].
    unfold m', cleanupOldConversations.
    rewrite length_map.
    destruct (Nat.ltb_spec maxConversationsPerUser (List.length (ofUser userId m)));
      [lia|].
    unfold ofUser. apply length_fold_delete.
Qed.

(** X3.  A request that does not find its conversation, because it names
    none or names one that is not among the user's conversations after the
    cleanup, opens a new one.  On a store with distinct keys and for an
    identifier not in use, the new conversation is returned and is listed
    last, after the conversations of the user that the cleanup left; each of
    those is at most [maxConversationAge] old and there are at most
    [maxConversationsPerUser] of them.  The cleanup runs before the
    creation: the user then holds one conversation more than it left, up to
    six. *)
Theorem unknown_id_opens_new_conversation :
  forall (now : Z) (fresh userId : string) (conversationId : option string)
         (m : Conversations),
    NoDup (map fst m) ->
    map_has (keyOf userId fresh) m = false ->
    (forall cid, conversationId = Some cid ->
                 map_get (keyOf userId cid) (cleanupOldConversations now userId m) = None) ->
    let result := getOrCreateConversation now fresh userId conversationId m in
    let kept := ofUser userId (cleanupOldConversations now userId m) in
    snd result = newContext fresh now
    /\ ofUser userId (fst result)
       = (kept ++ [(keyOf userId fresh, newContext fresh now)])%list
    /\ getUserConversations userId (fst result)
       = (getUserConversations userId (cleanupOldConversations now userId m)
          ++ [getSummary (newContext fresh now)])%list
    /\ (List.length kept <= maxConversationsPerUser)%nat
    /\ List.length (getUserConversations userId (fst result)) = S (List.length kept)
    /\ (forall e, In e kept -> In e m /\ now - startTime (snd e) <= maxConversationAge).
Proof.
  intros now fresh u cid m Hnd Hnew Hmiss. cbv zeta.
  set (m1 := cleanupOldConversations now u m).
  assert (E : getOrCreateConversation now fresh u cid m
              = (map_set (keyOf u fresh) (newContext fresh now) m1, newContext fresh now)).
  { unfold m1, getOrCreateConversation.
    destruct cid as [c|]; [|reflexivity].
    rewrite (Hmiss c eq_refl). destruct (truthy c); reflexivity. }
  rewrite E. cbn [fst snd].
  assert (S1 : ofUser u (map_set (keyOf u fresh) (newContext fresh now) m1)
               = (ofUser u m1 ++ [(keyOf u fresh, newContext fresh now)])%list).
  { rewrite map_set_new by (apply cleanup_keeps_new, Hnew).
    unfold ofUser. rewrite filter_app. cbn [filter fst].
    rewrite keyOf_owner. reflexivity. }
  split; [reflexivity | split; [exact S1 | split; [|split; [|split]]]].
  - unfold getUserConversations. rewrite S1, map_app. reflexivity.
  - apply cleanup_cap, Hnd.
  - unfold getUserConversations. rewrite S1, length_map, length_app. cbn [List.length]. lia.
  - intros e He. unfold ofUser in He. apply filter_In in He. destruct He as [He Hu].
    destruct (cleanup_spec now u m e He) as [Hin Hage].
    split; [exact Hin | apply Hage, Hu].
Qed.

(** The theorem at the six conversations of user u and a request without
    an id: the cleanup leaves five, the new conversation is the sixth. *)
Lemma unknown_id_opens_new_conversation_witness :
  List.length (getUserConversations
                 "u" (fst (getOrCreateConversation 7000 "c7" "u" None
                                                   Samples.sixConversations)))
  = 6%nat.
Proof.
  destruct (unknown_id_opens_new_conversation
              7000 "c7" "u" None Samples.sixConversations
              sixConversations_keys eq_refl)
    as (_ & _ & _ & _ & L & _).
  - intros cid H. discriminate H.
  - rewrite L. reflexivity.
Defined.

End SessionFacts.

(** ** Lists in the replies of the Completion Service *)

Module StringFacts.
Import Js.

Lemma append_assoc (a b c : string) : (a ++ b) ++ c = a ++ (b ++ c).
Proof. induction a as [|x a IH]; [reflexivity|]. cbn [append]. rewrite IH. reflexivity. Qed.

Lemma append_nil_r (a : string) : a ++ "" = a.
Proof. induction a as [|x a IH]; [reflexivity|]. cbn [append]. rewrite IH. reflexivity. Qed.

Lemma toLowerCase_app (a b : string) :
  toLowerCase (a ++ b) = toLowerCase a ++ toLowerCase b.
Proof. induction a as [|x a IH]; [reflexivity|]. cbn [append toLowerCase]. rewrite IH. reflexivity. Qed.

Lemma trimEnd_idem (s : string) : trimEnd (trimEnd s) = trimEnd s.
Proof.
  induction s as [|c r IH]; [reflexivity|].
  cbn [trimEnd]. destruct (trimEnd r) as [|d t] eqn:E.
  - destruct (is_space c) eqn:S; [reflexivity|].
    cbn [trimEnd]. rewrite S. reflexivity.
  - cbn [trimEnd]. cbn [trimEnd] in IH.
    destruct (trimEnd t) as [|e u] eqn:E2.
    + destruct (is_space d); [discriminate|]. rewrite IH. reflexivity.
    + rewrite IH. reflexivity.
Qed.

Lemma trimStart_clean (s : string) : startsClean (trimStart s).
Proof.
  induction s as [|c r IH]; [exact I|].
  cbn [trimStart]. destruct (is_space c) eqn:S; [exact IH | exact S].
Qed.

Lemma startsClean_fixed (s : string) : startsClean s -> trimStart s = s.
Proof.
  destruct s as [|c r]; [reflexivity|]. cbn. intro H. rewrite H. reflexivity.
Qed.

Lemma trimEnd_startsClean (s : string) : startsClean s -> startsClean (trimEnd s).
Proof.
  destruct s as [|c r]; [intros _; exact I|].
  cbn [startsClean trimEnd]. intro H.
  destruct (trimEnd r); [rewrite H|]; exact H.
Qed.

Lemma trim_idem (s : string) : trim (trim s) = trim s.
Proof.
  unfold trim.
  rewrite (startsClean_fixed (trimEnd (trimStart s)))
    by (apply trimEnd_startsClean, trimStart_clean).
  apply trimEnd_idem.
Qed.

Lemma trimEnd_app (a b : string) :
  trimEnd b = b -> b <> "" -> trimEnd (a ++ b) = a ++ b.
Proof.
  intros Hb Hne. induction a as [|c a IH]; [exact Hb|].
  cbn [append trimEnd]. rewrite IH.
  destruct (a ++ b) as [|d t] eqn:E; [|reflexivity].
  destruct a; [cbn in E; contradiction | discriminate].
Qed.

End StringFacts.

Module InsightListFacts.
Import Js Query Nlp InsightGenerator StringFacts.

Lemma noNewline_cons (c : ascii) (s : string) :
  fromFirst newline (String c s) = None ->
  Ascii.eqb c newline = false /\ fromFirst newline s = None.
Proof.
  cbn [fromFirst]. destruct (Ascii.eqb c newline); [discriminate|].
  intro H. split; [reflexivity | exact H].
Qed.

Lemma prefix_blank_line (c : ascii) (s : string) :
  Ascii.eqb c newline = false ->
  String.prefix (String newline (String newline EmptyString)) (String c s) = false.
Proof.
  intro H. cbn [String.prefix]. destruct (ascii_dec newline c) as [E|N]; [|reflexivity].
  subst c. rewrite Ascii.eqb_refl in H. discriminate.
Qed.

Lemma beforeBlankLine_line (item s : string) :
  fromFirst newline item = None ->
  beforeBlankLine (item ++ s) = item ++ beforeBlankLine s.
Proof.
  induction item as [|c r IH]; intro H; [reflexivity|].
  apply noNewline_cons in H. destruct H as (Hc & Hr).
  cbn [append]. unfold beforeBlankLine at 1. fold beforeBlankLine.
  rewrite (prefix_blank_line c _ Hc), (IH Hr). reflexivity.
Qed.

Lemma beforeBlankLine_listing (items : list string) (tail : string) :
  Forall cleanLine items ->
  beforeBlankLine tail = "" ->
  beforeBlankLine (listing "- " items ++ tail) = listing "- " items.
Proof.
  intros H Ht. induction H as [|item rest (_ & _ & _ & Hn) _ IH].
  - exact Ht.
  - cbn [listing append].
    change (beforeBlankLine
              (String newline (String "-" (String " " ((item ++ listing "- " rest) ++ tail)))))
      with (String newline (String "-" (String " "
              (beforeBlankLine ((item ++ listing "- " rest) ++ tail))))).
    rewrite append_assoc, (beforeBlankLine_line _ _ Hn), IH. reflexivity.
Qed.

Lemma splitOn_items_line (item s piece : string) :
  fromFirst newline item = None ->
  splitOn itemSeparator O piece (item ++ s) = splitOn itemSeparator O (piece ++ item) s.
Proof.
  revert piece. induction item as [|c r IH]; intros piece H.
  - rewrite append_nil_r. reflexivity.
  - apply noNewline_cons in H. destruct H as (Hc & Hr).
    cbn [append splitOn]. unfold itemSeparator. rewrite Hc.
    rewrite (IH _ Hr), append_assoc. reflexivity.
Qed.

Lemma split_listing (items : list string) :
  Forall cleanLine items ->
  forall piece,
    splitOn itemSeparator O piece (listing "- " items)
    = piece :: map (fun item => " " ++ item) items.
Proof.
  induction 1 as [|item rest (_ & _ & _ & Hn) _ IH]; intro piece; [reflexivity|].
  cbn [listing map].
  change (splitOn itemSeparator O piece
            (String newline ("- " ++ item ++ listing "- " rest)))
    with (piece :: splitOn itemSeparator O "" (String " " (item ++ listing "- " rest))).
  f_equal.
  change (String " " (item ++ listing "- " rest))
    with ((String " " item) ++ listing "- " rest).
  rewrite splitOn_items_line by exact Hn.
  apply IH.
Qed.

Lemma trim_spaced (item : string) : cleanLine item -> trim (" " ++ item) = item.
Proof.
  intros (Hs & He & _ & _). unfold trim.
  change (trimStart (" " ++ item)) with (trimStart item).
  rewrite Hs. exact He.
Qed.

Lemma truthy_clean (item : string) : cleanLine item -> truthy item = true.
Proof.
  intros (_ & _ & Hne & _). unfold truthy.
  destruct (String.eqb_spec item ""); [contradiction | reflexivity].
Qed.

Lemma keep_clean (items : list string) :
  Forall cleanLine items ->
  filter truthy (map trim (map (fun item => " " ++ item) items)) = items.
Proof.
  induction 1 as [|item rest Hc _ IH]; [reflexivity|].
  cbn [map filter]. rewrite (trim_spaced _ Hc), (truthy_clean _ Hc), IH. reflexivity.
Qed.

(** X20.  A list of findings under its heading is read back exactly: for a
    reply that consists of the heading Key findings: followed by one line per
    finding, each starting with a hyphen and a space, [extractKeyFindings]
    returns the findings, in order and unchanged, whether the list ends the
    reply or is followed by a blank line and further text.  The findings are
    non-empty lines without white space at either end. *)
Theorem key_findings_round_trip :
  forall (items : list string) (rest : string),
    Forall cleanLine items ->
    items <> [] ->
    extractKeyFindings ("Key findings:" ++ listing "- " items) = items
    /\ extractKeyFindings
         ("Key findings:" ++ listing "- " items
          ++ String newline (String newline rest)) = items.
Proof.
  intros items rest Hc Hne.
  assert (G : forall tail,
             beforeBlankLine tail = "" ->
             extractKeyFindings ("Key findings:" ++ listing "- " items ++ tail) = items).
  { intros tail Ht. unfold extractKeyFindings, findingsMatch.
    change (afterFirst "key findings" ("Key findings:" ++ listing "- " items ++ tail))
      with (Some (":" ++ listing "- " items ++ tail)).
    cbv iota.
    change (match ":" ++ listing "- " items ++ tail with
            | String c r => if Ascii.eqb c ":" then r else ":" ++ listing "- " items ++ tail
            | EmptyString => ":" ++ listing "- " items ++ tail
            end)
      with (listing "- " items ++ tail).
    rewrite (beforeBlankLine_listing items tail Hc Ht).
    destruct items as [|item more]; [contradiction|].
    change (listing "- " (item :: more))
      with (String newline ("- " ++ item ++ listing "- " more)).
    cbv iota.
    change (String newline ("- " ++ item ++ listing "- " more))
      with (listing "- " (item :: more)).
    unfold split. rewrite (split_listing _ Hc).
    change (filter truthy (map trim ("" :: map (fun i => " " ++ i) (item :: more))))
      with (filter truthy (map trim (map (fun i => " " ++ i) (item :: more)))).
    apply keep_clean, Hc. }
  split.
  - rewrite <- (append_nil_r (listing "- " items)) at 1. apply G. reflexivity.
  - apply G. cbn [beforeBlankLine String.prefix].
    destruct (ascii_dec newline newline); [|contradiction].
    destruct rest; reflexivity.
Qed.


(** The theorem at two findings, followed by another paragraph. *)
Lemma key_findings_round_trip_witness :
  extractKeyFindings
    ("Key findings:"
     ++ listing "- " ["Brooklyn has the most high-risk buildings";
                      "Most of them were built before 1950"]
     ++ String newline (String newline "These patterns suggest ageing stock."))
  = ["Brooklyn has the most high-risk buildings"; "Most of them were built before 1950"].
Proof.
  apply (key_findings_round_trip
           ["Brooklyn has the most high-risk buildings";
            "Most of them were built before 1950"]
           "These patterns suggest ageing stock.").
  - repeat constructor; discriminate.
  - discriminate.
Defined.

(** *** Recommendations *)

Lemma lineSeparator_none (c : ascii) (s : string) :
  Ascii.eqb c newline = false -> lineSeparator (String c s) = None.
Proof. intro H. unfold lineSeparator. cbn [takeWhile]. rewrite H. reflexivity. Qed.

Lemma splitOn_lines_line (item s piece : string) :
  fromFirst newline item = None ->
  splitOn lineSeparator O piece (item ++ s) = splitOn lineSeparator O (piece ++ item) s.
Proof.
  revert piece. induction item as [|c r IH]; intros piece H.
  - rewrite append_nil_r. reflexivity.
  - apply noNewline_cons in H. destruct H as (Hc & Hr).
    cbn [append splitOn]. rewrite (lineSeparator_none c _ Hc).
    rewrite (IH _ Hr), append_assoc. reflexivity.
Qed.

Lemma split_recommendations (items : list string) :
  Forall cleanLine items ->
  forall piece,
    splitOn lineSeparator O piece (listing "Recommendation: " items)
    = piece :: map (fun item => "Recommendation: " ++ item) items.
Proof.
  induction 1 as [|item rest (_ & _ & _ & Hn) _ IH]; intro piece; [reflexivity|].
  cbn [listing map].
  change (splitOn lineSeparator O piece
            (String newline ("Recommendation: " ++ item ++ listing "Recommendation: " rest)))
    with (piece :: splitOn lineSeparator O ""
                     ("Recommendation: " ++ item ++ listing "Recommendation: " rest)).
  f_equal.
  rewrite <- append_assoc.
  rewrite splitOn_lines_line.
  - apply IH.
  - clear - Hn. cbn. exact Hn.
Qed.

Lemma first_not_space (item : string) :
  cleanLine item -> String.length (takeWhile is_space item) = O.
Proof.
  intros (Hs & _ & Hne & _). destruct item as [|c r]; [contradiction|].
  cbn [trimStart] in Hs. cbn [takeWhile].
  destruct (is_space c) eqn:S; [|reflexivity].
  exfalso.
  assert (L : forall s, (String.length (trimStart s) <= String.length s)%nat).
  { induction s as [|d s IH]; [apply Nat.le_refl|].
    cbn [trimStart]. destruct (is_space d); cbn [String.length]; lia. }
  pose proof (L r) as Lr. rewrite Hs in Lr. cbn [String.length] in Lr. lia.
Qed.

Lemma stripLabel_labelled (item : string) :
  cleanLine item -> trim (stripLabel ("Recommendation: " ++ item)) = item.
Proof.
  intro Hc. unfold stripLabel.
  change (numberedPrefix ("Recommendation: " ++ item)) with (@None nat).
  unfold labelPrefix.
  change (String.prefix "Recommendation:" ("Recommendation: " ++ item)) with true.
  change (drop 15 ("Recommendation: " ++ item)) with (String " " item).
  cbn [takeWhile]. change (is_space " ") with true. cbn [String.length].
  rewrite (first_not_space _ Hc).
  change (drop (15 + 1) ("Recommendation: " ++ item)) with item.
  destruct Hc as (Hs & He & _ & _). unfold trim. rewrite Hs. exact He.
Qed.

Lemma keep_recommendations (items : list string) :
  Forall cleanLine items ->
  filter truthy
    (map (fun line => trim (stripLabel line))
         (filter (fun line =>
                    includes line "Recommendation:"
                    || match numberedPrefix line with Some _ => true | None => false end)
                 (map (fun item => "Recommendation: " ++ item) items)))
  = items.
Proof.
  induction 1 as [|item rest Hc _ IH]; [reflexivity|].
  cbn [map filter].
  change (includes ("Recommendation: " ++ item) "Recommendation:") with true.
  cbn [orb map filter].
  rewrite (stripLabel_labelled _ Hc), (truthy_clean _ Hc), IH. reflexivity.
Qed.

Lemma trimEnd_listing (prefix : string) (items : list string) :
  Forall cleanLine items ->
  forall item, cleanLine item ->
    trimEnd (item ++ listing prefix items) = item ++ listing prefix items.
Proof.
  induction 1 as [|next rest Hn _ IH]; intros item (_ & He & _ & _).
  - cbn [listing]. rewrite append_nil_r. exact He.
  - cbn [listing].
    replace (item ++ String newline (prefix ++ next ++ listing prefix rest))
      with ((item ++ String newline prefix) ++ (next ++ listing prefix rest)).
    + apply trimEnd_app; [apply IH, Hn|].
      destruct Hn as (_ & _ & Hne & _). destruct next; [contradiction | discriminate].
    + rewrite append_assoc. reflexivity.
Qed.

Lemma trim_listing (items : list string) :
  Forall cleanLine items ->
  extractRecommendations (trim (listing "Recommendation: " items)) = items.
Proof.
  intro H. destruct H as [|item rest Hc Hr]; [reflexivity|].
  assert (T : trim (listing "Recommendation: " (item :: rest))
              = "Recommendation: " ++ item ++ listing "Recommendation: " rest).
  { unfold trim. cbn [listing].
    change (trimStart (String newline
                         ("Recommendation: " ++ item ++ listing "Recommendation: " rest)))
      with ("Recommendation: " ++ item ++ listing "Recommendation: " rest).
    rewrite <- append_assoc.
    replace (("Recommendation: " ++ item) ++ listing "Recommendation: " rest)
      with ("Recommendation: " ++ (item ++ listing "Recommendation: " rest))
      by (rewrite append_assoc; reflexivity).
    apply trimEnd_app.
    - apply trimEnd_listing; assumption.
    - destruct Hc as (_ & _ & Hne & _). destruct item; [contradiction | discriminate]. }
  rewrite T. unfold extractRecommendations, split.
  assert (S : splitOn lineSeparator O ""
                      ("Recommendation: " ++ item ++ listing "Recommendation: " rest)
              = map (fun i => "Recommendation: " ++ i) (item :: rest)).
  { rewrite <- append_assoc. rewrite splitOn_lines_line.
    - rewrite (split_recommendations rest Hr). reflexivity.
    - destruct Hc as (_ & _ & _ & Hn). cbn. exact Hn. }
  rewrite S. apply keep_recommendations. constructor; assumption.
Qed.

(** X21.  A reply in the format the prompt of [generateRecommendations]
    asks for is read back exactly: when the Completion Service answers with
    one line per recommendation, each starting with Recommendation: and a
    space, the function returns the recommendations, in order and without
    the label. *)
Theorem recommendations_round_trip :
  forall (structuredQuery : StructuredQuery) (json : string) (items : list string),
    Forall cleanLine items ->
    generateRecommendations
      (fun _ => Completed [Some (listing "Recommendation: " items)])
      structuredQuery (Some json)
    = items.
Proof.
  intros q json items H.
  unfold generateRecommendations, generateRecommendations_try, recommendationPrompt.
  cbn [bind firstText try_catch].
  apply trim_listing, H.
Qed.

(** The theorem at a reply of two recommendations. *)
Lemma recommendations_round_trip_witness :
  generateRecommendations
    (fun _ => Completed
                [Some (listing "Recommendation: "
                               ["Inspect pre-war buildings first - they score highest";
                                "Publish violation counts - owners respond to them"])])
    Samples.brooklynRiskQuery (Some "{}")
  = ["Inspect pre-war buildings first - they score highest";
     "Publish violation counts - owners respond to them"].
Proof.
  apply recommendations_round_trip.
  repeat constructor; discriminate.
Defined.

Lemma extractRecommendations_shape (text : string) :
  Forall (fun r => r <> "" /\ trim r = r) (extractRecommendations text).
Proof.
  unfold extractRecommendations.
  induction (filter _ (split lineSeparator text)) as [|line rest IH]; [constructor|].
  cbn [map filter].
  destruct (truthy (trim (stripLabel line))) eqn:T; [|exact IH].
  constructor; [|exact IH]. split.
  - intro E. rewrite E in T. discriminate.
  - apply trim_idem.
Qed.

(** X22.  [generateRecommendations] never throws and never returns a blank
    entry: every recommendation is a non-empty string without white space at
    either end; and when the analysis cannot be serialised, the call to the
    Completion Service is rejected, or the completion has no first choice or
    no text, the result is the one apology string. *)
Theorem recommendations_never_blank_and_fail_soft :
  forall (openai : string -> Completion) (structuredQuery : StructuredQuery)
         (analysisJson : option string),
    let recommendations := generateRecommendations openai structuredQuery analysisJson in
    Forall (fun r => r <> "" /\ trim r = r) recommendations
    /\ (analysisJson = None -> recommendations = fallbackRecommendations)
    /\ ((forall prompt, openai prompt = Rejected) ->
        recommendations = fallbackRecommendations)
    /\ ((forall prompt, openai prompt = Completed []
                        \/ exists rest, openai prompt = Completed (None :: rest)) ->
        recommendations = fallbackRecommendations).
Proof.
  intros openai q analysisJson. cbv zeta.
  assert (F : Forall (fun r => r <> "" /\ trim r = r) fallbackRecommendations).
  { constructor; [split; [discriminate | reflexivity] | constructor]. }
  unfold generateRecommendations, generateRecommendations_try.
  destruct analysisJson as [json|]; cbn [recommendationPrompt bind try_catch];
    [|repeat split; try exact F; reflexivity].
  set (prompt := (_ ++ _)%string).
  split; [|split; [discriminate|split]].
  - destruct (openai prompt) as [|[|[t|] rest]]; cbn [firstText bind try_catch];
      try exact F.
    apply extractRecommendations_shape.
  - intro H. rewrite H. reflexivity.
  - intro H. destruct (H prompt) as [E|(rest & E)]; rewrite E; reflexivity.
Qed.

End InsightListFacts.

(** ** The dispatcher of the query builder *)

Module BuildQueryFacts.
Import Js Query QueryBuilder QueryBuilderFacts StringFacts.

Lemma limit_clause (a w l l' p t : string) :
  l = l' ++ "LIMIT " ->
  a ++ w ++ l ++ p ++ t = (a ++ w ++ l') ++ "LIMIT " ++ p ++ t.
Proof. intros ->. rewrite !append_assoc. reflexivity. Qed.

Lemma bound_with_limit (filters : list Filter) (limit : Z) :
  placeholder (paramIndex (processFilters false filters))
  = placeholder (List.length (params (processFilters false filters)
                              ++ [VScalar (SNumber limit)]))
  /\ placeholder (paramIndex (processFilters true filters))
     = placeholder (List.length (params (processFilters true filters)
                                 ++ [VScalar (SNumber limit)])).
Proof.
  rewrite !processFilters_spec. cbn [paramIndex params].
  rewrite !length_app, !operands_total. cbn [List.length].
  rewrite Nat.add_comm. split; reflexivity.
Qed.

Ltac limit_last :=
  match goal with
  | |- exists before after, ?a ++ ?w ++ ?l ++ ?p ++ ?t = _ /\ _ =>
      exists (a ++ w ++ take (String.length l - 6) l), t;
      split; [apply limit_clause; vm_compute; reflexivity | vm_compute; reflexivity]
  end.

Lemma limit_is_last_of_risk (filters : list Filter) (limit : option Z) :
  let built := buildRiskAssessmentQuery {| qp_filters := filters; qp_limit := limit |} in
  boundParams built
  = (flat_map operands filters ++ [VScalar (SNumber (limitOrDefault limit))])%list
  /\ exists before after,
       query built
       = before ++ "LIMIT " ++ placeholder (List.length (boundParams built)) ++ after
       /\ trim after = "".
Proof.
  cbv zeta. unfold buildRiskAssessmentQuery. cbn [boundParams query qp_filters qp_limit].
  split; [rewrite processFilters_spec; reflexivity|].
  destruct (bound_with_limit filters (limitOrDefault limit)) as (_ & <-).
  limit_last.
Qed.

Lemma limit_is_last_of_lookup (queryParams : Params) :
  let built := buildBuildingLookupQuery queryParams in
  boundParams built
  = (flat_map operands (p_filters queryParams)
     ++ [VScalar (SNumber (limitOrDefault (p_limit queryParams)))])%list
  /\ exists before after,
       query built
       = before ++ "LIMIT " ++ placeholder (List.length (boundParams built)) ++ after
       /\ trim after = "".
Proof.
  cbv zeta. unfold buildBuildingLookupQuery. cbn [boundParams query].
  split; [rewrite processFilters_spec; reflexivity|].
  destruct (bound_with_limit (p_filters queryParams) (limitOrDefault (p_limit queryParams)))
    as (<- & _).
  match goal with
  | |- exists before after, ?a ++ ?w ++ ?l ++ ?o ++ ?l2 ++ ?p ++ ?t = _ /\ _ =>
      exists (a ++ w ++ l ++ o ++ take (String.length l2 - 6) l2), t;
      split; [|vm_compute; reflexivity];
      replace l2 with (take (String.length l2 - 6) l2 ++ "LIMIT ") at 1
        by (vm_compute; reflexivity);
      rewrite !append_assoc; reflexivity
  end.
Qed.

Lemma limit_is_last_of_violations (queryParams : Params) :
  let built := buildViolationSearchQuery queryParams in
  boundParams built
  = (flat_map operands (p_filters queryParams)
     ++ [VScalar (SNumber (limitOrDefault (p_limit queryParams)))])%list
  /\ exists before after,
       query built
       = before ++ "LIMIT " ++ placeholder (List.length (boundParams built)) ++ after
       /\ trim after = "".
Proof.
  cbv zeta. unfold buildViolationSearchQuery. cbn [boundParams query].
  split; [rewrite processFilters_spec; reflexivity|].
  destruct (bound_with_limit (p_filters queryParams) (limitOrDefault (p_limit queryParams)))
    as (<- & _).
  destruct (existsb (String.eqb "hpd_violations") (p_tables queryParams));
    [destruct (existsb (String.eqb "dob_violations") (p_tables queryParams))|];
    cbn [andb].
  - match goal with
    | |- exists before after, ?a ++ ?w ++ ?m ++ ?w2 ++ ?l ++ ?p ++ ?t = _ /\ _ =>
        exists (a ++ w ++ m ++ w2 ++ take (String.length l - 6) l), t;
        split; [|vm_compute; reflexivity];
        replace l with (take (String.length l - 6) l ++ "LIMIT ") at 1
          by (vm_compute; reflexivity);
        rewrite !append_assoc; reflexivity
    end.
  - limit_last.
  - limit_last.
Qed.


Lemma limitOrDefault_nonzero (limit : option Z) : limitOrDefault limit <> 0.
Proof.
  unfold limitOrDefault. destruct limit as [n|]; [|discriminate].
  destruct (Z.eqb_spec n 0); [discriminate | assumption].
Qed.

(** X29.  For every intent [buildQuery] binds the values of the filters in
    order; the queries of risk_assessment, violation_search, building_lookup
    and of every unrecognised intent end in a LIMIT clause whose placeholder
    is the number of the last bound parameter, the limit, which is never 0
    (100 when absent); the queries of trend_analysis, comparison and
    general_stats bind nothing else.  An intent outside the closed set
    compiles as building_lookup. *)
Theorem placeholders_agree_with_parameters :
  forall (queryType : option string) (queryParams : Params),
    let built := buildQuery queryType queryParams in
    let filterValues := flat_map operands (p_filters queryParams) in
    (if bindsLimit queryType
     then boundParams built
          = (filterValues
             ++ [VScalar (SNumber (limitOrDefault (p_limit queryParams)))])%list
          /\ exists before after,
               query built
               = before ++ "LIMIT " ++ placeholder (List.length (boundParams built))
                 ++ after
               /\ trim after = ""
     else boundParams built = filterValues)
    /\ limitOrDefault (p_limit queryParams) <> 0
    /\ ((forall intent, queryType = Some intent -> ~ In intent knownIntents) ->
        built = buildBuildingLookupQuery queryParams).
Proof.
  intros queryType queryParams. cbv zeta.
  split; [|split; [apply limitOrDefault_nonzero|]].
  - destruct queryType as [t|]; [|apply limit_is_last_of_lookup].
    unfold buildQuery, bindsLimit.
    destruct (String.eqb t "risk_assessment") eqn:E1.
    { apply String.eqb_eq in E1. subst t. cbn [String.eqb Ascii.eqb Bool.eqb orb negb].
      apply limit_is_last_of_risk. }
    destruct (String.eqb t "trend_analysis") eqn:E2.
    { cbn [orb negb]. unfold buildTrendAnalysisQuery. cbn [boundParams].
      rewrite processFilters_spec. reflexivity. }
    destruct (String.eqb t "violation_search") eqn:E3.
    { apply String.eqb_eq in E3. subst t. cbn [String.eqb Ascii.eqb Bool.eqb orb negb].
      apply limit_is_last_of_violations. }
    destruct (String.eqb t "building_lookup") eqn:E4.
    { apply String.eqb_eq in E4. subst t. cbn [String.eqb Ascii.eqb Bool.eqb orb negb].
      apply limit_is_last_of_lookup. }
    destruct (String.eqb t "comparison") eqn:E5.
    { cbn [orb negb]. unfold buildComparisonQuery. cbn [boundParams].
      rewrite processFilters_spec. reflexivity. }
    destruct (String.eqb t "general_stats") eqn:E6.
    { cbn [orb negb]. unfold buildGeneralStatsQuery. cbn [boundParams].
      rewrite processFilters_spec. reflexivity. }
    cbn [orb negb]. apply limit_is_last_of_lookup.
  - intro H. destruct queryType as [t|]; [|reflexivity].
    unfold buildQuery.
    assert (N : forall k, In k knownIntents -> String.eqb t k = false).
    { intros k Hk. destruct (String.eqb_spec t k) as [E|N]; [|reflexivity].
      exfalso. apply (H t eq_refl). rewrite E. exact Hk. }
    rewrite !N by (cbn; auto 10). reflexivity.
Qed.

End BuildQueryFacts.

(** ** The JSON object of a reply; violation and trend rows *)

Module JsonMatchFacts.
Import Js Query Nlp StringFacts.

Lemma fromFirst_app (c : ascii) (a s : string) :
  fromFirst c a = None -> fromFirst c (a ++ s) = fromFirst c s.
Proof.
  induction a as [|x a IH]; intro H; [reflexivity|].
  cbn [append fromFirst] in *. destruct (Ascii.eqb x c); [discriminate | apply IH, H].
Qed.

Lemma throughLast_app (c : ascii) (s t : string) :
  throughLast c t = None ->
  throughLast c (s ++ String c t) = Some (s ++ String c EmptyString).
Proof.
  intro H. induction s as [|x s IH].
  - cbn [append throughLast]. rewrite H, Ascii.eqb_refl. reflexivity.
  - cbn [append throughLast]. rewrite IH. reflexivity.
Qed.

Lemma jsonMatch_object (prose body tail : string) :
  fromFirst "{" prose = None ->
  throughLast "}" tail = None ->
  jsonMatch (prose ++ "{" ++ body ++ "}" ++ tail) = Some ("{" ++ body ++ "}").
Proof.
  intros Hp Ht. unfold jsonMatch.
  rewrite (fromFirst_app _ _ _ Hp).
  change (fromFirst "{" ("{" ++ body ++ "}" ++ tail))
    with (Some (String "{" (body ++ String "}" tail))).
  cbv iota. rewrite (throughLast_app _ _ _ Ht). reflexivity.
Qed.

(** X23.  Prose around the JSON object does not change the interpretation:
    when the reply of the model is an object in braces preceded by text
    without an opening brace and followed by text without a closing brace,
    [parseModelResponse] extracts exactly the object, and parses the reply as
    it parses the object alone. *)
Theorem json_object_survives_surrounding_prose :
  forall (JSON_parse : string -> option ParsedResponse) (prose body tail : string),
    fromFirst "{" prose = None ->
    throughLast "}" tail = None ->
    jsonMatch (prose ++ "{" ++ body ++ "}" ++ tail) = Some ("{" ++ body ++ "}")
    /\ parseModelResponse_try JSON_parse (Some (prose ++ "{" ++ body ++ "}" ++ tail))
       = parseModelResponse_try JSON_parse (Some ("{" ++ body ++ "}")).
Proof.
  intros JSON_parse prose body tail Hp Ht.
  split; [apply jsonMatch_object; assumption|].
  unfold parseModelResponse_try.
  rewrite (jsonMatch_object prose body tail Hp Ht).
  pose proof (jsonMatch_object "" body "" eq_refl eq_refl) as E.
  cbn [append] in E. cbn [append]. rewrite E. reflexivity.
Qed.

(** The theorem at a reply that wraps the object in a sentence. *)
Lemma json_object_survives_surrounding_prose_witness :
  jsonMatch ("Here is the structured query: " ++ "{"
             ++ String (ascii_of_nat 34) "limit" ++ String (ascii_of_nat 34) ": 10"
             ++ "}" ++ " Let me know if it helps.")
  = Some ("{" ++ String (ascii_of_nat 34) "limit" ++ String (ascii_of_nat 34) ": 10" ++ "}").
Proof.
  apply (json_object_survives_surrounding_prose
           Samples.rejectAll "Here is the structured query: "
           (String (ascii_of_nat 34) "limit" ++ String (ascii_of_nat 34) ": 10")
           " Let me know if it helps."); reflexivity.
Defined.

End JsonMatchFacts.

Module TransformationFacts.
Import Js JsFacts ArrayFacts TrendAnalysis Transformations TrendFacts.

(** X24.  The two counters in the metadata of [transformViolationData]
    each partition the rows: the counts by status add up to the number of
    rows, and so do the counts by source; a status (a source) has an entry
    exactly when some row has it, a row without one being filed under
    Unknown, and its entry is the number of those rows; no key is listed
    twice. *)
Theorem violation_counters_partition_rows :
  forall (rows : list ViolationRow),
    let metadata := snd (transformViolationData rows) in
    v_count metadata = List.length rows
    /\ total (violationsByStatus metadata) = Z.of_nat (List.length rows)
    /\ total (violationsBySource metadata) = Z.of_nat (List.length rows)
    /\ NoDup (map fst (violationsByStatus metadata))
    /\ NoDup (map fst (violationsBySource metadata))
    /\ (forall status n,
          In (status, n) (violationsByStatus metadata)
          <-> 0 < n /\ n = occurrences statusOf status rows)
    /\ (forall name n,
          In (name, n) (violationsBySource metadata)
          <-> 0 < n /\ n = occurrences sourceOf name rows).
Proof.
  intro rows. cbv zeta. cbn [transformViolationData snd v_count violationsByStatus
                             violationsBySource].
  split; [reflexivity|].
  split; [rewrite total_tally; reflexivity|].
  split; [rewrite total_tally; reflexivity|].
  split; [apply nodup_tally; constructor|].
  split; [apply nodup_tally; constructor|].
  split; intros k n; apply in_tally.
Qed.

(** X25.  [transformTrendAnalysisData] returns the rows in chronological
    order, none lost and none added, and a [timeRange] whose start and end
    are the time periods of rows, with every row between them; both are null
    exactly when there is no row. *)
Theorem time_range_spans_the_rows :
  forall (rows : list TrendRow),
    let sortedData := fst (transformTrendAnalysisData rows) in
    let timeRange := snd (transformTrendAnalysisData rows) in
    Permutation sortedData rows
    /\ StronglySorted (fun a b => time_period a <= time_period b) sortedData
    /\ match range_start timeRange, range_end timeRange with
       | Some first, Some final =>
           (forall row, In row rows -> first <= time_period row <= final)
           /\ (exists row, In row rows /\ time_period row = first)
           /\ (exists row, In row rows /\ time_period row = final)
       | None, None => rows = []
       | _, _ => False
       end.
Proof.
  intro rows. cbv zeta. unfold transformTrendAnalysisData. cbn [fst snd].
  pose proof (sorted_earlier rows) as HS.
  pose proof (sort_by_perm earlier rows) as HP.
  split; [exact HP|]. split; [exact HS|].
  destruct (sort_by earlier rows) as [|first rest] eqn:E; cbn [range_start range_end].
  - apply Permutation_nil in HP. exact HP.
  - assert (Hin : forall x, In x (first :: rest) <-> In x rows).
    { intro x. split; intro H.
      - eapply Permutation_in; [exact HP | exact H].
      - eapply Permutation_in; [apply Permutation_sym, HP | exact H]. }
    split; [|split].
    + intros row H. apply Hin in H. split.
      * inversion HS as [|? ? _ Hf]; subst. rewrite Forall_forall in Hf.
        destruct H as [<-|H]; [lia | apply Hf, H].
      * destruct (sorted_last _ _ HS first row H) as [<-|Hle]; [lia | exact Hle].
    + exists first. split; [apply Hin; left; reflexivity | reflexivity].
    + exists (last (first :: rest) first). split; [|reflexivity].
      apply Hin. apply last_in.
Qed.

End TransformationFacts.

(** ** Charts *)

Module VisualizationFacts.
Import Js JsFacts ArrayFacts Visualization.

(** A sorted list cut in two: the first part is sorted and every element of
    it comes before every element of the rest. *)
Lemma sorted_cut {A : Type} (R : A -> A -> Prop) (l : list A) :
  StronglySorted R l ->
  forall n,
    StronglySorted R (firstn n l)
    /\ forall a b, In a (firstn n l) -> In b (skipn n l) -> R a b.
Proof.
  induction 1 as [|x l Hl IH Hx]; intro n.
  - rewrite firstn_nil. split; [constructor | intros a b []].
  - destruct n as [|n]; [split; [constructor | intros a b []]|].
    cbn [firstn skipn]. destruct (IH n) as [Hs Hc]. split.
    + constructor; [exact Hs|].
      rewrite Forall_forall in *. intros y Hy. apply Hx.
      rewrite <- (firstn_skipn n l). apply in_or_app. left. exact Hy.
    + intros a b [<-|Ha] Hb.
      * rewrite Forall_forall in Hx. apply Hx.
        rewrite <- (firstn_skipn n l). apply in_or_app. right. exact Hb.
      * apply Hc; assumption.
Qed.

Lemma top_sorted (data : list DataTransformation.Building) :
  StronglySorted
    (fun a b => (DataTransformation.risk_score b <= DataTransformation.risk_score a)%Q)
    (sort_by (fun a b : DataTransformation.Building =>
                Qlt_bool (DataTransformation.risk_score b) (DataTransformation.risk_score a))
             data).
Proof.
  apply sort_by_sorted.
  - intros a b H. apply Qlt_bool_iff in H. apply Qlt_le_weak, H.
  - intros a b H. unfold Qlt_bool in H. apply negb_false_iff, Qle_bool_iff in H.
    exact H.
  - intros a b c H1 H2. apply Qle_trans with (DataTransformation.risk_score b); assumption.
Qed.

Lemma categories_not_table (charts : list Chart) (chart : Chart)
      (rows : list (string * string * Z * Fixed1 * string)) :
  (forall c, In c charts -> exists items, Visualization.data c = Categories items) ->
  In chart charts -> Visualization.data chart = RiskTable rows -> False.
Proof.
  intros H Hin Hd. destruct (H chart Hin) as (items & E). congruence.
Qed.

(** X26.  The charts of a risk analysis: for every row set, even the empty
    one, there is the pie chart of the risk levels; the two bar charts and
    the table of top buildings follow it exactly when some building is
    high-risk.  The table shows the high-risk buildings of the highest
    scores: 10 of them, or all when they are fewer, one row each, from the
    highest score to the lowest, and no high-risk building that is left out
    has a higher score than one that is shown.  Without a row set there is
    no chart. *)
Theorem risk_charts_follow_the_high_risk_group :
  forall (data : list DataTransformation.Building),
    let charts :=
      generateRiskAssessmentVisualizations (DataAnalysis.analyzeRiskData (Some data)) in
    let highRisk :=
      filter (fun b => String.eqb (DataTransformation.risk_level b) "High") data in
    map title charts
    = ("Risk Level Distribution"
       :: (if Nat.ltb 0 (List.length highRisk)
           then ["High Risk Buildings by Borough"; "Risk Level by Building Age";
                 "Top High Risk Buildings"]
           else []))%list
    /\ (forall chart rows,
          In chart charts -> Visualization.data chart = RiskTable rows ->
          exists shown hidden,
            Permutation (shown ++ hidden) highRisk
            /\ List.length shown = Nat.min 10 (List.length highRisk)
            /\ rows = map riskTableRow shown
            /\ StronglySorted
                 (fun a b => (DataTransformation.risk_score b
                              <= DataTransformation.risk_score a)%Q) shown
            /\ (forall a b, In a shown -> In b hidden ->
                            (DataTransformation.risk_score b
                             <= DataTransformation.risk_score a)%Q))
    /\ generateRiskAssessmentVisualizations (DataAnalysis.analyzeRiskData None) = [].
Proof.
  intro data. cbv zeta.
  set (highRisk := filter _ data).
  unfold DataAnalysis.analyzeRiskData. fold highRisk.
  set (top := sort_by _ highRisk).
  assert (L : List.length top = List.length highRisk) by apply length_sort_by.
  rewrite <- L.
  split; [|split; [|reflexivity]].
  - destruct (Nat.ltb_spec 0 (List.length top)) as [P|P];
      unfold generateRiskAssessmentVisualizations;
      cbn [DataAnalysis.riskDistribution DataAnalysis.riskByBorough
           DataAnalysis.riskByBuildingAge DataAnalysis.topRiskBuildings].
    + destruct top as [|b r]; [cbn in P; lia|]. reflexivity.
    + destruct top as [|b r]; [reflexivity | cbn in P; lia].
  - intros chart rows Hin Hd.
    assert (T : rows = map riskTableRow (firstn 10 top)).
    { unfold generateRiskAssessmentVisualizations in Hin.
      destruct (Nat.ltb 0 (List.length top));
        cbn [DataAnalysis.riskDistribution DataAnalysis.riskByBorough
             DataAnalysis.riskByBuildingAge DataAnalysis.topRiskBuildings] in Hin;
        repeat (apply in_app_or in Hin; destruct Hin as [Hin|Hin];
                [destruct Hin as [<-|[]]; discriminate Hd|]);
        (destruct top as [|b r] eqn:Et; [destruct Hin|]);
        destruct Hin as [<-|[]]; cbn [Visualization.data] in Hd; congruence. }
    exists (firstn 10 top), (skipn 10 top).
    destruct (sorted_cut _ top (top_sorted highRisk) 10) as [Hs Hc].
    split; [|split; [|split; [exact T | split; [exact Hs | exact Hc]]]].
    + rewrite firstn_skipn. apply sort_by_perm.
    + apply length_firstn.
Qed.

(** X27.  The charts of a trend analysis over at least one row: the trend
    line and the moving average, always; the year-over-year comparison from
    13 periods on; the table of significant changes when there is one.  The
    moving-average chart has two points fewer than there are periods, so
    below three periods it is drawn without any point.  No row, no
    chart. *)
Theorem trend_charts_follow_the_series :
  forall (toLocaleDateString : Z -> string) (getMonth : Z -> nat)
         (data : list TrendAnalysis.TrendRow),
    let results := TrendAnalysis.analyzeTrendData getMonth (Some data) in
    let charts := generateTrendAnalysisVisualizations toLocaleDateString results in
    map title charts
    = match data with
      | [] => []
      | _ =>
          (["Trend Over Time"; "Moving Average (3-month)"]
           ++ (if Nat.leb 13 (List.length data) then ["Year-over-Year Comparison"] else [])
           ++ (match TrendAnalysis.significantChanges results with
               | [] => []
               | _ => ["Significant Changes"]
               end))%list
      end
    /\ (forall chart points,
          In chart charts -> Visualization.data chart = AverageSeries points ->
          List.length points = (List.length data - 2)%nat).
Proof.
  intros toLocaleDateString getMonth data. cbv zeta.
  destruct data as [|r0 rs]; [split; [reflexivity | intros ? ? []]|].
  unfold TrendAnalysis.analyzeTrendData, generateTrendAnalysisVisualizations.
  cbn [TrendAnalysis.trendLine TrendAnalysis.movingAverage
       TrendAnalysis.yearOverYearComparison TrendAnalysis.significantChanges].
  rewrite length_sort_by.
  set (sorted := sort_by TrendAnalysis.earlier (r0 :: rs)).
  split.
  - destruct (Nat.leb 13 (List.length (r0 :: rs)));
      destruct (TrendAnalysis.significantChangesOf sorted); reflexivity.
  - intros chart points Hin Hd.
    assert (M : List.length (TrendAnalysis.movingAverageOf sorted)
                = (List.length (r0 :: rs) - 2)%nat).
    { rewrite TrendFacts.movingAverageOf_length. unfold sorted.
      rewrite length_sort_by. reflexivity. }
    destruct (Nat.leb 13 (List.length (r0 :: rs)));
      destruct (TrendAnalysis.significantChangesOf sorted);
      cbn [app In] in Hin;
      repeat (destruct Hin as [<-|Hin]; cbn [Visualization.data] in Hd;
              try discriminate;
              try (match type of Hd with
                   | AverageSeries ?m = _ =>
                       assert (E : m = points) by congruence; rewrite <- E; exact M
                   end));
      destruct Hin.
Qed.

End VisualizationFacts.
